(** * Patient portal: validation and session core

    A shallow embedding of [forms.py] (field and form validators) and of the
    session guard of [routes.py], followed by the properties proved of them.

    Conventions of the embedding.
    - A Python [str] is a [string]; a character is an [ascii], read as the
      code point of the same number (U+0000 .. U+00FF).  The character
      classes below ([isspace], the decimal digits, case mapping) are Python's,
      restricted to that range.
    - A submission ([request.form]) is a [gmap string string]: key presence
      is [is_Some (data !! k)] and [data[k]] is the value stored there.
    - [None] returned by a validator is [None]; an error message is [Some msg].
    - The ambient clock ([date.today()], [datetime.utcnow()]) is a parameter
      of the function that reads it. *)

From Stdlib Require Import ZArith NArith Ascii String List Bool Lia.
From stdpp Require Import base gmap strings.

(* ===================================================================== *)
(** * Part I: the embedding                                               *)
(* ===================================================================== *)

(** ** Python characters and [str] methods *)
Module PyStr.

Definition code (c : ascii) : N := N_of_ascii c.

Definition between (lo hi : N) (c : ascii) : bool :=
  ((lo <=? code c) && (code c <=? hi))%N.

(** [str.isspace] on one character; also the class [\s] of [re]. *)
Definition isspace (c : ascii) : bool :=
  between 9 13 c || between 28 32 c || (code c =? 133)%N || (code c =? 160)%N.

(** The class [\d] of [re]: decimal digits (category Nd). *)
Definition is_decimal (c : ascii) : bool := between 48 57 c.

(** The classes [A-Z] and [a-z] of [re]. *)
Definition is_AZ (c : ascii) : bool := between 65 90 c.
Definition is_az (c : ascii) : bool := between 97 122 c.

(** Cased characters, as [str.title] tests them. *)
Definition is_cased (c : ascii) : bool :=
  is_AZ c || is_az c || between 192 214 c || between 216 246 c
  || between 248 255 c
  || (code c =? 170)%N || (code c =? 181)%N || (code c =? 186)%N.

Definition lower_char (c : ascii) : ascii :=
  if is_AZ c || between 192 214 c || between 216 222 c
  then ascii_of_N (code c + 32) else c.

(** Upper/title case of one character.  The three letters of the range
    whose upper case lies outside it (U+00B5, U+00DF, U+00FF) are left as
    they are; the source title-cases field names only. *)
Definition upper_char (c : ascii) : ascii :=
  if is_az c || between 224 246 c || between 248 254 c
  then ascii_of_N (code c - 32) else c.

(** [bool(s)] for a string: non-empty. *)
Definition truthy (s : string) : bool :=
  match s with EmptyString => false | String _ _ => true end.

Fixpoint lower (s : string) : string :=
  match s with
  | EmptyString => EmptyString
  | String c s' => String (lower_char c) (lower s')
  end.

Fixpoint title_from (prev_cased : bool) (s : string) : string :=
  match s with
  | EmptyString => EmptyString
  | String c s' =>
      String (if prev_cased then lower_char c else upper_char c)
             (title_from (is_cased c) s')
  end.

(** [s.title()] *)
Definition title (s : string) : string := title_from false s.

(** [s.replace(a, b)] for one-character [a] and [b]. *)
Fixpoint replace (a b : ascii) (s : string) : string :=
  match s with
  | EmptyString => EmptyString
  | String c s' => String (if Ascii.eqb c a then b else c) (replace a b s')
  end.

Fixpoint lstrip (s : string) : string :=
  match s with
  | EmptyString => EmptyString
  | String c s' => if isspace c then lstrip s' else s
  end.

Fixpoint rstrip (s : string) : string :=
  match s with
  | EmptyString => EmptyString
  | String c s' =>
      match rstrip s' with
      | EmptyString => if isspace c then EmptyString else String c EmptyString
      | t => String c t
      end
  end.

(** [s.strip()] *)
Definition strip (s : string) : string := rstrip (lstrip s).

(** [x in l] for a list of strings. *)
Definition str_in (x : string) (l : list string) : bool :=
  existsb (String.eqb x) l.

End PyStr.

(** ** The fragment of [re] the validators use *)
Module Re.
Import PyStr.

Inductive regex : Type :=
| Empty
| Eps
| Chr (p : ascii -> bool)
| Cat (r1 r2 : regex)
| Alt (r1 r2 : regex)
| Star (r : regex).

Definition Plus (r : regex) : regex := Cat r (Star r).

Fixpoint nullable (r : regex) : bool :=
  match r with
  | Empty => false
  | Eps => true
  | Chr _ => false
  | Cat r1 r2 => nullable r1 && nullable r2
  | Alt r1 r2 => nullable r1 || nullable r2
  | Star _ => true
  end.

Fixpoint deriv (c : ascii) (r : regex) : regex :=
  match r with
  | Empty => Empty
  | Eps => Empty
  | Chr p => if p c then Eps else Empty
  | Cat r1 r2 =>
      if nullable r1 then Alt (Cat (deriv c r1) r2) (deriv c r2)
      else Cat (deriv c r1) r2
  | Alt r1 r2 => Alt (deriv c r1) (deriv c r2)
  | Star r1 => Cat (deriv c r1) (Star r1)
  end.

(** Does the whole of [s] belong to the language of [r]? *)
Fixpoint fullmatch (r : regex) (s : string) : bool :=
  match s with
  | EmptyString => nullable r
  | String c s' => fullmatch (deriv c r) s'
  end.

Definition any : regex := Chr (fun _ => true).

(** Membership of a character in a bracket expression given by its
    literal characters. *)
Fixpoint one_of (set : string) (c : ascii) : bool :=
  match set with
  | EmptyString => false
  | String a set' => Ascii.eqb c a || one_of set' c
  end.

Definition alnum (c : ascii) : bool := is_az c || is_AZ c || is_decimal c.
Definition alpha (c : ascii) : bool := is_az c || is_AZ c.
Definition newline : ascii := ascii_of_N 10.

(** [re.match('^' r '$', s)] is not None: [$] stands at the end of the
    string or just before a newline that ends it. *)
Definition match_anchored (r : regex) (s : string) : bool :=
  fullmatch (Cat r (Alt Eps (Chr (Ascii.eqb newline)))) s.

(** [re.search(r, s)] is not None. *)
Definition search (r : regex) (s : string) : bool :=
  fullmatch (Cat (Star any) (Cat r (Star any))) s.

(** [re.sub(cls, '', s)] for a one-character class [cls]. *)
Fixpoint sub_class_empty (cls : ascii -> bool) (s : string) : string :=
  match s with
  | EmptyString => EmptyString
  | String c s' =>
      if cls c then sub_class_empty cls s' else String c (sub_class_empty cls s')
  end.

End Re.

(** ** [datetime.date] and [strptime] with the format [%Y-%m-%d] *)
Module Datetime.
Import PyStr.
Local Open Scope Z_scope.

Record date : Type := mkdate { year : Z; month : Z; day : Z }.

Definition is_leap (y : Z) : bool :=
  (y mod 4 =? 0) && (negb (y mod 100 =? 0) || (y mod 400 =? 0)).

Definition days_in_month (y m : Z) : Z :=
  if m =? 2 then (if is_leap y then 29 else 28)
  else if (m =? 4) || (m =? 6) || (m =? 9) || (m =? 11) then 30
  else 31.

(** The check of the [date] constructor (it raises ValueError otherwise). *)
Definition date_ok (y m d : Z) : bool :=
  (1 <=? y) && (y <=? 9999) && (1 <=? m) && (m <=? 12)
  && (1 <=? d) && (d <=? days_in_month y m).

(** [(a1, a2) < (b1, b2)] on tuples of integers. *)
Definition pair_ltb (a b : Z * Z) : bool :=
  (fst a <? fst b) || ((fst a =? fst b) && (snd a <? snd b)).

(** [a < b] on dates. *)
Definition date_ltb (a b : date) : bool :=
  (year a <? year b)
  || ((year a =? year b) && pair_ltb (month a, day a) (month b, day b)).

Definition digit_val (c : ascii) : Z := Z.of_N (code c) - 48.

(** The groups of the regular expression [strptime] builds for the format,
    in continuation style: an alternative whose continuation fails gives way
    to the next one, as the backtracking matcher does. *)
Definition or_else {A : Type} (x y : option A) : option A :=
  match x with Some _ => x | None => y end.

Definition lit {A : Type} (ch : ascii) (s : string)
    (k : string -> option A) : option A :=
  match s with
  | String c rest => if Ascii.eqb c ch then k rest else None
  | EmptyString => None
  end.

(** One character of the class [cls]. *)
Definition one {A : Type} (cls : ascii -> bool) (s : string)
    (k : Z -> string -> option A) : option A :=
  match s with
  | String c rest => if cls c then k (digit_val c) rest else None
  | EmptyString => None
  end.

(** [%Y]: [\d\d\d\d] *)
Definition group_Y {A : Type} (s : string) (k : Z -> string -> option A) : option A :=
  one is_decimal s (fun a s1 =>
  one is_decimal s1 (fun b s2 =>
  one is_decimal s2 (fun c s3 =>
  one is_decimal s3 (fun d s4 =>
  k (1000 * a + 100 * b + 10 * c + d) s4)))).

(** [%m]: [1[0-2]|0[1-9]|[1-9]] *)
Definition group_m {A : Type} (s : string) (k : Z -> string -> option A) : option A :=
  or_else (lit "1" s (fun s1 => one (between 48 50) s1 (fun b s2 => k (10 + b) s2)))
 (or_else (lit "0" s (fun s1 => one (between 49 57) s1 (fun b s2 => k b s2)))
          (one (between 49 57) s (fun b s1 => k b s1))).

(** [%d]: [3[0-1]|[1-2]\d|0[1-9]|[1-9]| [1-9]] *)
Definition group_d {A : Type} (s : string) (k : Z -> string -> option A) : option A :=
  or_else (lit "3" s (fun s1 => one (between 48 49) s1 (fun b s2 => k (30 + b) s2)))
 (or_else (one (between 49 50) s (fun a s1 => one is_decimal s1 (fun b s2 => k (10 * a + b) s2)))
 (or_else (lit "0" s (fun s1 => one (between 49 57) s1 (fun b s2 => k b s2)))
 (or_else (one (between 49 57) s (fun b s1 => k b s1))
          (lit " " s (fun s1 => one (between 49 57) s1 (fun b s2 => k b s2)))))).

(** [format_regex.match(data_string)]: the three groups and the text left
    after the match. *)
Definition format_regex_match (s : string) : option (Z * Z * Z * string) :=
  group_Y s (fun y s1 =>
  lit "-" s1 (fun s2 =>
  group_m s2 (fun m s3 =>
  lit "-" s3 (fun s4 =>
  group_d s4 (fun d rest => Some (y, m, d, rest)))))).

(** [datetime.strptime(s, '%Y-%m-%d').date()]; [None] stands for the
    ValueError raised when the text does not match, when text remains after
    the match, or when the numbers are not a date. *)
Definition strptime_Ymd (s : string) : option date :=
  match format_regex_match s with
  | None => None
  | Some (y, m, d, rest) =>
      if truthy rest then None
      else if date_ok y m d then Some (mkdate y m d)
      else None
  end.

End Datetime.

(** ** [forms.py]: [FormValidator] *)
Module FormValidator.
Import PyStr Re Datetime.

(** The double quote, which a string literal cannot hold. *)
Definition dquote : ascii := ascii_of_N 34.

(** [field not in data or not data[field] or str(data[field]).strip() == ''] *)
Definition missing_or_blank (data : gmap string string) (field : string) : bool :=
  match data !! field with
  | None => true
  | Some v => negb (truthy v) || String.eqb (strip v) EmptyString
  end.

Fixpoint validate_required_fields (data : gmap string string)
    (required_fields : list string) : list string :=
  match required_fields with
  | [] => []
  | field :: rest =>
      (if missing_or_blank data field
       then [title (replace "_" " " field) +:+ " is required"]
       else [])
      ++ validate_required_fields data rest
  end.

(** [^[a-zA-Z0-9._%+-]+@[a-zA-Z0-9.-]+\.[a-zA-Z]{2,}$] without its anchors *)
Definition email_pattern : regex :=
  Cat (Plus (Chr (fun c => alnum c || one_of "._%+-" c)))
 (Cat (Chr (Ascii.eqb "@"))
 (Cat (Plus (Chr (fun c => alnum c || one_of ".-" c)))
 (Cat (Chr (Ascii.eqb "."))
 (Cat (Chr alpha) (Cat (Chr alpha) (Star (Chr alpha))))))).

Definition validate_email (email : string) : option string :=
  if negb (truthy email) then Some "Email is required"
  else if negb (match_anchored email_pattern email)
  then Some "Please enter a valid email address"
  else None.

Definition validate_phone (phone : string) : option string :=
  if negb (truthy phone) then Some "Phone number is required"
  else
    let digits_only := sub_class_empty (fun c => negb (is_decimal c)) phone in
    if (String.length digits_only <? 10)%nat
    then Some "Phone number must be at least 10 digits"
    else if (15 <? String.length digits_only)%nat
    then Some "Phone number is too long"
    else None.

(** The characters of the bracket expression of the last password check. *)
Definition special_chars : string :=
  "!@#$%^&*()_+-=[]{};':" +:+ String dquote "\|,.<>/?".

Definition validate_password (password : string) : option string :=
  if negb (truthy password) then Some "Password is required"
  else if (String.length password <? 8)%nat
  then Some "Password must be at least 8 characters long"
  else if negb (search (Chr is_AZ) password)
  then Some "Password must contain at least one uppercase letter"
  else if negb (search (Chr is_az) password)
  then Some "Password must contain at least one lowercase letter"
  else if negb (search (Chr is_decimal) password)
  then Some "Password must contain at least one number"
  else if negb (search (Chr (one_of special_chars)) password)
  then Some "Password must contain at least one special character (!@#$%^&*)"
  else None.

(** [today] is the value of [date.today()]. *)
Definition validate_date_of_birth (today : date) (dob_str : string) : option string :=
  if negb (truthy dob_str) then Some "Date of birth is required"
  else
    match strptime_Ymd dob_str with
    | None => Some "Please enter a valid date in YYYY-MM-DD format"
    | Some dob =>
        if date_ltb today dob then Some "Date of birth cannot be in the future"
        else
          let age :=
            (year today - year dob
             - (if pair_ltb (month today, day today) (month dob, day dob)
                then 1 else 0))%Z in
          if (age <? 13)%Z then Some "Patient must be at least 13 years old"
          else if (120 <? age)%Z then Some "Please enter a valid date of birth"
          else None
    end.

(** [^[a-zA-Z\s\-']+$] without its anchors *)
Definition name_pattern : regex :=
  Plus (Chr (fun c => alpha c || isspace c || one_of "-'" c)).

Definition validate_name (name field_name : string) : option string :=
  if negb (truthy name) then Some (field_name +:+ " is required")
  else if (String.length (strip name) <? 2)%nat
  then Some (field_name +:+ " must be at least 2 characters long")
  else if (50 <? String.length (strip name))%nat
  then Some (field_name +:+ " must be less than 50 characters")
  else if negb (match_anchored name_pattern name)
  then Some (field_name +:+ " can only contain letters, spaces, hyphens, and apostrophes")
  else None.

Definition valid_genders : list string :=
  ["male"; "female"; "other"; "prefer_not_to_say"].

Definition validate_gender (gender : string) : option string :=
  if negb (truthy gender) then Some "Gender is required"
  else if negb (str_in (lower gender) valid_genders)
  then Some "Please select a valid gender option"
  else None.

Definition validate_address (address : string) : option string :=
  if negb (truthy address) then Some "Address is required"
  else if (String.length (strip address) <? 10)%nat
  then Some "Please enter a complete address"
  else if (200 <? String.length (strip address))%nat
  then Some "Address is too long"
  else None.

End FormValidator.

(** ** [forms.py]: [RegistrationForm] *)
Module RegistrationForm.
Import PyStr Datetime FormValidator.

Record t : Type := mk { data : gmap string string; errors : list string }.

(** [__init__] *)
Definition init (form_data : gmap string string) : t :=
  {| data := form_data; errors := [] |}.

Definition required_fields : list string :=
  [ "first_name"; "last_name"; "email"; "phone"; "date_of_birth";
    "gender"; "address"; "emergency_contact_name"; "emergency_contact_phone";
    "password"; "confirm_password" ].

(** [if key in self.data: error = v(self.data[key]); if error:
    self.errors.append(wrap(error))] *)
Definition check_field (d : gmap string string) (key : string)
    (v : string -> option string) (wrap : string -> string)
    (errs : list string) : list string :=
  match d !! key with
  | Some x =>
      match v x with
      | Some error => if truthy error then errs ++ [wrap error] else errs
      | None => errs
      end
  | None => errs
  end.

(** The error list [validate] builds; [today] is the value of
    [date.today()]. *)
Definition validate_errors (today : date) (d : gmap string string) : list string :=
  let e0 := [] ++ validate_required_fields d required_fields in
  let e1 := check_field d "first_name" (fun x => validate_name x "First name") id e0 in
  let e2 := check_field d "last_name" (fun x => validate_name x "Last name") id e1 in
  let e3 := check_field d "email" validate_email id e2 in
  let e4 := check_field d "phone" validate_phone id e3 in
  let e5 := check_field d "date_of_birth" (validate_date_of_birth today) id e4 in
  let e6 := check_field d "gender" validate_gender id e5 in
  let e7 := check_field d "address" validate_address id e6 in
  let e8 := check_field d "emergency_contact_name"
              (fun x => validate_name x "Emergency contact name") id e7 in
  let e9 := check_field d "emergency_contact_phone" validate_phone
              (fun error => "Emergency contact " +:+ lower error) e8 in
  let e10 := check_field d "password" validate_password id e9 in
  match d !! "password", d !! "confirm_password" with
  | Some p, Some c => if String.eqb p c then e10 else e10 ++ ["Passwords do not match"]
  | _, _ => e10
  end.

(** [validate(self)]: the returned flag and the form with its error state
    replaced. *)
Definition validate (today : date) (self : t) : bool * t :=
  let errs := validate_errors today (data self) in
  (Nat.eqb (length errs) 0, {| data := data self; errors := errs |}).

Definition get_errors (self : t) : list string := errors self.

End RegistrationForm.

(** ** [forms.py]: [LoginForm] *)
Module LoginForm.
Import PyStr FormValidator.

Record t : Type := mk { data : gmap string string; errors : list string }.

Definition init (form_data : gmap string string) : t :=
  {| data := form_data; errors := [] |}.

(** [not self.data.get(key)] *)
Definition absent (d : gmap string string) (key : string) : bool :=
  match d !! key with
  | None => true
  | Some v => negb (truthy v)
  end.

Definition validate_errors (d : gmap string string) : list string :=
  let e1 :=
    if absent d "email" then [] ++ ["Email is required"]
    else
      match d !! "email" with
      | Some v =>
          match validate_email v with
          | Some error => if truthy error then [] ++ [error] else []
          | None => []
          end
      | None => []
      end in
  if absent d "password" then e1 ++ ["Password is required"] else e1.

Definition validate (self : t) : bool * t :=
  let errs := validate_errors (data self) in
  (Nat.eqb (length errs) 0, {| data := data self; errors := errs |}).

Definition get_errors (self : t) : list string := errors self.

End LoginForm.

(** ** [routes.py]: session guard and login *)
Module Routes.
Import PyStr.

(** The instant [datetime.utcnow()] returns, in microseconds (the
    resolution of [datetime]) since a fixed origin. *)
Definition instant : Type := Z.

(** Values the handlers store in the session.  [VTime t] is the text
    [t.isoformat()], which [datetime.fromisoformat] reads back as [t]. *)
Inductive sval : Type :=
| VInt (n : Z)
| VStr (s : string)
| VTime (t : instant).

Inductive response : Type :=
| Redirect (endpoint : string)      (* redirect(url_for(endpoint)) *)
| Render (template : string)        (* render_template(template) *)
| Abort (status : Z).               (* an exception that ends the request *)

(** The request context a handler works in: the keys the handlers store in
    the session, and the queue of flashed (message, category) pairs.  Flask
    keeps that queue in the session too, under the key [_flashes], which no
    handler reads or writes by name; it is a field of its own here. *)
Record ctx : Type := mkctx {
  session : gmap string sval;
  flashes : list (string * string)
}.

(** [flash(message, category)]: appended to [session['_flashes']]. *)
Definition flash (message category : string) (c : ctx) : ctx :=
  {| session := session c; flashes := flashes c ++ [(message, category)] |}.

(** [session.clear()]: every key goes, [_flashes] with the others, so the
    messages flashed and not yet shown are dropped. *)
Definition session_clear (c : ctx) : ctx :=
  {| session := ∅; flashes := [] |}.

Definition session_set (k : string) (v : sval) (c : ctx) : ctx :=
  {| session := <[k := v]> (session c); flashes := flashes c |}.

(** [delta.total_seconds() > secs] for a difference of [delta_us]
    microseconds: the quotient by 10^6 is rounded to the nearest float,
    which preserves the comparison with an integer number of seconds. *)
Definition total_seconds_gt (delta_us secs : Z) : bool :=
  (secs * 1000000 <? delta_us)%Z.

(** [check_session_timeout], run before each request; [now] is the value
    of [datetime.utcnow()].  [None] lets the request go on. *)
Definition check_session_timeout (now : instant) (c : ctx) : ctx * option response :=
  match session c !! "patient_id" with
  | Some _ =>
      match session c !! "last_activity" with
      | Some (VTime last) =>
          let time_since_activity := (now - last)%Z in
          if total_seconds_gt time_since_activity 1800
          then
            (flash "Your session has expired. Please log in again." "warning"
               (session_clear c),
             Some (Redirect "login"))
          else (session_set "last_activity" (VTime now) c, None)
      | Some _ => (c, Some (Abort 500))
      | None => (session_set "last_activity" (VTime now) c, None)
      end
  | None => (c, None)
  end.

(** [login_required(f)]: the decorated function. *)
Definition login_required {A : Type} (f : A -> ctx -> ctx * response)
    : A -> ctx -> ctx * response :=
  fun args c =>
    match session c !! "patient_id" with
    | None =>
        (flash "Please log in to access this page." "warning" c,
         Redirect "login")
    | Some _ => f args c
    end.

(** A patient record as the handlers use it; [check_password] is the
    method of the record (its body is in the persistence layer). *)
Record Patient : Type := mkPatient {
  id : Z;
  email : string;
  first_name : string;
  full_name : string;
  is_active : bool;
  last_login : option instant;
  check_password : string -> bool
}.

(** [Patient.query.filter_by(email=email).first()] *)
Definition query_first_by_email (db : list Patient) (e : string) : option Patient :=
  List.find (fun p => String.eqb (email p) e) db.

(** [patient.last_login = now; db.session.commit()] *)
Definition set_last_login (now : instant) (pid : Z) (db : list Patient) : list Patient :=
  map (fun p =>
         if (id p =? pid)%Z
         then mkPatient (id p) (email p) (first_name p) (full_name p)
                (is_active p) (Some now) (check_password p)
         else p) db.

Record request : Type := mkrequest {
  method : string;
  form : gmap string string
}.

Fixpoint flash_all (errs : list string) (category : string) (c : ctx) : ctx :=
  match errs with
  | [] => c
  | error :: rest => flash_all rest category (flash error category c)
  end.

(** [login()]; the result is the context, the record store and the
    response. *)
Definition login (now : instant) (req : request) (db : list Patient) (c : ctx)
    : ctx * list Patient * response :=
  match session c !! "patient_id" with
  | Some _ => (c, db, Redirect "dashboard")
  | None =>
      if String.eqb (method req) "POST" then
        let '(ok, frm) := LoginForm.validate (LoginForm.init (form req)) in
        if ok then
          match form req !! "email", form req !! "password" with
          | Some raw_email, Some password =>
              let email := lower (strip raw_email) in
              let patient := query_first_by_email db email in
              (* [patient and patient.check_password(password)] *)
              let checked :=
                match patient with
                | Some p => if check_password p password then Some p else None
                | None => None
                end in
              match checked with
              | Some patient =>
                  if is_active patient then
                    let c1 := session_set "patient_id" (VInt (id patient)) c in
                    let c2 := session_set "patient_name" (VStr (full_name patient)) c1 in
                    let c3 := session_set "last_activity" (VTime now) c2 in
                    let db' := set_last_login now (id patient) db in
                    (flash ("Welcome back, " +:+ first_name patient +:+ "!") "success" c3,
                     db', Redirect "dashboard")
                  else
                    (flash "Your account has been deactivated. Please contact support."
                       "danger" c,
                     db, Render "login.html")
              | None =>
                  (flash "Invalid email or password. Please try again." "danger" c,
                   db, Render "login.html")
              end
          | _, _ => (c, db, Abort 400)
          end
        else
          (flash_all (LoginForm.get_errors frm) "danger" c, db, Render "login.html")
      else (c, db, Render "login.html")
  end.

End Routes.

(** ** Vocabulary of the statements *)
Module Vocab.
Import PyStr Re.

(** The characters of a string, in order. *)
Definition chars (s : string) : list ascii := list_ascii_of_string s.

(** Some character of [s] is in the class [cls]. *)
Definition has_char (cls : ascii -> bool) (s : string) : Prop :=
  exists c, In c (chars s) /\ cls c = true.

(** Every character of [s] is white space (the empty string included). *)
Definition all_space (s : string) : Prop :=
  forall c, In c (chars s) -> isspace c = true.

(** Number of decimal digits of a string. *)
Definition digit_count (s : string) : nat :=
  length (List.filter is_decimal (chars s)).

(** The words a regular expression denotes. *)
Inductive lang : regex -> list ascii -> Prop :=
| lang_eps : lang Eps []
| lang_chr (p : ascii -> bool) c : p c = true -> lang (Chr p) [c]
| lang_cat r1 r2 u v : lang r1 u -> lang r2 v -> lang (Cat r1 r2) (u ++ v)
| lang_alt_l r1 r2 u : lang r1 u -> lang (Alt r1 r2) u
| lang_alt_r r1 r2 u : lang r2 u -> lang (Alt r1 r2) u
| lang_star_nil r : lang (Star r) []
| lang_star_app r u v : lang r u -> lang (Star r) v -> lang (Star r) (u ++ v).

(** The label of a required field: underscores replaced by spaces, then
    title-cased. *)
Definition field_label (field : string) : string :=
  title (replace "_" " " field).

End Vocab.

(** ** Vocabulary of the statements about dates *)
Module DateVocab.
Import PyStr Datetime.
Local Open Scope Z_scope.

(** [a] is a calendar day strictly before [b]. *)
Definition date_lt (a b : date) : Prop :=
  year a < year b
  \/ (year a = year b
      /\ (month a < month b \/ (month a = month b /\ day a < day b))).

(** The (month, day) of [a] is earlier in the year than that of [b]. *)
Definition md_before (a b : date) : Prop :=
  month a < month b \/ (month a = month b /\ day a < day b).

#[global] Instance md_before_dec a b : Decision (md_before a b).
Proof. unfold md_before. apply _. Defined.

(** Age in whole years on [today] of a person born on [dob]. *)
Definition age_on (today dob : date) : Z :=
  year today - year dob - (if decide (md_before today dob) then 1 else 0).

Definition valid_date (d : date) : Prop :=
  date_ok (year d) (month d) (day d) = true.

(** The digit [n] as a character. *)
Definition digit_char (n : Z) : ascii := ascii_of_N (Z.to_N (48 + n)).

Definition one_digit (n : Z) : string := String (digit_char n) EmptyString.

Definition two_digits (n : Z) : string :=
  String (digit_char (n / 10)) (String (digit_char (n mod 10)) EmptyString).

Definition four_digits (n : Z) : string :=
  String (digit_char (n / 1000))
 (String (digit_char (n / 100 mod 10))
 (String (digit_char (n / 10 mod 10))
 (String (digit_char (n mod 10)) EmptyString))).

(** [d.isoformat()]: four digits, a dash, two digits, a dash, two digits. *)
Definition isoformat (d : date) : string :=
  String.append (four_digits (year d))
    (String "-" (String.append (two_digits (month d))
       (String "-" (two_digits (day d))))).

(** The texts that stand for the month [m]: two digits, or one digit
    without its leading zero. *)
Definition month_text (m : Z) (t : string) : Prop :=
  t = two_digits m \/ (m <= 9 /\ t = one_digit m).

(** The texts that stand for the day [d]: two digits, or one digit alone
    or after a space. *)
Definition day_text (d : Z) (t : string) : Prop :=
  t = two_digits d
  \/ (d <= 9 /\ (t = one_digit d \/ t = String " " (one_digit d))).

(** The texts that stand for the date [d]: the year in four digits, a
    month text and a day text, with dashes between them. *)
Definition date_text (d : date) (s : string) : Prop :=
  exists mt dt,
    month_text (month d) mt /\ day_text (day d) dt
    /\ s = String.append (four_digits (year d))
             (String "-" (String.append mt (String "-" dt))).

(** The day after [d]. *)
Definition next_day (d : date) : date :=
  if day d <? days_in_month (year d) (month d)
  then mkdate (year d) (month d) (day d + 1)
  else if month d <? 12 then mkdate (year d) (month d + 1) 1
  else mkdate (year d + 1) 1 1.

(** The day of [today], thirteen years earlier. *)
Definition thirteen_years_before (today : date) : date :=
  mkdate (year today - 13) (month today) (day today).

End DateVocab.

(** ** Vocabulary of the statements about requests *)
Module RouteVocab.
Import PyStr Routes.

(** The notice flashed when a session has timed out. *)
Definition expired_notice : string * string :=
  ("Your session has expired. Please log in again.", "warning").

(** The two notices of a failed login. *)
Definition invalid_credentials : string * string :=
  ("Invalid email or password. Please try again.", "danger").

Definition account_deactivated : string * string :=
  ("Your account has been deactivated. Please contact support.", "danger").

(** What the caller sees of a login attempt: the context and the response. *)
Definition visible (r : ctx * list Patient * response) : ctx * response :=
  (fst (fst r), snd r).

End RouteVocab.

(** ** Sample data *)
Module Samples.
Import PyStr Routes.

(** A registration payload that is valid on 3 November 2026 except for its
    password confirmation. *)
Definition mismatch_payload : gmap string string :=
  <["first_name" := "Ada"]>
 (<["last_name" := "Lovelace"]>
 (<["email" := "ada@example.org"]>
 (<["phone" := "555-123-4567"]>
 (<["date_of_birth" := "1990-12-10"]>
 (<["gender" := "Female"]>
 (<["address" := "12 St James Square, London"]>
 (<["emergency_contact_name" := "Anne Isabella"]>
 (<["emergency_contact_phone" := "+44 20 7946 0000"]>
 (<["password" := "ValidPass1!"]>
 (<["confirm_password" := "ValidPass2!"]> ∅)))))))))).

(** A view that records its run in the session. *)
Definition marking_view (_ : unit) (c : ctx) : ctx * response :=
  (session_set "ran" (VInt 1) c, Render "dashboard.html").

(** A record store with one active and one deactivated patient; the
    password of each is [Secret#1] followed by the identifier. *)
Definition sample_db : list Patient :=
  [ mkPatient 1 "ada@example.org" "Ada" "Ada Lovelace" true None
      (String.eqb "Secret#11");
    mkPatient 2 "bob@example.org" "Bob" "Bob Stone" false None
      (String.eqb "Secret#12") ].

Definition sample_request (email password : string) : request :=
  {| method := "POST";
     form := <["email" := email]> (<["password" := password]> ∅) |}.

End Samples.

(** ** Vocabulary of the statements about field validators *)
Module FormVocab.
Import PyStr Re Vocab.

(** Every character of [s] is in the class [cls]. *)
Definition all_chars (cls : ascii -> bool) (s : string) : Prop :=
  forall c, In c (chars s) -> cls c = true.

(** The character classes of the email pattern. *)
Definition local_part_char (c : ascii) : bool := alnum c || one_of "._%+-" c.
Definition domain_char (c : ascii) : bool := alnum c || one_of ".-" c.

(** A local part, an at sign, a domain, a dot and at least two letters. *)
Definition email_shape (e : string) : Prop :=
  exists local domain tld : string,
    e = String.append local (String "@" (String.append domain (String "." tld)))
    /\ local <> EmptyString /\ all_chars local_part_char local
    /\ domain <> EmptyString /\ all_chars domain_char domain
    /\ 2 <= String.length tld /\ all_chars alpha tld.

(** The text [s] followed by a newline. *)
Definition with_newline (s : string) : string :=
  String.append s (String newline EmptyString).

(** The characters a name may hold: letters, white space, hyphen, apostrophe. *)
Definition name_char (c : ascii) : bool := alpha c || isspace c || one_of "-'" c.

End FormVocab.

(** ** Vocabulary of the statements about the registration form *)
Module RegistrationVocab.
Import PyStr Datetime FormValidator RegistrationForm.

(** What each step of [validate] adds to the error list. *)
Definition step_errors (d : gmap string string) (key : string)
    (v : string -> option string) (wrap : string -> string) : list string :=
  check_field d key v wrap [].

Definition mismatch_errors (d : gmap string string) : list string :=
  match d !! "password", d !! "confirm_password" with
  | Some p, Some c => if String.eqb p c then [] else ["Passwords do not match"]
  | _, _ => []
  end.

(** The message each validated field gets from its own validator when its
    value is empty. *)
Definition own_required_message : list (string * string) :=
  [ ("first_name", "First name is required");
    ("last_name", "Last name is required");
    ("email", "Email is required");
    ("phone", "Phone number is required");
    ("date_of_birth", "Date of birth is required");
    ("gender", "Gender is required");
    ("address", "Address is required");
    ("emergency_contact_name", "Emergency contact name is required");
    ("emergency_contact_phone", "Emergency contact phone number is required");
    ("password", "Password is required") ].

(** The submission passes every field validator and repeats its password. *)
Definition all_fields_valid (today : date) (d : gmap string string) : Prop :=
  exists first_name last_name email phone date_of_birth gender address
         emergency_contact_name emergency_contact_phone password : string,
    d !! "first_name" = Some first_name
    /\ d !! "last_name" = Some last_name
    /\ d !! "email" = Some email
    /\ d !! "phone" = Some phone
    /\ d !! "date_of_birth" = Some date_of_birth
    /\ d !! "gender" = Some gender
    /\ d !! "address" = Some address
    /\ d !! "emergency_contact_name" = Some emergency_contact_name
    /\ d !! "emergency_contact_phone" = Some emergency_contact_phone
    /\ d !! "password" = Some password
    /\ d !! "confirm_password" = Some password
    /\ validate_name first_name "First name" = None
    /\ validate_name last_name "Last name" = None
    /\ validate_email email = None
    /\ validate_phone phone = None
    /\ validate_date_of_birth today date_of_birth = None
    /\ validate_gender gender = None
    /\ validate_address address = None
    /\ validate_name emergency_contact_name "Emergency contact name" = None
    /\ validate_phone emergency_contact_phone = None
    /\ validate_password password = None.

End RegistrationVocab.

(** ** [routes.py]: the other views *)
Module Views.
Import PyStr Datetime Routes.

(** [index()] *)
Definition index (c : ctx) : ctx * response :=
  match session c !! "patient_id" with
  | Some _ => (c, Redirect "dashboard")
  | None => (c, Render "index.html")
  end.

(** [logout()] *)
Definition logout (c : ctx) : ctx * response :=
  (flash "You have been logged out successfully." "info" (session_clear c),
   Redirect "index").

(** [Patient.query.get(key)]: the record whose identifier is [key]; a key
    that is not an integer finds no record. *)
Definition query_get (db : list Patient) (key : sval) : option Patient :=
  match key with
  | VInt n => List.find (fun p => (id p =? n)%Z) db
  | _ => None
  end.

(** The body of [dashboard()]; reading [session['patient_id']] when the key
    is missing raises KeyError. *)
Definition dashboard_view (db : list Patient) (_ : unit) (c : ctx) : ctx * response :=
  match session c !! "patient_id" with
  | Some key =>
      match query_get db key with
      | Some patient => (c, Render "dashboard.html")
      | None =>
          (flash "Account not found. Please log in again." "danger" (session_clear c),
           Redirect "login")
      end
  | None => (c, Abort 500)
  end.

(** [dashboard], as decorated. *)
Definition dashboard (db : list Patient) : unit -> ctx -> ctx * response :=
  login_required (dashboard_view db).

(** How a request is served: the before-request function
    [check_session_timeout] runs first, and its response, if it gives one,
    is the answer; otherwise the view runs on the context it left. *)
Definition serve {A : Type} (now : instant) (view : A -> ctx -> ctx * response)
    (args : A) (c : ctx) : ctx * response :=
  match check_session_timeout now c with
  | (c', Some r) => (c', r)
  | (c', None) => view args c'
  end.

(** The keyword arguments [register()] gives to [Patient]. *)
Record registration : Type := mkregistration {
  r_first_name : string;
  r_last_name : string;
  r_email : string;
  r_phone : string;
  r_date_of_birth : date;
  r_gender : string;
  r_address : string;
  r_emergency_contact_name : string;
  r_emergency_contact_phone : string
}.

(** The arguments of [Patient] read from the form inside the [try] block;
    [None] when a key is missing or the date does not parse (an exception
    the block catches). *)
Definition registration_of_form (f : gmap string string) : option registration :=
  match f !! "first_name", f !! "last_name", f !! "email", f !! "phone",
        f !! "date_of_birth", f !! "gender", f !! "address",
        f !! "emergency_contact_name", f !! "emergency_contact_phone" with
  | Some fn, Some ln, Some em, Some ph, Some dob, Some g, Some ad, Some en, Some ep =>
      match strptime_Ymd dob with
      | Some date_of_birth =>
          Some (mkregistration (strip fn) (strip ln) (lower (strip em)) (strip ph)
                  date_of_birth g (strip ad) (strip en) (strip ep))
      | None => None
      end
  | _, _, _, _, _, _, _, _, _ => None
  end.

(** [register()].  [persist reg password db] stands for the part of the
    [try] block that belongs to the persistence layer: building the record,
    [set_password], [db.session.add] and [commit]; it gives the new store,
    or [None] when it raises (the store is then rolled back).  [today] is
    the value of [date.today()]. *)
Definition register
    (persist : registration -> string -> list Patient -> option (list Patient))
    (today : date) (req : request) (db : list Patient) (c : ctx)
    : ctx * list Patient * response :=
  match session c !! "patient_id" with
  | Some _ => (c, db, Redirect "dashboard")
  | None =>
      if String.eqb (method req) "POST" then
        let '(ok, frm) :=
          RegistrationForm.validate today (RegistrationForm.init (form req)) in
        if ok then
          match form req !! "email" with
          | Some raw_email =>
              match query_first_by_email db raw_email with
              | Some existing_patient =>
                  (flash "An account with this email already exists. Please use a different email or log in."
                     "danger" c,
                   db, Render "register.html")
              | None =>
                  let created :=
                    match registration_of_form (form req), form req !! "password" with
                    | Some reg, Some password => persist reg password db
                    | _, _ => None
                    end in
                  match created with
                  | Some db' =>
                      (flash "Registration successful! Please log in with your credentials."
                         "success" c,
                       db', Redirect "login")
                  | None =>
                      (flash "An error occurred during registration. Please try again."
                         "danger" c,
                       db, Render "register.html")
                  end
              end
          | None => (c, db, Abort 400)
          end
        else
          (flash_all (RegistrationForm.get_errors frm) "danger" c, db,
           Render "register.html")
      else (c, db, Render "register.html")
  end.

(** [not request.form.get(key)] *)
Definition not_given (f : gmap string string) (key : string) : bool :=
  match f !! key with
  | None => true
  | Some v => negb (truthy v)
  end.

(** The body of [change_password()].  [validate_new] is
    [Patient.validate_password] and [store_password now patient new db]
    stands for [set_password], the update of [updated_at] and [commit]
    (both of the persistence layer); it gives the new store, or [None] when
    it raises. *)
Definition change_password_view
    (validate_new : string -> bool * string)
    (store_password : instant -> Patient -> string -> list Patient -> option (list Patient))
    (now : instant) (req : request) (db : list Patient) (c : ctx)
    : ctx * list Patient * response :=
  match session c !! "patient_id" with
  | None => (c, db, Abort 500)
  | Some key =>
      match query_get db key with
      | None =>
          (flash "Account not found. Please log in again." "danger" (session_clear c),
           db, Redirect "login")
      | Some patient =>
          if not_given (form req) "current_password"
             || not_given (form req) "new_password"
             || not_given (form req) "confirm_password"
          then (flash "All password fields are required." "danger" c, db,
                Redirect "profile")
          else
            match form req !! "current_password", form req !! "new_password",
                  form req !! "confirm_password" with
            | Some current_password, Some new_password, Some confirm_password =>
                if negb (check_password patient current_password)
                then (flash "Current password is incorrect." "danger" c, db,
                      Redirect "profile")
                else if negb (String.eqb new_password confirm_password)
                then (flash "New passwords do not match." "danger" c, db,
                      Redirect "profile")
                else
                  let '(is_valid, message) := validate_new new_password in
                  if negb is_valid
                  then (flash message "danger" c, db, Redirect "profile")
                  else
                    match store_password now patient new_password db with
                    | Some db' =>
                        (flash "Password changed successfully!" "success" c, db',
                         Redirect "profile")
                    | None =>
                        (flash "An error occurred while changing your password. Please try again."
                           "danger" c,
                         db, Redirect "profile")
                    end
            | _, _, _ => (c, db, Abort 500)
            end
      end
  end.

(** [change_password], as decorated: [login_required] around a view that
    also gives back the store. *)
Definition change_password
    (validate_new : string -> bool * string)
    (store_password : instant -> Patient -> string -> list Patient -> option (list Patient))
    (now : instant) (req : request) (db : list Patient) (c : ctx)
    : ctx * list Patient * response :=
  match session c !! "patient_id" with
  | None =>
      (flash "Please log in to access this page." "warning" c, db, Redirect "login")
  | Some _ => change_password_view validate_new store_password now req db c
  end.

End Views.

(** ** Vocabulary of the statements about the views *)
Module ViewVocab.
Import PyStr FormValidator Routes Views.

(** The context and store a successful login leaves. *)
Definition logged_in (now : instant) (p : Patient) (c : ctx) : ctx :=
  {| session :=
       <["last_activity" := VTime now]>
         (<["patient_name" := VStr (full_name p)]>
            (<["patient_id" := VInt (id p)]> (session c)));
     flashes :=
       flashes c
       ++ [(String.append "Welcome back, " (String.append (first_name p) "!"),
            "success")] |}.

(** The conditions under which [login] opens a session. *)
Definition credentials_accepted (req : request) (db : list Patient) (p : Patient) : Prop :=
  method req = "POST"
  /\ exists raw_email password,
       form req !! "email" = Some raw_email
       /\ validate_email raw_email = None
       /\ form req !! "password" = Some password
       /\ password <> EmptyString
       /\ query_first_by_email db (lower (strip raw_email)) = Some p
       /\ check_password p password = true
       /\ is_active p = true.

(** The relation between the sessions before and after a handler that does
    not log anyone in: the patient identifier is the same, or it is gone. *)
Definition keeps_or_drops_id (before after : ctx) : Prop :=
  session after !! "patient_id" = session before !! "patient_id"
  \/ session after !! "patient_id" = None.

End ViewVocab.

(** ** [setup-local.py]

    The file system is a map from paths to contents (a directory is a path
    like any other), the terminal is the list of the texts printed, one per
    call of [print], and the shell is a function that says how a command
    changes the file system and whether it fails (with what it wrote on its
    error stream).  The marks that are not ASCII stand in the printed texts
    as their UTF-8 bytes.  The contents of the files are their bytes; text
    files are opened in the encoding UTF-8, so that what text mode does to
    them is its translation of the line ends: [open(p, 'r')] reads each of
    CR LF, CR and LF as one LF, and [open(p, 'w')] writes [os.linesep] for
    each LF. *)
Module SetupLocal.
Import PyStr Datetime.

Record world : Type := mkworld {
  files : gmap string string;
  printed : list string
}.




Definition print (text : string) (w : world) : world :=
  {| files := files w; printed := printed w ++ [text] |}.


Definition write_file (p content : string) (w : world) : world :=
  {| files := <[p := content]> (files w); printed := printed w |}.


Definition lf : ascii := ascii_of_N 10.
Definition cr : ascii := ascii_of_N 13.

(** What a read in text mode gives for the bytes [s] (universal newlines):
    CR LF and a CR alone are read as LF.  [after_cr] says that the
    character before was a CR, for which the LF is already given. *)
Fixpoint read_newlines (after_cr : bool) (s : string) : string :=
  match s with
  | EmptyString => EmptyString
  | String c rest =>
      if Ascii.eqb c cr then String lf (read_newlines true rest)
      else if Ascii.eqb c lf && after_cr then read_newlines false rest
      else String c (read_newlines false rest)
  end.

Definition universal_newlines (s : string) : string := read_newlines false s.


























End SetupLocal.

(** Words for the statements on the setup script. *)
Module SetupVocab.
Import SetupLocal.

(** [old in s]: [old] is a substring of [s]. *)
Fixpoint occurs (old s : string) : bool :=
  String.prefix old s
  || match s with
     | EmptyString => false
     | String _ rest => occurs old rest
     end.






End SetupVocab.

(* ===================================================================== *)
(** * Part II: properties                                                 *)
(* ===================================================================== *)

(** ** Strings *)
Section StrFacts.
Import PyStr Re Vocab.

Lemma truthy_true s : s <> EmptyString -> truthy s = true.
Proof. destruct s; [congruence | reflexivity]. Qed.

Lemma truthy_false s : truthy s = false -> s = EmptyString.
Proof. destruct s; [reflexivity | discriminate]. Qed.

Lemma lstrip_empty s : lstrip s = EmptyString <-> all_space s.
Proof.
  unfold all_space. induction s as [|c s IH]; simpl.
  - split; [intros _ x [] | reflexivity].
  - destruct (isspace c) eqn:E.
    + rewrite IH. split.
      * intros H x [<- | Hx]; [exact E | now apply H].
      * intros H x Hx. apply H. now right.
    + split; [discriminate |].
      intros H. specialize (H c (or_introl eq_refl)). congruence.
Qed.

Lemma rstrip_empty s : rstrip s = EmptyString <-> all_space s.
Proof.
  unfold all_space. induction s as [|c s IH]; simpl.
  - split; [intros _ x [] | reflexivity].
  - destruct (rstrip s) as [|a t] eqn:R.
    + destruct (isspace c) eqn:E.
      * split; [| reflexivity].
        intros _ x [<- | Hx]; [exact E |].
        now apply (proj1 IH eq_refl).
      * split; [discriminate |].
        intros H. specialize (H c (or_introl eq_refl)). congruence.
    + split; [discriminate |].
      intros H. assert (Hs : String a t = EmptyString).
      { apply IH. intros x Hx. apply H. now right. }
      discriminate.
Qed.

Lemma lstrip_all_space s : all_space s -> all_space (lstrip s).
Proof. intros H. apply lstrip_empty in H. rewrite H. intros x []. Qed.

Lemma all_space_lstrip s : all_space (lstrip s) -> all_space s.
Proof.
  unfold all_space. induction s as [|c s IH]; simpl; [trivial |].
  destruct (isspace c) eqn:E.
  - intros H x [<- | Hx]; [exact E | now apply IH].
  - intros H x Hx. now apply H.
Qed.

(** [s.strip() == ''] exactly when [s] is empty or all white space. *)
Lemma strip_empty s : strip s = EmptyString <-> all_space s.
Proof.
  unfold strip. rewrite rstrip_empty. split.
  - apply all_space_lstrip.
  - apply lstrip_all_space.
Qed.

Lemma has_char_not_all_space cls s :
  (forall c, cls c = true -> isspace c = false) ->
  has_char cls s -> ~ all_space s.
Proof.
  intros Hcls (c & Hin & Hc) Hall.
  specialize (Hall c Hin). rewrite (Hcls c Hc) in Hall. discriminate.
Qed.

Lemma one_of_In set c : one_of set c = true <-> In c (chars set).
Proof.
  induction set as [|a set IH]; simpl.
  - split; [discriminate | intros []].
  - rewrite orb_true_iff, IH, Ascii.eqb_eq. split; intros [H | H]; auto.
Qed.

End StrFacts.

(** ** The matcher is sound and complete for the denotation *)
Section ReFacts.
Import PyStr Re Vocab.

Lemma lang_cat_inv r1 r2 w :
  lang (Cat r1 r2) w -> exists u v, w = u ++ v /\ lang r1 u /\ lang r2 v.
Proof. intros H. inversion H; subst. eauto. Qed.

Lemma lang_chr_inv p w : lang (Chr p) w -> exists c, w = [c] /\ p c = true.
Proof. intros H. inversion H; subst. eauto. Qed.

Lemma lang_alt_inv r1 r2 w : lang (Alt r1 r2) w -> lang r1 w \/ lang r2 w.
Proof. intros H. inversion H; subst; auto. Qed.

Lemma nullable_lang r : nullable r = true <-> lang r [].
Proof.
  induction r as [| |p|r1 IH1 r2 IH2|r1 IH1 r2 IH2|r IH]; simpl.
  - split; [discriminate | intros H; inversion H].
  - split; [constructor | reflexivity].
  - split; [discriminate | intros H; inversion H].
  - rewrite andb_true_iff, IH1, IH2. split.
    + intros [H1 H2]. exact (lang_cat _ _ [] [] H1 H2).
    + intros H. apply lang_cat_inv in H as (u & v & Heq & Hu & Hv).
      symmetry in Heq. apply app_eq_nil in Heq as [-> ->]. now split.
  - rewrite orb_true_iff, IH1, IH2. split.
    + intros [H | H]; [now apply lang_alt_l | now apply lang_alt_r].
    + apply lang_alt_inv.
  - split; [constructor | reflexivity].
Qed.

Lemma lang_star_cons r c s :
  lang (Star r) (c :: s) ->
  exists u v, s = u ++ v /\ lang r (c :: u) /\ lang (Star r) v.
Proof.
  intros H. remember (Star r) as r' eqn:Er. remember (c :: s) as w eqn:Ew.
  induction H as [| | | | | |r0 u v Hu _ Hv IHv]; try discriminate.
  injection Er as ->.
  destruct u as [|c' u]; simpl in Ew.
  - now apply IHv.
  - injection Ew as -> <-. now exists u, v.
Qed.

Lemma cat_deriv_lang c r1 r2 s :
  (forall u, lang (deriv c r1) u <-> lang r1 (c :: u)) ->
  lang (Cat (deriv c r1) r2) s <->
  exists u v, s = u ++ v /\ lang r1 (c :: u) /\ lang r2 v.
Proof.
  intros IH1. split.
  - intros H. apply lang_cat_inv in H as (u & v & -> & Hu & Hv).
    exists u, v. rewrite <- IH1. auto.
  - intros (u & v & -> & Hu & Hv). constructor; [now apply IH1 | exact Hv].
Qed.

Lemma lang_cat_cons c r1 r2 s :
  lang (Cat r1 r2) (c :: s) <->
  (exists u v, s = u ++ v /\ lang r1 (c :: u) /\ lang r2 v)
  \/ (lang r1 [] /\ lang r2 (c :: s)).
Proof.
  split.
  - intros H. apply lang_cat_inv in H as (u & v & Heq & Hu & Hv).
    destruct u as [|c' u]; simpl in Heq.
    + right. subst v. auto.
    + injection Heq as <- ->. left. now exists u, v.
  - intros [(u & v & -> & Hu & Hv) | [H1 H2]].
    + exact (lang_cat _ _ (c :: u) v Hu Hv).
    + exact (lang_cat _ _ [] (c :: s) H1 H2).
Qed.

Lemma deriv_lang c r s : lang (deriv c r) s <-> lang r (c :: s).
Proof.
  revert s.
  induction r as [| |p|r1 IH1 r2 IH2|r1 IH1 r2 IH2|r IH]; intros s; simpl.
  - split; intros H; inversion H.
  - split; intros H; inversion H.
  - destruct (p c) eqn:E; split; intros H.
    + inversion H; subst. now constructor.
    + apply lang_chr_inv in H as (c' & Heq & _).
      injection Heq as _ ->. constructor.
    + inversion H.
    + apply lang_chr_inv in H as (c' & Heq & Hc).
      injection Heq as -> _. congruence.
  - rewrite lang_cat_cons. destruct (nullable r1) eqn:N.
    + apply nullable_lang in N. split.
      * intros H. apply lang_alt_inv in H as [H | H].
        -- left. now apply (cat_deriv_lang c r1 r2 s IH1).
        -- right. split; [exact N | now apply IH2].
      * intros [H | [_ H]].
        -- apply lang_alt_l. now apply (cat_deriv_lang c r1 r2 s IH1).
        -- apply lang_alt_r. now apply IH2.
    + rewrite (cat_deriv_lang c r1 r2 s IH1). split; [auto |].
      intros [H | [H _]]; [exact H |].
      apply nullable_lang in H. congruence.
  - split; intros H.
    + apply lang_alt_inv in H as [H | H];
        [apply lang_alt_l; now apply IH1 | apply lang_alt_r; now apply IH2].
    + apply lang_alt_inv in H as [H | H];
        [apply lang_alt_l; now apply IH1 | apply lang_alt_r; now apply IH2].
  - split.
    + intros H. apply lang_cat_inv in H as (u & v & -> & Hu & Hv).
      apply IH in Hu. exact (lang_star_app _ (c :: u) v Hu Hv).
    + intros H. apply lang_star_cons in H as (u & v & -> & Hu & Hv).
      constructor; [now apply IH | exact Hv].
Qed.

Theorem fullmatch_lang r s : fullmatch r s = true <-> lang r (chars s).
Proof.
  revert r. induction s as [|c s IH]; intros r; simpl.
  - apply nullable_lang.
  - rewrite IH. apply deriv_lang.
Qed.

Lemma lang_star_any w : lang (Star any) w.
Proof.
  induction w as [|c w IH]; [constructor |].
  apply (lang_star_app _ [c] w); [now constructor | exact IH].
Qed.

(** Searching for one character of a class finds it exactly when the
    string has such a character. *)
Lemma search_class_true p s : search (Chr p) s = true <-> has_char p s.
Proof.
  unfold search, has_char. rewrite fullmatch_lang. split.
  - intros H.
    apply lang_cat_inv in H as (u & v & Heq & _ & Hv).
    apply lang_cat_inv in Hv as (u' & v' & -> & Hu' & _).
    apply lang_chr_inv in Hu' as (c & -> & Hc).
    exists c. split; [| exact Hc].
    rewrite Heq. apply in_or_app. right. now left.
  - intros (c & Hin & Hc).
    apply in_split in Hin as (l1 & l2 & ->).
    apply lang_cat; [apply lang_star_any |].
    apply (lang_cat _ _ [c] l2); [now constructor | apply lang_star_any].
Qed.

Lemma search_class_false p s : search (Chr p) s = false <-> ~ has_char p s.
Proof.
  rewrite <- search_class_true.
  destruct (search (Chr p) s); split; congruence.
Qed.

End ReFacts.

(** ** The email validator on sample addresses *)
Section EmailExamples.
Import PyStr Re FormValidator.

Example validate_email_accepts : validate_email "a@b.co" = None.
Proof. reflexivity. Qed.

Example validate_email_rejects :
  validate_email "a@b" = Some "Please enter a valid email address"
  /\ validate_email "a.com" = Some "Please enter a valid email address"
  /\ validate_email EmptyString = Some "Email is required".
Proof. repeat split; reflexivity. Qed.

(** The end anchor also stands before a final newline. *)
Example validate_email_final_newline :
  validate_email (String.append "a@b.co" (String newline EmptyString)) = None.
Proof. reflexivity. Qed.

End EmailExamples.

(** ** The phone validator *)
Section PhoneFacts.
Import PyStr Re Vocab FormValidator.

Lemma sub_nondigit_length s :
  String.length (sub_class_empty (fun c => negb (is_decimal c)) s) = digit_count s.
Proof.
  unfold digit_count.
  induction s as [|c s IH]; simpl; [reflexivity |].
  destruct (is_decimal c); simpl; [now rewrite IH | exact IH].
Qed.

(** C8. The phone validator: an empty input gives the required error;
    otherwise only the digits count: fewer than 10 gives the too-short
    error, more than 15 the too-long error, and 10 to 15 no error.
    [555-123-4567] is valid, [123] is too short and a 16-digit string is
    too long. *)
Theorem validate_phone_spec :
  validate_phone EmptyString = Some "Phone number is required"
  /\ (forall phone : string,
        phone <> EmptyString ->
        (digit_count phone < 10 ->
         validate_phone phone = Some "Phone number must be at least 10 digits")
        /\ (15 < digit_count phone ->
            validate_phone phone = Some "Phone number is too long")
        /\ (10 <= digit_count phone <= 15 -> validate_phone phone = None))
  /\ validate_phone "555-123-4567" = None
  /\ validate_phone "123" = Some "Phone number must be at least 10 digits"
  /\ validate_phone "1234567890123456" = Some "Phone number is too long".
Proof.
  split; [reflexivity |].
  split; [| repeat split; reflexivity].
  intros phone Hne.
  unfold validate_phone. rewrite (truthy_true _ Hne). change (negb true) with false. cbv iota.
  rewrite sub_nondigit_length.
  repeat split; intros H.
  - apply Nat.ltb_lt in H. now rewrite H.
  - assert (H1 : (digit_count phone <? 10)%nat = false) by (apply Nat.ltb_ge; lia).
    apply Nat.ltb_lt in H. now rewrite H1, H.
  - assert (H1 : (digit_count phone <? 10)%nat = false) by (apply Nat.ltb_ge; lia).
    assert (H2 : (15 <? digit_count phone)%nat = false) by (apply Nat.ltb_ge; lia).
    now rewrite H1, H2.
Qed.

(** The hypotheses of C8 at [12345] (too short), at a 16-digit number
    (too long) and at a dashed 10-digit number (valid). *)
Lemma validate_phone_spec_witness :
  validate_phone "12345" = Some "Phone number must be at least 10 digits"
  /\ validate_phone "9999888877776666" = Some "Phone number is too long"
  /\ validate_phone "(555) 123-4567" = None.
Proof.
  pose proof (proj1 (proj2 validate_phone_spec)) as H.
  split; [| split].
  - apply (H "12345"); [discriminate | vm_compute; lia].
  - apply (H "9999888877776666"); [discriminate | vm_compute; lia].
  - apply (H "(555) 123-4567"); [discriminate | vm_compute; lia].
Defined.

End PhoneFacts.

(** ** The password validator *)
Section PasswordFacts.
Import PyStr Re Vocab FormValidator.

(** The bracket expression of the last check, character by character:
    [! @ # $ % ^ & * ( ) _ + - = [ ] { } ; ' : <double quote> \ | , . < > / ?]. *)
Lemma special_chars_codes :
  map code (chars special_chars)
  = [33; 64; 35; 36; 37; 94; 38; 42; 40; 41; 95; 43; 45; 61; 91; 93; 123;
     125; 59; 39; 58; 34; 92; 124; 44; 46; 60; 62; 47; 63]%N.
Proof. reflexivity. Qed.

Lemma search_yes p s : has_char p s -> negb (search (Chr p) s) = false.
Proof. intros H. apply search_class_true in H. now rewrite H. Qed.

Lemma search_no p s : ~ has_char p s -> negb (search (Chr p) s) = true.
Proof. intros H. apply search_class_false in H. now rewrite H. Qed.

Lemma length_ge_ltb (s : string) n : n <= String.length s -> (String.length s <? n)%nat = false.
Proof. intros H. apply Nat.ltb_ge. exact H. Qed.

(** C2. The password validator reports the first violated rule, in the
    order: empty; shorter than 8; no letter A-Z; no letter a-z; no digit;
    no character of the special set; and reports nothing when all five
    structural checks pass. *)
Theorem validate_password_spec :
  validate_password EmptyString = Some "Password is required"
  /\ (forall password : string,
        password <> EmptyString ->
        (String.length password < 8 ->
         validate_password password
         = Some "Password must be at least 8 characters long")
        /\ (8 <= String.length password ->
            ~ has_char is_AZ password ->
            validate_password password
            = Some "Password must contain at least one uppercase letter")
        /\ (8 <= String.length password ->
            has_char is_AZ password ->
            ~ has_char is_az password ->
            validate_password password
            = Some "Password must contain at least one lowercase letter")
        /\ (8 <= String.length password ->
            has_char is_AZ password ->
            has_char is_az password ->
            ~ has_char is_decimal password ->
            validate_password password
            = Some "Password must contain at least one number")
        /\ (8 <= String.length password ->
            has_char is_AZ password ->
            has_char is_az password ->
            has_char is_decimal password ->
            ~ has_char (one_of special_chars) password ->
            validate_password password
            = Some "Password must contain at least one special character (!@#$%^&*)")
        /\ (8 <= String.length password ->
            has_char is_AZ password ->
            has_char is_az password ->
            has_char is_decimal password ->
            has_char (one_of special_chars) password ->
            validate_password password = None))
  /\ validate_password "short1!"
     = Some "Password must be at least 8 characters long"
  /\ validate_password "alllowercase1!"
     = Some "Password must contain at least one uppercase letter"
  /\ validate_password "ValidPass1!" = None.
Proof.
  split; [reflexivity |].
  split; [| repeat split; reflexivity].
  intros password Hne.
  unfold validate_password. rewrite (truthy_true _ Hne). change (negb true) with false. cbv iota.
  repeat split.
  - intros H. apply Nat.ltb_lt in H. now rewrite H.
  - intros Hl Hu. now rewrite (length_ge_ltb _ _ Hl), (search_no _ _ Hu).
  - intros Hl Hu Hw.
    now rewrite (length_ge_ltb _ _ Hl), (search_yes _ _ Hu), (search_no _ _ Hw).
  - intros Hl Hu Hw Hd.
    now rewrite (length_ge_ltb _ _ Hl), (search_yes _ _ Hu), (search_yes _ _ Hw),
      (search_no _ _ Hd).
  - intros Hl Hu Hw Hd Hs.
    now rewrite (length_ge_ltb _ _ Hl), (search_yes _ _ Hu), (search_yes _ _ Hw),
      (search_yes _ _ Hd), (search_no _ _ Hs).
  - intros Hl Hu Hw Hd Hs.
    now rewrite (length_ge_ltb _ _ Hl), (search_yes _ _ Hu), (search_yes _ _ Hw),
      (search_yes _ _ Hd), (search_yes _ _ Hs).
Qed.

Lemma has_char_dec p s : existsb p (chars s) = true -> has_char p s.
Proof. intros H. apply existsb_exists in H. exact H. Qed.

Lemma not_has_char_dec p s : existsb p (chars s) = false -> ~ has_char p s.
Proof.
  intros H Hc. apply existsb_exists in Hc. congruence.
Qed.

(** The hypotheses of C2 at a password with no digit and at one that
    passes every check. *)
Lemma validate_password_spec_witness :
  validate_password "Password!"
  = Some "Password must contain at least one number"
  /\ validate_password "Tr0ub4dor&3" = None.
Proof.
  pose proof (proj1 (proj2 validate_password_spec)) as H.
  split.
  - apply (H "Password!"); [discriminate | simpl; lia | | |];
      first [ apply has_char_dec; reflexivity | apply not_has_char_dec; reflexivity ].
  - apply (H "Tr0ub4dor&3"); [discriminate | simpl; lia | | | |];
      apply has_char_dec; reflexivity.
Defined.

End PasswordFacts.

(** ** The registration form: how the error list grows *)
Section RegistrationSteps.
Import PyStr Re Vocab Datetime FormValidator RegistrationForm.

Lemma missing_or_blank_true (d : gmap string string) field :
  missing_or_blank d field = true <->
  d !! field = None \/ exists v, d !! field = Some v /\ all_space v.
Proof.
  unfold missing_or_blank. destruct (d !! field) as [v|] eqn:E.
  - rewrite orb_true_iff, String.eqb_eq, strip_empty. split.
    + intros [H | H]; right; exists v; split; trivial.
      destruct v; [intros c [] | discriminate].
    + intros [H | (v' & [= <-] & H)]; [discriminate | now right].
  - split; [now left | reflexivity].
Qed.

Lemma required_reported (d : gmap string string) fields field :
  In field fields ->
  missing_or_blank d field = true ->
  In (title (replace "_" " " field) +:+ " is required")
     (validate_required_fields d fields).
Proof.
  intros Hin Hm. induction fields as [|f fields IH]; [destruct Hin |].
  simpl. apply in_or_app. destruct Hin as [-> | Hin].
  - left. rewrite Hm. now left.
  - right. now apply IH.
Qed.

Lemma required_none (d : gmap string string) fields :
  (forall f, In f fields -> missing_or_blank d f = false) ->
  validate_required_fields d fields = [].
Proof.
  induction fields as [|f fields IH]; intros H; [reflexivity |].
  simpl. rewrite (H f (or_introl eq_refl)). simpl.
  apply IH. intros g Hg. apply H. now right.
Qed.

Lemma check_field_prefix (d : gmap string string) k v w errs :
  errs `prefix_of` check_field d k v w errs.
Proof.
  unfold check_field. destruct (d !! k) as [x|]; [| reflexivity].
  destruct (v x) as [e|]; [| reflexivity].
  destruct (truthy e); [| reflexivity].
  now exists [w e].
Qed.

Lemma check_field_error (d : gmap string string) k v w errs x e :
  d !! k = Some x -> v x = Some e -> e <> EmptyString ->
  check_field d k v w errs = errs ++ [w e].
Proof.
  intros Hk Hv He. unfold check_field. now rewrite Hk, Hv, (truthy_true _ He).
Qed.

Lemma check_field_pass (d : gmap string string) k v w errs x :
  d !! k = Some x -> v x = None -> check_field d k v w errs = errs.
Proof. intros Hk Hv. unfold check_field. now rewrite Hk, Hv. Qed.

Lemma mismatch_prefix (d : gmap string string) (errs : list string) :
  errs `prefix_of`
    match d !! "password", d !! "confirm_password" with
    | Some p, Some c => if String.eqb p c then errs else errs ++ ["Passwords do not match"]
    | _, _ => errs
    end.
Proof.
  destruct (d !! "password") as [p|]; [| reflexivity].
  destruct (d !! "confirm_password") as [c|]; [| reflexivity].
  destruct (String.eqb p c); [reflexivity |].
  now exists ["Passwords do not match"].
Qed.

Lemma prefix_In (x : string) (l1 l2 : list string) :
  l1 `prefix_of` l2 -> In x l1 -> In x l2.
Proof. intros [t ->] H. apply in_or_app. now left. Qed.

Lemma prefix_count (x : string) (l1 l2 : list string) :
  l1 `prefix_of` l2 -> count_occ string_dec l1 x <= count_occ string_dec l2 x.
Proof. intros [t ->]. rewrite count_occ_app. lia. Qed.

(** The messages of the phone validator are not empty. *)
Lemma validate_phone_message v e : validate_phone v = Some e -> e <> EmptyString.
Proof.
  unfold validate_phone.
  repeat match goal with |- context [if ?b then _ else _] => destruct b end;
    intros [= <-]; discriminate.
Qed.

(** The required-field pass comes first in the error list. *)
Lemma required_prefix today (d : gmap string string) :
  validate_required_fields d required_fields `prefix_of` validate_errors today d.
Proof.
  unfold validate_errors. cbv zeta. rewrite app_nil_l.
  repeat (etrans; [| apply mismatch_prefix || apply check_field_prefix]).
  reflexivity.
Qed.

End RegistrationSteps.

(** ** The registration form: required fields and repeated messages *)
Section RegistrationFacts.
Import PyStr Re Vocab Datetime FormValidator RegistrationForm.

(** C5. For each of the eleven required fields that is absent, empty or
    all white space in a registration submission, the error list of the
    form contains the message made of the label of the field (underscores
    replaced by spaces, title-cased) followed by [ is required]; the eleven
    labels are listed. *)
Theorem required_field_error_listed :
  (forall (today : date) (d : gmap string string) (field : string),
      In field required_fields ->
      (d !! field = None \/ exists v, d !! field = Some v /\ all_space v) ->
      In (field_label field +:+ " is required")
         (get_errors (snd (validate today (init d))))
      /\ fst (validate today (init d)) = false)
  /\ map field_label required_fields
     = [ "First Name"; "Last Name"; "Email"; "Phone"; "Date Of Birth";
         "Gender"; "Address"; "Emergency Contact Name";
         "Emergency Contact Phone"; "Password"; "Confirm Password" ].
Proof.
  split; [| reflexivity].
  intros today d field Hin Hmiss.
  assert (Herr : In (field_label field +:+ " is required") (validate_errors today d)).
  { apply (prefix_In _ _ _ (required_prefix today d)).
    apply required_reported; [exact Hin |].
    now apply missing_or_blank_true. }
  split; [exact Herr |].
  unfold validate. simpl.
  destruct (validate_errors today d); [destruct Herr | reflexivity].
Qed.

(** C5 at a submission that lacks [phone] and whose [first_name] is two
    spaces. *)
Lemma required_field_error_listed_witness :
  In "Phone is required"
     (get_errors (snd (validate (mkdate 2026 11 3)
                         (init (<["first_name" := "  "]> ∅)))))
  /\ In "First Name is required"
        (get_errors (snd (validate (mkdate 2026 11 3)
                            (init (<["first_name" := "  "]> ∅))))).
Proof.
  split.
  - refine (proj1 (proj1 required_field_error_listed (mkdate 2026 11 3)
                     (<["first_name" := "  "]> ∅) "phone" _ _)).
    + vm_compute. tauto.
    + left. reflexivity.
  - refine (proj1 (proj1 required_field_error_listed (mkdate 2026 11 3)
                     (<["first_name" := "  "]> ∅) "first_name" _ _)).
    + vm_compute. tauto.
    + right. exists "  ". split; [reflexivity |].
      intros c [<- | [<- | []]]; reflexivity.
Defined.

(** C10. When [email] is present and empty, [Email is required] occurs at
    least twice in the error list: the required-field pass reports it and
    so does the email validator, which runs on every present field. *)
Theorem empty_email_reported_twice (today : date) (d : gmap string string) :
  d !! "email" = Some EmptyString ->
  2 <= count_occ string_dec (get_errors (snd (validate today (init d))))
         "Email is required".
Proof.
  intros He. unfold validate, get_errors. simpl.
  unfold validate_errors. cbv zeta. rewrite app_nil_l.
  set (e0 := validate_required_fields d required_fields).
  set (e2 := check_field d "last_name" _ _ _).
  assert (H0 : 1 <= count_occ string_dec e2 "Email is required").
  { apply count_occ_In.
    apply (prefix_In _ e0).
    - subst e2. etrans; apply check_field_prefix.
    - subst e0.
      apply (required_reported d required_fields "email").
      + vm_compute. tauto.
      + unfold missing_or_blank. now rewrite He. }
  rewrite (check_field_error d "email" validate_email id e2 EmptyString
             "Email is required" He eq_refl) by discriminate.
  set (e3 := e2 ++ [id "Email is required"]).
  assert (H3 : 2 <= count_occ string_dec e3 "Email is required").
  { subst e3. unfold id.
    rewrite count_occ_app, count_occ_cons_eq by reflexivity. simpl. lia. }
  etrans; [exact H3 |].
  apply prefix_count.
  repeat (etrans; [| apply mismatch_prefix || apply check_field_prefix]).
  reflexivity.
Qed.

(** C10 at the submission that holds only an empty [email]. *)
Lemma empty_email_reported_twice_witness :
  2 <= count_occ string_dec
         (get_errors (snd (validate (mkdate 2026 11 3)
                             (init (<["email" := EmptyString]> ∅))))) 
         "Email is required".
Proof.
  apply (empty_email_reported_twice (mkdate 2026 11 3) (<["email" := EmptyString]> ∅)).
  reflexivity.
Defined.

(** C7. When [emergency_contact_phone] is present and the phone validator
    rejects it, the form appends [Emergency contact ] followed by the
    lower-cased message of the phone validator; an empty value gives
    [Emergency contact phone number is required]. *)
Theorem emergency_phone_error_text :
  (forall (today : date) (d : gmap string string) (v e : string),
      d !! "emergency_contact_phone" = Some v ->
      validate_phone v = Some e ->
      exists pre post,
        get_errors (snd (validate today (init d)))
        = pre ++ ["Emergency contact " +:+ lower e] ++ post)
  /\ (forall (today : date) (d : gmap string string),
        d !! "emergency_contact_phone" = Some EmptyString ->
        In "Emergency contact phone number is required"
           (get_errors (snd (validate today (init d)))))
  /\ "Emergency contact " +:+ lower "Phone number must be at least 10 digits"
     = "Emergency contact phone number must be at least 10 digits"
  /\ "Emergency contact " +:+ lower "Phone number is too long"
     = "Emergency contact phone number is too long".
Proof.
  assert (Hmain : forall (today : date) (d : gmap string string) (v e : string),
      d !! "emergency_contact_phone" = Some v ->
      validate_phone v = Some e ->
      exists pre post,
        validate_errors today d
        = pre ++ ["Emergency contact " +:+ lower e] ++ post).
  { intros today d v e Hk Hv.
    unfold validate_errors. cbv zeta. rewrite app_nil_l.
    set (e8 := check_field d "emergency_contact_name" _ _ _).
    rewrite (check_field_error d "emergency_contact_phone" validate_phone _ e8 v e Hk Hv)
      by exact (validate_phone_message v e Hv).
    set (e9 := e8 ++ _).
    assert (Hp : e9 `prefix_of`
              match d !! "password", d !! "confirm_password" with
              | Some p, Some c =>
                  if String.eqb p c then check_field d "password" validate_password id e9
                  else check_field d "password" validate_password id e9
                       ++ ["Passwords do not match"]
              | _, _ => check_field d "password" validate_password id e9
              end).
    { etrans; [apply (check_field_prefix d "password" validate_password id) |].
      apply mismatch_prefix. }
    destruct Hp as [post Hp]. exists e8, post. rewrite Hp. subst e9.
    now rewrite <- app_assoc. }
  split; [exact Hmain |].
  split; [| split; reflexivity].
  intros today d Hk.
  destruct (Hmain today d EmptyString "Phone number is required" Hk eq_refl)
    as (pre & post & Heq).
  unfold validate, get_errors. simpl. rewrite Heq.
  apply in_or_app. right. now left.
Qed.

(** C7 at a submission whose [emergency_contact_phone] is [12345]. *)
Lemma emergency_phone_error_text_witness :
  exists pre post,
    get_errors (snd (validate (mkdate 2026 11 3)
                       (init (<["emergency_contact_phone" := "12345"]> ∅))))
    = pre ++ ["Emergency contact phone number must be at least 10 digits"] ++ post.
Proof.
  exact (proj1 emergency_phone_error_text (mkdate 2026 11 3)
           (<["emergency_contact_phone" := "12345"]> ∅) "12345"
           "Phone number must be at least 10 digits" eq_refl eq_refl).
Defined.

End RegistrationFacts.

(** ** A value that passes its field validator is not blank *)
Section NonBlank.
Import PyStr Re Vocab Datetime FormValidator.

Ltac by_cases_on_char c :=
  destruct c as [[] [] [] [] [] [] [] []]; vm_compute; congruence.

Lemma local_class_not_space c :
  alnum c || one_of "._%+-" c = true -> isspace c = false.
Proof. by_cases_on_char c. Qed.

Lemma digit_not_space c : is_decimal c = true -> isspace c = false.
Proof. by_cases_on_char c. Qed.

Lemma AZ_not_space c : is_AZ c = true -> isspace c = false.
Proof. by_cases_on_char c. Qed.

Lemma lower_space c : isspace c = true -> lower_char c = c.
Proof. by_cases_on_char c. Qed.

Lemma first_char_not_all_space c s : isspace c = false -> ~ all_space (String c s).
Proof.
  intros Hc Hall. specialize (Hall c (or_introl eq_refl)). congruence.
Qed.

Lemma long_strip_not_blank s k :
  (String.length (strip s) <? S k)%nat = false -> ~ all_space s.
Proof.
  intros H Hall. apply strip_empty in Hall. rewrite Hall in H. discriminate.
Qed.

Lemma validate_name_not_blank name field_name :
  validate_name name field_name = None -> ~ all_space name.
Proof.
  unfold validate_name. destruct (negb (truthy name)); [discriminate |].
  destruct (String.length (strip name) <? 2)%nat eqn:E; [discriminate |].
  intros _. exact (long_strip_not_blank _ _ E).
Qed.

Lemma validate_address_not_blank address :
  validate_address address = None -> ~ all_space address.
Proof.
  unfold validate_address. destruct (negb (truthy address)); [discriminate |].
  destruct (String.length (strip address) <? 10)%nat eqn:E; [discriminate |].
  intros _. exact (long_strip_not_blank _ _ E).
Qed.

Lemma chars_cons_inv s c w : chars s = c :: w -> exists s', s = String c s'.
Proof.
  destruct s as [|a s']; simpl; [discriminate |].
  intros [= -> _]. now exists s'.
Qed.

(** A match of the email pattern starts with a character of the class of
    the local part. *)
Lemma email_match_first_char email :
  match_anchored email_pattern email = true ->
  exists c rest,
    email = String c rest /\ alnum c || one_of "._%+-" c = true.
Proof.
  unfold match_anchored, email_pattern, Plus. rewrite fullmatch_lang. intros H.
  apply lang_cat_inv in H as (u & v & Heq & Hu & _).
  apply lang_cat_inv in Hu as (u1 & v1 & -> & Hu1 & _).
  apply lang_cat_inv in Hu1 as (u2 & v2 & -> & Hu2 & _).
  apply lang_chr_inv in Hu2 as (c & -> & Hc).
  simpl in Heq. apply chars_cons_inv in Heq as [rest ->].
  now exists c, rest.
Qed.

Lemma validate_email_not_blank email :
  validate_email email = None -> ~ all_space email.
Proof.
  unfold validate_email. destruct (negb (truthy email)); [discriminate |].
  destruct (match_anchored email_pattern email) eqn:E; [| discriminate].
  intros _. apply email_match_first_char in E as (c & rest & -> & Hc).
  apply first_char_not_all_space. now apply local_class_not_space.
Qed.

Lemma digit_count_has_char s : 0 < digit_count s -> has_char is_decimal s.
Proof.
  unfold digit_count, has_char. intros H.
  destruct (List.filter is_decimal (chars s)) as [|c l] eqn:E; [simpl in H; lia |].
  assert (Hin : In c (List.filter is_decimal (chars s))) by (rewrite E; now left).
  apply filter_In in Hin. now exists c.
Qed.

Lemma validate_phone_not_blank phone :
  validate_phone phone = None -> ~ all_space phone.
Proof.
  unfold validate_phone. destruct (negb (truthy phone)); [discriminate |].
  rewrite sub_nondigit_length.
  destruct (digit_count phone <? 10)%nat eqn:E; [discriminate |].
  intros _. apply Nat.ltb_ge in E.
  apply (has_char_not_all_space is_decimal); [exact digit_not_space |].
  apply digit_count_has_char. lia.
Qed.

Lemma validate_password_not_blank password :
  validate_password password = None -> ~ all_space password.
Proof.
  unfold validate_password. destruct (negb (truthy password)); [discriminate |].
  destruct (String.length password <? 8)%nat; [discriminate |].
  destruct (search (Chr is_AZ) password) eqn:E; [| discriminate].
  intros _. apply search_class_true in E.
  exact (has_char_not_all_space is_AZ _ AZ_not_space E).
Qed.

(** A text that [strptime] accepts starts with a digit. *)
Lemma strptime_first_digit s d :
  strptime_Ymd s = Some d -> exists c rest, s = String c rest /\ is_decimal c = true.
Proof.
  unfold strptime_Ymd, format_regex_match, group_Y.
  destruct s as [|c rest]; [discriminate |].
  unfold one at 1. destruct (is_decimal c) eqn:E; [| discriminate].
  intros _. now exists c, rest.
Qed.

Lemma validate_date_of_birth_not_blank today dob_str :
  validate_date_of_birth today dob_str = None -> ~ all_space dob_str.
Proof.
  unfold validate_date_of_birth. destruct (negb (truthy dob_str)); [discriminate |].
  destruct (strptime_Ymd dob_str) as [dob|] eqn:E; [| discriminate].
  intros _. apply strptime_first_digit in E as (c & rest & -> & Hc).
  apply first_char_not_all_space. now apply digit_not_space.
Qed.

Lemma validate_gender_not_blank gender :
  validate_gender gender = None -> ~ all_space gender.
Proof.
  unfold validate_gender. destruct gender as [|c rest]; [discriminate |].
  simpl negb at 1. cbv iota.
  destruct (str_in (lower (String c rest)) valid_genders) eqn:E; [| discriminate].
  intros _ Hall. specialize (Hall c (or_introl eq_refl)).
  simpl in E. rewrite (lower_space c Hall) in E.
  destruct c as [[] [] [] [] [] [] [] []]; try discriminate Hall; discriminate E.
Qed.

End NonBlank.

(** ** The registration form: a lone password mismatch *)
Section MismatchFacts.
Import PyStr Re Vocab Datetime FormValidator RegistrationForm Samples.

Lemma present_not_blank (d : gmap string string) field v :
  d !! field = Some v -> ~ all_space v -> missing_or_blank d field = false.
Proof.
  intros Hk Hv. destruct (missing_or_blank d field) eqn:E; [| reflexivity].
  apply missing_or_blank_true in E as [E | (v' & E & Hall)].
  - congruence.
  - rewrite Hk in E. injection E as <-. contradiction.
Qed.

(** C4. When the eleven fields are present, the ten validated fields pass
    their validators, [confirm_password] is not blank (it passes the
    required-field check, the only one applied to it) and differs from
    [password], [validate] returns false and the error list is exactly
    [Passwords do not match]. *)
Theorem mismatch_is_the_only_error
    (today : date) (d : gmap string string)
    (first_name last_name email phone date_of_birth gender address
     emergency_contact_name emergency_contact_phone password
     confirm_password : string) :
  d !! "first_name" = Some first_name ->
  d !! "last_name" = Some last_name ->
  d !! "email" = Some email ->
  d !! "phone" = Some phone ->
  d !! "date_of_birth" = Some date_of_birth ->
  d !! "gender" = Some gender ->
  d !! "address" = Some address ->
  d !! "emergency_contact_name" = Some emergency_contact_name ->
  d !! "emergency_contact_phone" = Some emergency_contact_phone ->
  d !! "password" = Some password ->
  d !! "confirm_password" = Some confirm_password ->
  validate_name first_name "First name" = None ->
  validate_name last_name "Last name" = None ->
  validate_email email = None ->
  validate_phone phone = None ->
  validate_date_of_birth today date_of_birth = None ->
  validate_gender gender = None ->
  validate_address address = None ->
  validate_name emergency_contact_name "Emergency contact name" = None ->
  validate_phone emergency_contact_phone = None ->
  validate_password password = None ->
  ~ all_space confirm_password ->
  password <> confirm_password ->
  fst (validate today (init d)) = false
  /\ get_errors (snd (validate today (init d))) = ["Passwords do not match"].
Proof.
  intros K1 K2 K3 K4 K5 K6 K7 K8 K9 K10 K11 V1 V2 V3 V4 V5 V6 V7 V8 V9 V10 Hc Hne.
  assert (Hreq : validate_required_fields d required_fields = []).
  { apply required_none. intros f Hf. simpl in Hf.
    repeat (destruct Hf as [<- | Hf];
            [eapply present_not_blank; [eassumption |] |]); [.. | destruct Hf].
    - exact (validate_name_not_blank _ _ V1).
    - exact (validate_name_not_blank _ _ V2).
    - exact (validate_email_not_blank _ V3).
    - exact (validate_phone_not_blank _ V4).
    - exact (validate_date_of_birth_not_blank _ _ V5).
    - exact (validate_gender_not_blank _ V6).
    - exact (validate_address_not_blank _ V7).
    - exact (validate_name_not_blank _ _ V8).
    - exact (validate_phone_not_blank _ V9).
    - exact (validate_password_not_blank _ V10).
    - exact Hc. }
  assert (Herrs : validate_errors today d = ["Passwords do not match"]).
  { unfold validate_errors. cbv zeta. rewrite Hreq, app_nil_l.
    rewrite (check_field_pass d "first_name" _ _ _ _ K1 V1).
    rewrite (check_field_pass d "last_name" _ _ _ _ K2 V2).
    rewrite (check_field_pass d "email" _ _ _ _ K3 V3).
    rewrite (check_field_pass d "phone" _ _ _ _ K4 V4).
    rewrite (check_field_pass d "date_of_birth" _ _ _ _ K5 V5).
    rewrite (check_field_pass d "gender" _ _ _ _ K6 V6).
    rewrite (check_field_pass d "address" _ _ _ _ K7 V7).
    rewrite (check_field_pass d "emergency_contact_name" _ _ _ _ K8 V8).
    rewrite (check_field_pass d "emergency_contact_phone" _ _ _ _ K9 V9).
    rewrite (check_field_pass d "password" _ _ _ _ K10 V10).
    rewrite K10, K11.
    apply String.eqb_neq in Hne. now rewrite Hne. }
  unfold validate, get_errors. simpl. now rewrite Herrs.
Qed.

(** C4 at [mismatch_payload]. *)
Lemma mismatch_is_the_only_error_witness :
  fst (validate (mkdate 2026 11 3) (init mismatch_payload)) = false
  /\ get_errors (snd (validate (mkdate 2026 11 3) (init mismatch_payload)))
     = ["Passwords do not match"].
Proof.
  apply (mismatch_is_the_only_error (mkdate 2026 11 3) mismatch_payload
           "Ada" "Lovelace" "ada@example.org" "555-123-4567" "1990-12-10"
           "Female" "12 St James Square, London" "Anne Isabella"
           "+44 20 7946 0000" "ValidPass1!" "ValidPass2!");
    try (vm_compute; reflexivity).
  - intros Hall. specialize (Hall "V"%char (or_introl eq_refl)). discriminate.
  - discriminate.
Defined.

End MismatchFacts.

(** ** Dates: parsing what [isoformat] prints, order and age *)
Section DateFacts.
Import PyStr Vocab Datetime DateVocab FormValidator.
Local Open Scope Z_scope.

Ltac enum_Z n :=
  destruct n as [|n|n]; try lia; repeat (destruct n as [n|n|]; try lia).

Lemma append_String c s t : String.append (String c s) t = String c (String.append s t).
Proof. reflexivity. Qed.

Lemma append_Empty t : String.append EmptyString t = t.
Proof. reflexivity. Qed.

Lemma append_Empty_r s : String.append s EmptyString = s.
Proof. induction s as [|c s IH]; [reflexivity |]. now rewrite append_String, IH. Qed.

Lemma one_digit_char {A : Type} n rest (k : Z -> string -> option A) :
  0 <= n <= 9 -> one is_decimal (String (digit_char n) rest) k = k n rest.
Proof. intros H. enum_Z n; reflexivity. Qed.

Lemma group_Y_digits {A : Type} y rest (k : Z -> string -> option A) :
  0 <= y <= 9999 ->
  group_Y (String.append (four_digits y) rest) k = k y rest.
Proof.
  intros H. unfold group_Y, four_digits. rewrite !append_String, append_Empty.
  rewrite one_digit_char by (Z.div_mod_to_equations; lia). cbv beta.
  rewrite one_digit_char by (Z.div_mod_to_equations; lia). cbv beta.
  rewrite one_digit_char by (Z.div_mod_to_equations; lia). cbv beta.
  rewrite one_digit_char by (Z.div_mod_to_equations; lia). cbv beta.
  f_equal. Z.div_mod_to_equations. lia.
Qed.

(** After the year: every month text and day text is read as its month and
    day, whichever alternative of the groups it falls under. *)
Lemma month_day_parse (y m d : Z) (mt dt : string) :
  1 <= m <= 12 -> 1 <= d <= 31 ->
  month_text m mt -> day_text d dt ->
  lit "-" (String "-" (String.append mt (String "-" dt)))
    (fun s2 =>
     group_m s2 (fun m' s3 =>
     lit "-" s3 (fun s4 =>
     group_d s4 (fun d' rest => Some (y, m', d', rest)))))
  = Some (y, m, d, EmptyString).
Proof.
  intros Hm Hd [-> | [Hm9 ->]] [-> | [Hd9 [-> | ->]]];
    enum_Z m; enum_Z d; reflexivity.
Qed.

Lemma days_in_month_bounds y m : 28 <= days_in_month y m <= 31.
Proof.
  unfold days_in_month.
  repeat match goal with |- context [if ?b then _ else _] => destruct b end; lia.
Qed.

Lemma date_ok_bounds y m d :
  date_ok y m d = true <->
  1 <= y <= 9999 /\ 1 <= m <= 12 /\ 1 <= d <= days_in_month y m.
Proof.
  unfold date_ok. rewrite !andb_true_iff, !Z.leb_le. tauto.
Qed.

(** [strptime] reads every text of a date as that date. *)
Lemma strptime_date_text d s :
  valid_date d -> date_text d s -> strptime_Ymd s = Some d.
Proof.
  unfold valid_date. intros Hok (mt & dt & Hmt & Hdt & ->).
  pose proof (proj1 (date_ok_bounds _ _ _) Hok) as (Hy & Hm & Hd).
  pose proof (days_in_month_bounds (year d) (month d)) as Hdim.
  unfold strptime_Ymd, format_regex_match.
  rewrite group_Y_digits by lia. cbv beta.
  rewrite (month_day_parse (year d) (month d) (day d) mt dt) by (assumption || lia).
  simpl truthy. cbv iota. rewrite Hok. now destruct d.
Qed.

Lemma isoformat_date_text d : date_text d (isoformat d).
Proof.
  exists (two_digits (month d)), (two_digits (day d)).
  split; [now left |]. split; [now left | reflexivity].
Qed.

(** [strptime] reads back the date that [isoformat] printed. *)
Lemma strptime_isoformat d : valid_date d -> strptime_Ymd (isoformat d) = Some d.
Proof. intros Hok. apply strptime_date_text; [exact Hok | apply isoformat_date_text]. Qed.

(** *** What [strptime] accepts is a text of the date it returns *)

Lemma or_else_Some {A : Type} (x y : option A) r :
  or_else x y = Some r -> x = Some r \/ y = Some r.
Proof. destruct x; simpl; auto. Qed.

Lemma lit_Some {A : Type} ch s (k : string -> option A) r :
  lit ch s k = Some r -> exists rest, s = String ch rest /\ k rest = Some r.
Proof.
  destruct s as [|c rest]; simpl; [discriminate |].
  destruct (Ascii.eqb c ch) eqn:E; [| discriminate].
  apply Ascii.eqb_eq in E as ->. eauto.
Qed.

Lemma one_Some {A : Type} cls s (k : Z -> string -> option A) r :
  one cls s k = Some r ->
  exists c rest, s = String c rest /\ cls c = true /\ k (digit_val c) rest = Some r.
Proof.
  destruct s as [|c rest]; simpl; [discriminate |].
  destruct (cls c) eqn:E; [| discriminate]. eauto.
Qed.

(** A character of a range of digits is the character of its value. *)
Lemma digit_class lo hi c :
  between lo hi c = true -> (48 <= lo)%N -> (hi <= 57)%N ->
  c = digit_char (digit_val c)
  /\ Z.of_N lo - 48 <= digit_val c <= Z.of_N hi - 48.
Proof.
  unfold between. rewrite andb_true_iff, !N.leb_le. intros [H1 H2] Hlo Hhi.
  unfold digit_char, digit_val. split; [| lia].
  replace (48 + (Z.of_N (code c) - 48)) with (Z.of_N (code c)) by lia.
  rewrite N2Z.id. unfold code. symmetry. apply ascii_N_embedding.
Qed.

Ltac name_digit c v Hc :=
  apply digit_class in Hc as [Hc ?]; [| lia | lia];
  set (v := digit_val c) in *; clearbody v; subst c.

Lemma group_Y_Some {A : Type} s (k : Z -> string -> option A) r :
  group_Y s k = Some r ->
  exists y rest,
    s = String.append (four_digits y) rest /\ 0 <= y <= 9999 /\ k y rest = Some r.
Proof.
  unfold group_Y. intros H.
  apply one_Some in H as (c1 & s1 & -> & H1 & H). name_digit c1 a H1.
  apply one_Some in H as (c2 & s2 & -> & H2 & H). name_digit c2 b H2.
  apply one_Some in H as (c3 & s3 & -> & H3 & H). name_digit c3 c H3.
  apply one_Some in H as (c4 & s4 & -> & H4 & H). name_digit c4 e H4.
  exists (1000 * a + 100 * b + 10 * c + e), s4.
  split; [| split; [lia | exact H]].
  unfold four_digits. rewrite !append_String, append_Empty.
  repeat f_equal; Z.div_mod_to_equations; lia.
Qed.

Lemma group_m_Some {A : Type} s (k : Z -> string -> option A) r :
  group_m s k = Some r ->
  exists m mt rest,
    s = String.append mt rest /\ month_text m mt /\ 1 <= m <= 12
    /\ k m rest = Some r.
Proof.
  unfold group_m, month_text. intros H.
  apply or_else_Some in H as [H | H]; [| apply or_else_Some in H as [H | H]].
  - apply lit_Some in H as (s1 & -> & H).
    apply one_Some in H as (c & rest & -> & Hc & H). name_digit c v Hc.
    exists (10 + v), (String "1" (String (digit_char v) EmptyString)), rest.
    split; [reflexivity |]. split; [| split; [lia | exact H]].
    left. enum_Z v; reflexivity.
  - apply lit_Some in H as (s1 & -> & H).
    apply one_Some in H as (c & rest & -> & Hc & H). name_digit c v Hc.
    exists v, (String "0" (String (digit_char v) EmptyString)), rest.
    split; [reflexivity |]. split; [| split; [lia | exact H]].
    left. enum_Z v; reflexivity.
  - apply one_Some in H as (c & rest & -> & Hc & H). name_digit c v Hc.
    exists v, (one_digit v), rest.
    split; [reflexivity |]. split; [| split; [lia | exact H]].
    right. split; [lia | reflexivity].
Qed.

Lemma group_d_Some {A : Type} s (k : Z -> string -> option A) r :
  group_d s k = Some r ->
  exists d dt rest,
    s = String.append dt rest /\ day_text d dt /\ 1 <= d <= 31
    /\ k d rest = Some r.
Proof.
  unfold group_d, day_text. intros H.
  apply or_else_Some in H as [H | H];
    [| apply or_else_Some in H as [H | H];
       [| apply or_else_Some in H as [H | H];
          [| apply or_else_Some in H as [H | H]]]].
  - apply lit_Some in H as (s1 & -> & H).
    apply one_Some in H as (c & rest & -> & Hc & H). name_digit c v Hc.
    exists (30 + v), (String "3" (String (digit_char v) EmptyString)), rest.
    split; [reflexivity |]. split; [| split; [lia | exact H]].
    left. enum_Z v; reflexivity.
  - apply one_Some in H as (c1 & s1 & -> & H1 & H). name_digit c1 a H1.
    apply one_Some in H as (c2 & rest & -> & H2 & H). name_digit c2 b H2.
    exists (10 * a + b),
      (String (digit_char a) (String (digit_char b) EmptyString)), rest.
    split; [reflexivity |]. split; [| split; [lia | exact H]].
    left. enum_Z a; enum_Z b; reflexivity.
  - apply lit_Some in H as (s1 & -> & H).
    apply one_Some in H as (c & rest & -> & Hc & H). name_digit c v Hc.
    exists v, (String "0" (String (digit_char v) EmptyString)), rest.
    split; [reflexivity |]. split; [| split; [lia | exact H]].
    left. enum_Z v; reflexivity.
  - apply one_Some in H as (c & rest & -> & Hc & H). name_digit c v Hc.
    exists v, (one_digit v), rest.
    split; [reflexivity |]. split; [| split; [lia | exact H]].
    right. split; [lia | now left].
  - apply lit_Some in H as (s1 & -> & H).
    apply one_Some in H as (c & rest & -> & Hc & H). name_digit c v Hc.
    exists v, (String " " (one_digit v)), rest.
    split; [reflexivity |]. split; [| split; [lia | exact H]].
    right. split; [lia | now right].
Qed.

Lemma strptime_Some_text s d :
  strptime_Ymd s = Some d -> valid_date d /\ date_text d s.
Proof.
  unfold strptime_Ymd. intros H.
  destruct (format_regex_match s) as [[[[y m] dd] rest]|] eqn:E; [| discriminate].
  destruct (truthy rest) eqn:Er; [discriminate |].
  destruct (date_ok y m dd) eqn:Eok; [| discriminate].
  injection H as <-. split; [exact Eok |].
  apply truthy_false in Er. subst rest.
  unfold format_regex_match in E.
  apply group_Y_Some in E as (y' & s1 & -> & Hy & E).
  apply lit_Some in E as (s2 & -> & E).
  apply group_m_Some in E as (m' & mt & s3 & -> & Hmt & Hm & E).
  apply lit_Some in E as (s4 & -> & E).
  apply group_d_Some in E as (d' & dt & s5 & -> & Hdt & Hd & E).
  injection E as -> -> -> ->.
  exists mt, dt. simpl. rewrite append_Empty_r. auto.
Qed.

(** The texts [strptime] accepts with the format [%Y-%m-%d] are exactly the
    texts of the dates of the calendar. *)
Theorem strptime_Ymd_texts s d :
  strptime_Ymd s = Some d <-> valid_date d /\ date_text d s.
Proof.
  split; [apply strptime_Some_text |].
  intros [Hv Ht]. now apply strptime_date_text.
Qed.

Lemma isoformat_not_empty d : isoformat d <> EmptyString.
Proof. discriminate. Qed.

Lemma pair_ltb_md a b :
  pair_ltb (month a, day a) (month b, day b) = true <-> md_before a b.
Proof.
  unfold pair_ltb, md_before. simpl.
  rewrite orb_true_iff, andb_true_iff, !Z.ltb_lt, Z.eqb_eq. tauto.
Qed.

Lemma date_ltb_lt a b : date_ltb a b = true <-> date_lt a b.
Proof.
  unfold date_ltb, date_lt.
  rewrite orb_true_iff, andb_true_iff, pair_ltb_md, Z.ltb_lt, Z.eqb_eq.
  unfold md_before. tauto.
Qed.

Lemma date_ltb_not_lt a b : date_ltb a b = false <-> ~ date_lt a b.
Proof.
  rewrite <- date_ltb_lt. destruct (date_ltb a b); split; congruence.
Qed.

(** The age the validator computes is [age_on]. *)
Lemma age_computed today dob :
  year today - year dob
  - (if pair_ltb (month today, day today) (month dob, day dob) then 1 else 0)
  = age_on today dob.
Proof.
  unfold age_on.
  destruct (pair_ltb _ _) eqn:E; destruct (decide _) as [H | H]; try reflexivity.
  - apply pair_ltb_md in E. contradiction.
  - apply pair_ltb_md in H. congruence.
Qed.

Lemma next_day_valid d :
  valid_date d -> year d < 9999 -> valid_date (next_day d).
Proof.
  unfold valid_date, next_day. rewrite date_ok_bounds. intros (Hy & Hm & Hd) Hlt.
  pose proof (days_in_month_bounds (year d) (month d)) as Hdim.
  destruct (day d <? days_in_month (year d) (month d)) eqn:E1.
  - apply Z.ltb_lt in E1. apply date_ok_bounds. simpl. lia.
  - destruct (month d <? 12) eqn:E2.
    + apply Z.ltb_lt in E2. apply date_ok_bounds. simpl.
      pose proof (days_in_month_bounds (year d) (month d + 1)). lia.
    + apply date_ok_bounds. simpl.
      pose proof (days_in_month_bounds (year d + 1) 1). lia.
Qed.

(** What the validator answers on a text that parses to [dob]. *)
Lemma validate_parsed today s dob :
  s <> EmptyString -> strptime_Ymd s = Some dob ->
  validate_date_of_birth today s
  = if date_ltb today dob then Some "Date of birth cannot be in the future"
    else if age_on today dob <? 13 then Some "Patient must be at least 13 years old"
    else if 120 <? age_on today dob then Some "Please enter a valid date of birth"
    else None.
Proof.
  intros Hne Hp. unfold validate_date_of_birth.
  rewrite (truthy_true _ Hne), Hp. change (negb true) with false. cbv iota zeta.
  now rewrite age_computed.
Qed.

End DateFacts.

(** ** The date-of-birth validator *)
Section DateOfBirthFacts.
Import PyStr Vocab Datetime DateVocab FormValidator.
Local Open Scope Z_scope.

(** [strptime] is more liberal than [isoformat]: a month or a day may lack
    its leading zero. *)
Remark strptime_accepts_unpadded :
  strptime_Ymd "2010-1-5" = Some (mkdate 2010 1 5).
Proof. reflexivity. Qed.

(** A text is rejected when the numbers it holds are not a date. *)
Remark strptime_rejects_30_february : strptime_Ymd "2010-02-30" = None.
Proof. reflexivity. Qed.

(** C3. The date-of-birth validator checks, in order: an empty text
    (required); a text that [strptime] cannot read with the format
    [%Y-%m-%d] (format error); a date strictly after today (future); then
    the age in whole years (the difference of the years, less one when
    today's month and day come before those of the birth), which must be at
    least 13 and at most 120, each bound with its own message.  The day
    thirteen years before today is accepted, the day after it gets the
    minimum-age message, and a date after today the future-date message. *)
Theorem validate_date_of_birth_spec :
  (forall today : date,
      validate_date_of_birth today EmptyString = Some "Date of birth is required")
  /\ (forall (today : date) (s : string),
        s <> EmptyString ->
        strptime_Ymd s = None ->
        validate_date_of_birth today s
        = Some "Please enter a valid date in YYYY-MM-DD format")
  /\ (forall (today : date) (s : string) (dob : date),
        s <> EmptyString ->
        strptime_Ymd s = Some dob ->
        (date_lt today dob ->
         validate_date_of_birth today s
         = Some "Date of birth cannot be in the future")
        /\ (~ date_lt today dob ->
            age_on today dob < 13 ->
            validate_date_of_birth today s
            = Some "Patient must be at least 13 years old")
        /\ (~ date_lt today dob ->
            120 < age_on today dob ->
            validate_date_of_birth today s
            = Some "Please enter a valid date of birth")
        /\ (~ date_lt today dob ->
            13 <= age_on today dob <= 120 ->
            validate_date_of_birth today s = None))
  /\ (forall d : date, valid_date d -> strptime_Ymd (isoformat d) = Some d)
  /\ (forall today : date,
        valid_date (thirteen_years_before today) ->
        validate_date_of_birth today (isoformat (thirteen_years_before today))
        = None)
  /\ (forall today : date,
        valid_date today ->
        valid_date (thirteen_years_before today) ->
        validate_date_of_birth today
          (isoformat (next_day (thirteen_years_before today)))
        = Some "Patient must be at least 13 years old")
  /\ (forall today dob : date,
        valid_date dob ->
        date_lt today dob ->
        validate_date_of_birth today (isoformat dob)
        = Some "Date of birth cannot be in the future").
Proof.
  split; [reflexivity |].
  split.
  { intros today s Hne Hp. unfold validate_date_of_birth.
    now rewrite (truthy_true _ Hne), Hp. }
  split.
  { intros today s dob Hne Hp. rewrite (validate_parsed today s dob Hne Hp).
    repeat split.
    - intros H. apply date_ltb_lt in H. now rewrite H.
    - intros H Ha. apply date_ltb_not_lt in H. apply Z.ltb_lt in Ha.
      now rewrite H, Ha.
    - intros H Ha. apply date_ltb_not_lt in H. rewrite H.
      assert (H13 : (age_on today dob <? 13) = false) by (apply Z.ltb_ge; lia).
      apply Z.ltb_lt in Ha. now rewrite H13, Ha.
    - intros H Ha. apply date_ltb_not_lt in H. rewrite H.
      assert (H13 : (age_on today dob <? 13) = false) by (apply Z.ltb_ge; lia).
      assert (H120 : (120 <? age_on today dob) = false) by (apply Z.ltb_ge; lia).
      now rewrite H13, H120. }
  split; [exact strptime_isoformat |].
  split.
  { intros today Hv.
    rewrite (validate_parsed today _ _ (isoformat_not_empty _) (strptime_isoformat _ Hv)).
    assert (Hlt : date_ltb today (thirteen_years_before today) = false).
    { apply date_ltb_not_lt. unfold date_lt, thirteen_years_before. simpl. lia. }
    assert (Hage : age_on today (thirteen_years_before today) = 13).
    { unfold age_on. destruct (decide _) as [H | H].
      - unfold md_before, thirteen_years_before in H. simpl in H. lia.
      - unfold thirteen_years_before. simpl. lia. }
    now rewrite Hlt, Hage. }
  split.
  { intros today Ht Hv.
    assert (Hy : year (thirteen_years_before today) < 9999).
    { apply date_ok_bounds in Ht. unfold thirteen_years_before. simpl. lia. }
    pose proof (next_day_valid _ Hv Hy) as Hn.
    rewrite (validate_parsed today _ _ (isoformat_not_empty _) (strptime_isoformat _ Hn)).
    apply date_ok_bounds in Hv. apply date_ok_bounds in Ht.
    unfold thirteen_years_before in *. simpl in Hv.
    set (nd := next_day _).
    assert (Hnd : (year nd = year today - 13 /\ month nd = month today
                   /\ day nd = day today + 1)
                  \/ (year nd = year today - 13 /\ month nd = month today + 1
                      /\ day nd = 1)
                  \/ (year nd = year today - 12 /\ month nd = 1 /\ day nd = 1
                      /\ month today = 12)).
    { subst nd. unfold next_day. simpl.
      destruct (day today <? _) eqn:E1; [left; simpl; lia |].
      destruct (month today <? 12) eqn:E2; [right; left; simpl; lia |].
      apply Z.ltb_ge in E2. right; right. simpl. lia. }
    assert (Hlt : date_ltb today nd = false).
    { apply date_ltb_not_lt. unfold date_lt. lia. }
    assert (Hage : age_on today nd = 12).
    { unfold age_on. destruct (decide _) as [H | H]; unfold md_before in H; lia. }
    now rewrite Hlt, Hage. }
  intros today dob Hv Hlt.
  rewrite (validate_parsed today _ _ (isoformat_not_empty _) (strptime_isoformat _ Hv)).
  apply date_ltb_lt in Hlt. now rewrite Hlt.
Qed.

(** C3 on 3 November 2026: born on 3 November 2013 (accepted), on 4 November
    2013 (too young), on 4 November 2026 (future), and in 1900 (too old). *)
Lemma validate_date_of_birth_spec_witness :
  validate_date_of_birth (mkdate 2026 11 3) "2013-11-03" = None
  /\ validate_date_of_birth (mkdate 2026 11 3) "2013-11-04"
     = Some "Patient must be at least 13 years old"
  /\ validate_date_of_birth (mkdate 2026 11 3) "2026-11-04"
     = Some "Date of birth cannot be in the future"
  /\ validate_date_of_birth (mkdate 2026 11 3) "1900-01-01"
     = Some "Please enter a valid date of birth".
Proof.
  destruct validate_date_of_birth_spec as (_ & _ & Hparsed & _ & H13 & Hnext & Hfut).
  split; [| split; [| split]].
  - apply (H13 (mkdate 2026 11 3)). reflexivity.
  - apply (Hnext (mkdate 2026 11 3)); reflexivity.
  - apply (Hfut (mkdate 2026 11 3) (mkdate 2026 11 4)); [reflexivity |].
    unfold date_lt. simpl. lia.
  - apply (Hparsed (mkdate 2026 11 3) "1900-01-01" (mkdate 1900 1 1));
      [discriminate | reflexivity | | vm_compute; reflexivity].
    unfold date_lt. simpl. lia.
Defined.

End DateOfBirthFacts.

(** ** The session guard *)
Section SessionFacts.
Import PyStr Routes RouteVocab Samples.
Local Open Scope Z_scope.

(** C1. On a request whose session holds a patient identifier and a
    last-activity instant: when more than 1800 seconds have passed since
    then, the session is cleared (the messages flashed before go with it),
    the expiry notice is flashed and the request is redirected to the login
    page; otherwise the request goes on, the session keeps its patient
    identifier and its last activity becomes the current instant.  So it is
    at 1801 and at 1799 seconds. *)
Theorem check_session_timeout_spec :
  (forall (now last : instant) (c : ctx) (pid : sval),
      session c !! "patient_id" = Some pid ->
      session c !! "last_activity" = Some (VTime last) ->
      (1800 * 1000000 < now - last ->
       check_session_timeout now c
       = ({| session := ∅; flashes := [expired_notice] |},
          Some (Redirect "login")))
      /\ (now - last <= 1800 * 1000000 ->
          check_session_timeout now c
          = ({| session := <["last_activity" := VTime now]> (session c);
                flashes := flashes c |}, None)
          /\ <["last_activity" := VTime now]> (session c) !! "patient_id" = Some pid
          /\ <["last_activity" := VTime now]> (session c) !! "last_activity"
             = Some (VTime now)))
  /\ (forall (last : instant) (c : ctx) (pid : sval),
        session c !! "patient_id" = Some pid ->
        session c !! "last_activity" = Some (VTime last) ->
        session (fst (check_session_timeout (last + 1801 * 1000000) c)) = ∅
        /\ snd (check_session_timeout (last + 1801 * 1000000) c)
           = Some (Redirect "login")
        /\ session (fst (check_session_timeout (last + 1799 * 1000000) c))
             !! "patient_id" = Some pid
        /\ session (fst (check_session_timeout (last + 1799 * 1000000) c))
             !! "last_activity" = Some (VTime (last + 1799 * 1000000))
        /\ snd (check_session_timeout (last + 1799 * 1000000) c) = None).
Proof.
  assert (Hmain : forall (now last : instant) (c : ctx) (pid : sval),
      session c !! "patient_id" = Some pid ->
      session c !! "last_activity" = Some (VTime last) ->
      (1800 * 1000000 < now - last ->
       check_session_timeout now c
       = ({| session := ∅; flashes := [expired_notice] |},
          Some (Redirect "login")))
      /\ (now - last <= 1800 * 1000000 ->
          check_session_timeout now c
          = ({| session := <["last_activity" := VTime now]> (session c);
                flashes := flashes c |}, None)
          /\ <["last_activity" := VTime now]> (session c) !! "patient_id" = Some pid
          /\ <["last_activity" := VTime now]> (session c) !! "last_activity"
             = Some (VTime now))).
  { intros now last c pid Hp Hl. unfold check_session_timeout, total_seconds_gt.
    rewrite Hp, Hl. split.
    - intros H. apply Z.ltb_lt in H. now rewrite H.
    - intros H. apply Z.ltb_ge in H. rewrite H. split; [reflexivity |].
      split.
      + rewrite lookup_insert_ne by discriminate. exact Hp.
      + apply lookup_insert_eq. }
  split; [exact Hmain |].
  intros last c pid Hp Hl.
  destruct (Hmain (last + 1801 * 1000000) last c pid Hp Hl) as [Hexp _].
  destruct (Hmain (last + 1799 * 1000000) last c pid Hp Hl) as [_ Hkeep].
  rewrite Hexp by lia.
  destruct Hkeep as (-> & H1 & H2); [lia |].
  simpl. auto.
Qed.

(** C1 for a session last active at instant 0, 1800.5 seconds later
    (expired, a pending message dropped) and exactly 1800 seconds later
    (kept). *)
Lemma check_session_timeout_spec_witness :
  check_session_timeout 1800500000
    {| session := <["patient_id" := VInt 7]> (<["last_activity" := VTime 0]> ∅);
       flashes := [("Profile updated successfully!", "success")] |}
  = ({| session := ∅; flashes := [expired_notice] |}, Some (Redirect "login"))
  /\ snd (check_session_timeout 1800000000
            {| session := <["patient_id" := VInt 7]> (<["last_activity" := VTime 0]> ∅);
               flashes := [] |})
     = None.
Proof.
  pose proof (proj1 check_session_timeout_spec) as H.
  split.
  - apply (H 1800500000 0
             {| session := <["patient_id" := VInt 7]> (<["last_activity" := VTime 0]> ∅);
                flashes := [("Profile updated successfully!", "success")] |} (VInt 7));
      [reflexivity | reflexivity | lia].
  - destruct (H 1800000000 0
             {| session := <["patient_id" := VInt 7]> (<["last_activity" := VTime 0]> ∅);
                flashes := [] |} (VInt 7)) as [_ Hk];
      [vm_compute; reflexivity | vm_compute; reflexivity |].
    destruct Hk as (-> & _); [lia | reflexivity].
Defined.

(** C9. The decorator of a protected view: without a patient identifier in
    the session it answers with a redirect to the login page whatever the
    view is, so the view does not run; with one, the view runs. *)
Theorem login_required_spec :
  forall (A : Type),
    (forall (f : A -> ctx -> ctx * response) (args : A) (c : ctx),
        session c !! "patient_id" = None ->
        login_required f args c
        = ({| session := session c;
              flashes := flashes c
                         ++ [("Please log in to access this page.", "warning")] |},
           Redirect "login"))
    /\ (forall (f g : A -> ctx -> ctx * response) (args : A) (c : ctx),
          session c !! "patient_id" = None ->
          login_required f args c = login_required g args c)
    /\ (forall (f : A -> ctx -> ctx * response) (args : A) (c : ctx) (pid : sval),
          session c !! "patient_id" = Some pid ->
          login_required f args c = f args c).
Proof.
  intros A. unfold login_required. repeat split.
  - intros f args c H. now rewrite H.
  - intros f g args c H. now rewrite H.
  - intros f args c pid H. now rewrite H.
Qed.

(** C9 at [marking_view]: an anonymous request is redirected and the mark
    is not set; with a patient identifier the mark is set. *)
Lemma login_required_spec_witness :
  (snd (login_required marking_view tt {| session := ∅; flashes := [] |})
   = Redirect "login"
   /\ session (fst (login_required marking_view tt
                      {| session := ∅; flashes := [] |})) !! "ran" = None)
  /\ session (fst (login_required marking_view tt
                     {| session := <["patient_id" := VInt 7]> ∅; flashes := [] |}))
       !! "ran" = Some (VInt 1).
Proof.
  destruct (login_required_spec unit) as (Hanon & _ & Hauth).
  split.
  - rewrite (Hanon marking_view tt {| session := ∅; flashes := [] |})
      by (vm_compute; reflexivity).
    split; reflexivity.
  - rewrite (Hauth marking_view tt
               {| session := <["patient_id" := VInt 7]> ∅; flashes := [] |}
               (VInt 7)) by (vm_compute; reflexivity).
    reflexivity.
Defined.

End SessionFacts.

(** ** Login: what a failed attempt shows *)
Section LoginFacts.
Import PyStr Routes RouteVocab Samples.

(** C6. For a login attempt (a POST without a session identifier) whose form
    validates: when no record has the email and when a record has it but the
    password check fails, the attempt ends the same way, with the one
    message [Invalid email or password. Please try again.] and the login
    page, so that the two cases cannot be told apart; when the password
    matches a record that is not active, the message is the different
    deactivated-account one. *)
Theorem login_failure_messages
    (now : instant) (req : request) (c : ctx) (raw_email password : string) :
  session c !! "patient_id" = None ->
  method req = "POST" ->
  fst (LoginForm.validate (LoginForm.init (form req))) = true ->
  form req !! "email" = Some raw_email ->
  form req !! "password" = Some password ->
  (forall db : list Patient,
      query_first_by_email db (lower (strip raw_email)) = None ->
      login now req db c
      = ({| session := session c; flashes := flashes c ++ [invalid_credentials] |},
         db, Render "login.html"))
  /\ (forall (db : list Patient) (p : Patient),
        query_first_by_email db (lower (strip raw_email)) = Some p ->
        check_password p password = false ->
        login now req db c
        = ({| session := session c; flashes := flashes c ++ [invalid_credentials] |},
           db, Render "login.html"))
  /\ (forall (db1 db2 : list Patient) (p : Patient),
        query_first_by_email db1 (lower (strip raw_email)) = None ->
        query_first_by_email db2 (lower (strip raw_email)) = Some p ->
        check_password p password = false ->
        visible (login now req db1 c) = visible (login now req db2 c))
  /\ (forall (db : list Patient) (p : Patient),
        query_first_by_email db (lower (strip raw_email)) = Some p ->
        check_password p password = true ->
        is_active p = false ->
        login now req db c
        = ({| session := session c; flashes := flashes c ++ [account_deactivated] |},
           db, Render "login.html"))
  /\ account_deactivated <> invalid_credentials
  /\ String.prefix "Invalid email or password" (fst invalid_credentials) = true.
Proof.
  intros Hs Hm Hv He Hp.
  assert (Hno : forall db : list Patient,
      query_first_by_email db (lower (strip raw_email)) = None ->
      login now req db c
      = ({| session := session c; flashes := flashes c ++ [invalid_credentials] |},
         db, Render "login.html")).
  { intros db Hq. unfold login. rewrite Hs, Hm. simpl String.eqb. cbv iota.
    destruct (LoginForm.validate _) as [ok frm]. simpl in Hv. subst ok.
    now rewrite He, Hp, Hq. }
  assert (Hbad : forall (db : list Patient) (p : Patient),
      query_first_by_email db (lower (strip raw_email)) = Some p ->
      check_password p password = false ->
      login now req db c
      = ({| session := session c; flashes := flashes c ++ [invalid_credentials] |},
         db, Render "login.html")).
  { intros db p Hq Hc. unfold login. rewrite Hs, Hm. simpl String.eqb. cbv iota.
    destruct (LoginForm.validate _) as [ok frm]. simpl in Hv. subst ok.
    now rewrite He, Hp, Hq, Hc. }
  split; [exact Hno |].
  split; [exact Hbad |].
  split.
  { intros db1 db2 p H1 H2 Hc.
    now rewrite (Hno db1 H1), (Hbad db2 p H2 Hc). }
  split; [| split; [discriminate | reflexivity]].
  intros db p Hq Hc Ha. unfold login. rewrite Hs, Hm. simpl String.eqb. cbv iota.
  destruct (LoginForm.validate _) as [ok frm]. simpl in Hv. subst ok.
  now rewrite He, Hp, Hq, Hc, Ha.
Qed.

(** C6 on [sample_db]: an unknown email and a wrong password end the same
    way; the right password of the deactivated patient ends otherwise. *)
Lemma login_failure_messages_witness :
  visible (login 0%Z (sample_request "eve@example.org" "guess") sample_db
             {| session := ∅; flashes := [] |})
  = ({| session := ∅; flashes := [invalid_credentials] |}, Render "login.html")
  /\ visible (login 0%Z (sample_request "Ada@Example.org" "guess") sample_db
                {| session := ∅; flashes := [] |})
     = ({| session := ∅; flashes := [invalid_credentials] |}, Render "login.html")
  /\ visible (login 0%Z (sample_request "bob@example.org" "Secret#12") sample_db
                {| session := ∅; flashes := [] |})
     = ({| session := ∅; flashes := [account_deactivated] |}, Render "login.html").
Proof.
  split; [| split].
  - destruct (login_failure_messages 0%Z
                (sample_request "eve@example.org" "guess")
                {| session := ∅; flashes := [] |} "eve@example.org" "guess")
      as (H & _); [vm_compute; reflexivity .. |].
    rewrite (H sample_db) by (vm_compute; reflexivity). reflexivity.
  - destruct (login_failure_messages 0%Z
                (sample_request "Ada@Example.org" "guess")
                {| session := ∅; flashes := [] |} "Ada@Example.org" "guess")
      as (_ & H & _); [vm_compute; reflexivity .. |].
    rewrite (H sample_db
               (mkPatient 1 "ada@example.org" "Ada" "Ada Lovelace" true None
                  (String.eqb "Secret#11")))
      by (vm_compute; reflexivity).
    reflexivity.
  - destruct (login_failure_messages 0%Z
                (sample_request "bob@example.org" "Secret#12")
                {| session := ∅; flashes := [] |} "bob@example.org" "Secret#12")
      as (_ & _ & _ & H & _); [vm_compute; reflexivity .. |].
    rewrite (H sample_db
               (mkPatient 2 "bob@example.org" "Bob" "Bob Stone" false None
                  (String.eqb "Secret#12")))
      by (vm_compute; reflexivity).
    reflexivity.
Defined.

End LoginFacts.

(** ** More on strings: characters, concatenation and [strip] *)
Section MoreStrFacts.
Import PyStr Re Vocab FormVocab.

Lemma chars_append a b : chars (String.append a b) = chars a ++ chars b.
Proof. induction a as [|c a IH]; [reflexivity |]. simpl. now rewrite <- IH. Qed.

Lemma chars_inj a b : chars a = chars b -> a = b.
Proof.
  intros H. rewrite <- (string_of_list_ascii_of_string a),
    <- (string_of_list_ascii_of_string b). unfold chars in H. now rewrite H.
Qed.

Lemma chars_of_list l : chars (string_of_list_ascii l) = l.
Proof. apply list_ascii_of_string_of_list_ascii. Qed.

Lemma chars_length s : length (chars s) = String.length s.
Proof. induction s as [|c s IH]; simpl; [reflexivity | now rewrite IH]. Qed.

Lemma chars_nil s : chars s = [] <-> s = EmptyString.
Proof. destruct s; simpl; split; congruence. Qed.

Lemma all_chars_append cls a b :
  all_chars cls (String.append a b) <-> all_chars cls a /\ all_chars cls b.
Proof.
  unfold all_chars. rewrite chars_append. split.
  - intros H. split; intros c Hc; apply H, in_or_app; auto.
  - intros [Ha Hb] c Hc. apply in_app_or in Hc as [Hc | Hc]; auto.
Qed.

Lemma all_chars_Forall cls s :
  all_chars cls s <-> List.Forall (fun c => cls c = true) (chars s).
Proof. unfold all_chars. now rewrite List.Forall_forall. Qed.

End MoreStrFacts.

(** ** The email validator: the addresses it accepts *)
Section EmailFacts.
Import PyStr Re Vocab FormVocab FormValidator.

Lemma lang_star_chr p w :
  lang (Star (Chr p)) w <-> List.Forall (fun c => p c = true) w.
Proof.
  split.
  - intros H. remember (Star (Chr p)) as r eqn:Er.
    induction H as [| | | | |r0|r0 u v Hu _ Hv IHv]; try discriminate.
    + constructor.
    + injection Er as ->. apply lang_chr_inv in Hu as (c & -> & Hc).
      simpl. constructor; [exact Hc | now apply IHv].
  - induction 1 as [|c w' Hc _ IH]; [constructor |].
    apply (lang_star_app _ [c] w'); [now constructor | exact IH].
Qed.

Lemma lang_plus_chr p w :
  lang (Plus (Chr p)) w <-> w <> [] /\ List.Forall (fun c => p c = true) w.
Proof.
  unfold Plus. split.
  - intros H. apply lang_cat_inv in H as (u & v & -> & Hu & Hv).
    apply lang_chr_inv in Hu as (c & -> & Hc). apply lang_star_chr in Hv.
    split; [discriminate | now constructor].
  - intros [Hne H]. destruct H as [|c w' Hc Hw]; [congruence |].
    apply (lang_cat _ _ [c] w'); [now constructor | now apply lang_star_chr].
Qed.

Lemma lang_one_char x w : lang (Chr (Ascii.eqb x)) w <-> w = [x].
Proof.
  split.
  - intros H. apply lang_chr_inv in H as (c & -> & Hc).
    apply Ascii.eqb_eq in Hc. now subst.
  - intros ->. constructor. apply Ascii.eqb_refl.
Qed.

Lemma lang_two_or_more p w :
  lang (Cat (Chr p) (Cat (Chr p) (Star (Chr p)))) w <->
  2 <= length w /\ List.Forall (fun c => p c = true) w.
Proof.
  split.
  - intros H. apply lang_cat_inv in H as (u & v & -> & Hu & Hv).
    apply lang_cat_inv in Hv as (u' & v' & -> & Hu' & Hv').
    apply lang_chr_inv in Hu as (a & -> & Ha).
    apply lang_chr_inv in Hu' as (b & -> & Hb).
    apply lang_star_chr in Hv'. simpl. split; [lia |].
    constructor; [exact Ha |]. now constructor.
  - intros [Hlen H].
    destruct H as [|a w1 Ha H1]; [simpl in Hlen; lia |].
    destruct H1 as [|b w2 Hb H2]; [simpl in Hlen; lia |].
    apply (lang_cat _ _ [a] (b :: w2)); [now constructor |].
    apply (lang_cat _ _ [b] w2); [now constructor | now apply lang_star_chr].
Qed.

(** The words of the email pattern. *)
Lemma email_pattern_lang w :
  lang email_pattern w <->
  exists l d t,
    w = l ++ "@"%char :: d ++ "."%char :: t
    /\ l <> [] /\ List.Forall (fun c => local_part_char c = true) l
    /\ d <> [] /\ List.Forall (fun c => domain_char c = true) d
    /\ 2 <= length t /\ List.Forall (fun c => alpha c = true) t.
Proof.
  unfold email_pattern. split.
  - intros H.
    apply lang_cat_inv in H as (l & r1 & -> & Hl & H).
    apply lang_cat_inv in H as (a & r2 & -> & Ha & H).
    apply lang_cat_inv in H as (d & r3 & -> & Hd & H).
    apply lang_cat_inv in H as (o & t & -> & Ho & Ht).
    apply lang_plus_chr in Hl as [Hl1 Hl2].
    apply lang_one_char in Ha as ->.
    apply lang_plus_chr in Hd as [Hd1 Hd2].
    apply lang_one_char in Ho as ->.
    apply lang_two_or_more in Ht as [Ht1 Ht2].
    exists l, d, t. simpl. auto 10.
  - intros (l & d & t & -> & Hl1 & Hl2 & Hd1 & Hd2 & Ht1 & Ht2).
    apply lang_cat; [now apply lang_plus_chr |].
    apply (lang_cat _ _ ["@"%char]); [now apply lang_one_char |].
    apply lang_cat; [now apply lang_plus_chr |].
    apply (lang_cat _ _ ["."%char]); [now apply lang_one_char |].
    now apply lang_two_or_more.
Qed.

Lemma email_shape_lang e : email_shape e <-> lang email_pattern (chars e).
Proof.
  rewrite email_pattern_lang. unfold email_shape. split.
  - intros (l & d & t & -> & Hl1 & Hl2 & Hd1 & Hd2 & Ht1 & Ht2).
    exists (chars l), (chars d), (chars t).
    rewrite chars_append. simpl. rewrite chars_append. simpl.
    rewrite <- !all_chars_Forall, !chars_nil, chars_length. auto 10.
  - intros (l & d & t & Hw & Hl1 & Hl2 & Hd1 & Hd2 & Ht1 & Ht2).
    exists (string_of_list_ascii l), (string_of_list_ascii d), (string_of_list_ascii t).
    rewrite !all_chars_Forall, !chars_of_list.
    split.
    { apply chars_inj. rewrite chars_append. simpl. rewrite chars_append. simpl.
      now rewrite !chars_of_list. }
    repeat split; try assumption.
    + intros E. apply Hl1. now rewrite <- (chars_of_list l), E.
    + intros E. apply Hd1. now rewrite <- (chars_of_list d), E.
    + now rewrite <- chars_length, chars_of_list.
Qed.

(** The anchored match: the pattern, or the pattern and a final newline. *)
Lemma email_match_shape e :
  match_anchored email_pattern e = true <->
  email_shape e \/ exists e', e = with_newline e' /\ email_shape e'.
Proof.
  unfold match_anchored. rewrite fullmatch_lang. split.
  - intros H. apply lang_cat_inv in H as (u & v & Heq & Hu & Hv).
    apply lang_alt_inv in Hv as [Hv | Hv].
    + inversion Hv; subst. rewrite app_nil_r in Heq. rewrite <- Heq in Hu.
      left. now apply email_shape_lang.
    + apply lang_one_char in Hv as ->. right.
      exists (string_of_list_ascii u). split.
      * apply chars_inj. unfold with_newline. rewrite chars_append, chars_of_list.
        exact Heq.
      * apply email_shape_lang. now rewrite chars_of_list.
  - intros [H | (e' & -> & H)].
    + apply email_shape_lang in H. rewrite <- (app_nil_r (chars e)).
      apply lang_cat; [exact H |]. apply lang_alt_l. constructor.
    + apply email_shape_lang in H. unfold with_newline. rewrite chars_append.
      apply lang_cat; [exact H |]. apply lang_alt_r. now apply lang_one_char.
Qed.

Lemma email_shape_not_empty e : email_shape e -> e <> EmptyString.
Proof.
  intros (l & d & t & -> & Hl & _). destruct l; [congruence | discriminate].
Qed.

(** The email validator accepts exactly the texts made of a local part
    (one or more of letters, digits and [._%+-]), an at sign, a domain (one
    or more of letters, digits, dot and hyphen), a dot and two or more
    letters, and the same texts followed by one newline. *)
Theorem validate_email_accepts_exactly (email : string) :
  validate_email email = None <->
  email_shape email \/ exists e', email = with_newline e' /\ email_shape e'.
Proof.
  rewrite <- email_match_shape. unfold validate_email.
  destruct email as [|c rest]; [split; discriminate |].
  simpl truthy. change (negb true) with false. cbv iota.
  destruct (match_anchored email_pattern (String c rest)); simpl; split; congruence.
Qed.

End EmailFacts.

(** ** The email validator and white space *)
Section EmailSpaceFacts.
Import PyStr Re Vocab FormVocab FormValidator.

Lemma domain_char_not_space c : domain_char c = true -> isspace c = false.
Proof. destruct c as [[] [] [] [] [] [] [] []]; vm_compute; congruence. Qed.

Lemma alpha_not_space c : alpha c = true -> isspace c = false.
Proof. destruct c as [[] [] [] [] [] [] [] []]; vm_compute; congruence. Qed.

Lemma email_shape_no_space e c :
  email_shape e -> In c (chars e) -> isspace c = false.
Proof.
  intros (l & d & t & -> & _ & Hl & _ & Hd & _ & Ht) Hc.
  rewrite chars_append in Hc. simpl in Hc. rewrite chars_append in Hc. simpl in Hc.
  apply in_app_or in Hc as [Hc | [<- | Hc]].
  - apply local_class_not_space. now apply Hl.
  - reflexivity.
  - apply in_app_or in Hc as [Hc | [<- | Hc]].
    + apply domain_char_not_space. now apply Hd.
    + reflexivity.
    + apply alpha_not_space. now apply Ht.
Qed.

Lemma validate_email_of_match e :
  match_anchored email_pattern e = true -> e <> EmptyString ->
  validate_email e = None.
Proof.
  intros Hm Hne. unfold validate_email.
  now rewrite (truthy_true _ Hne), Hm.
Qed.

Lemma validate_email_match e :
  validate_email e = None -> match_anchored email_pattern e = true.
Proof.
  unfold validate_email. destruct (negb (truthy e)); [discriminate |].
  destruct (match_anchored email_pattern e); [reflexivity | discriminate].
Qed.

(** An accepted email address holds no white space, except that one newline
    may end it: an accepted address without white space is still accepted
    with a newline appended, and an accepted address with white space is
    such an address followed by that newline. *)
Theorem validate_email_white_space (email : string) :
  validate_email email = None ->
  ((forall c, In c (chars email) -> isspace c = false)
   /\ validate_email (with_newline email) = None)
  \/ (exists e', email = with_newline e'
                 /\ validate_email e' = None
                 /\ forall c, In c (chars e') -> isspace c = false).
Proof.
  intros H. apply validate_email_match in H.
  apply email_match_shape in H as [H | (e' & -> & H)].
  - left. split; [intros c Hc; now apply (email_shape_no_space email) |].
    apply validate_email_of_match.
    + apply email_match_shape. right. now exists email.
    + unfold with_newline. destruct email; discriminate.
  - right. exists e'. split; [reflexivity |]. split.
    + apply validate_email_of_match.
      * apply email_match_shape. now left.
      * now apply email_shape_not_empty.
    + intros c Hc. now apply (email_shape_no_space e').
Qed.

(** The address [ada@example.org] is accepted, has no white space, and is
    accepted with a final newline. *)
Lemma validate_email_white_space_witness :
  ((forall c, In c (chars "ada@example.org") -> isspace c = false)
   /\ validate_email (with_newline "ada@example.org") = None)
  \/ (exists e', "ada@example.org" = with_newline e'
                 /\ validate_email e' = None
                 /\ forall c, In c (chars e') -> isspace c = false).
Proof.
  apply (validate_email_white_space "ada@example.org"). reflexivity.
Defined.

End EmailSpaceFacts.

(** ** [strip]: what it removes and what it keeps *)
Section StripFacts.
Import PyStr Re Vocab FormVocab.

Lemma lstrip_split s :
  exists pre, s = String.append pre (lstrip s) /\ all_space pre.
Proof.
  induction s as [|c s (pre & Hs & Hpre)]; simpl.
  - exists EmptyString. split; [reflexivity | intros x []].
  - destruct (isspace c) eqn:E.
    + exists (String c pre). split; [now rewrite append_String, <- Hs |].
      intros x [<- | Hx]; [exact E | now apply Hpre].
    + exists EmptyString. split; [reflexivity | intros x []].
Qed.

Lemma rstrip_split s :
  exists post, s = String.append (rstrip s) post /\ all_space post.
Proof.
  induction s as [|c s (post & Hs & Hpost)]; simpl.
  - exists EmptyString. split; [reflexivity | intros x []].
  - destruct (rstrip s) as [|a t] eqn:R.
    + destruct (isspace c) eqn:E.
      * exists (String c post). rewrite append_Empty in Hs |- *.
        split; [now rewrite <- Hs |].
        intros x [<- | Hx]; [exact E | now apply Hpost].
      * exists post. rewrite append_Empty in Hs. rewrite append_String, append_Empty.
        split; [now rewrite <- Hs | exact Hpost].
    + exists post. rewrite append_String. split; [now rewrite <- Hs | exact Hpost].
Qed.

Lemma lstrip_head s :
  lstrip s = EmptyString
  \/ exists c t, lstrip s = String c t /\ isspace c = false.
Proof.
  induction s as [|c s IH]; simpl; [now left |].
  destruct (isspace c) eqn:E; [exact IH | right; now exists c, s].
Qed.

Lemma rstrip_keeps_head c t :
  isspace c = false -> exists t', rstrip (String c t) = String c t'.
Proof.
  intros E. simpl. destruct (rstrip t) as [|a u]; rewrite ?E; eauto.
Qed.

Lemma rstrip_idem s : rstrip (rstrip s) = rstrip s.
Proof.
  induction s as [|c s IH]; [reflexivity |]. simpl.
  destruct (rstrip s) as [|a t] eqn:R.
  - destruct (isspace c) eqn:E; [reflexivity |]. simpl. now rewrite E.
  - change (rstrip (String c (String a t))) with
      (match rstrip (String a t) with
       | EmptyString => if isspace c then EmptyString else String c EmptyString
       | u => String c u
       end).
    now rewrite IH.
Qed.

(** [strip] is idempotent. *)
Lemma strip_idem s : strip (strip s) = strip s.
Proof.
  unfold strip. destruct (lstrip_head s) as [H | (c & t & H & E)].
  - now rewrite H.
  - rewrite H. destruct (rstrip_keeps_head c t E) as [t' Ht'].
    rewrite Ht'. simpl lstrip. rewrite E. rewrite <- Ht'. apply rstrip_idem.
Qed.

(** A string is its stripped part between two runs of white space. *)
Lemma strip_split s :
  exists pre post,
    s = String.append pre (String.append (strip s) post)
    /\ all_space pre /\ all_space post.
Proof.
  destruct (lstrip_split s) as (pre & Hs & Hpre).
  destruct (rstrip_split (lstrip s)) as (post & Hl & Hpost).
  exists pre, post. unfold strip. now rewrite <- Hl.
Qed.

Lemma all_space_all_chars cls s :
  (forall c, isspace c = true -> cls c = true) -> all_space s -> all_chars cls s.
Proof. intros Hcls Hs c Hc. apply Hcls. now apply Hs. Qed.

(** Stripping does not change whether all characters are in a class that
    holds the white space. *)
Lemma all_chars_strip cls s :
  (forall c, isspace c = true -> cls c = true) ->
  all_chars cls (strip s) <-> all_chars cls s.
Proof.
  intros Hcls. destruct (strip_split s) as (pre & post & Hs & Hpre & Hpost).
  rewrite Hs at 2. rewrite !all_chars_append. split; [| tauto].
  intros H. repeat split; [| exact H |]; now apply all_space_all_chars.
Qed.

Lemma strip_not_empty s : strip s <> EmptyString -> s <> EmptyString.
Proof. intros H ->. now apply H. Qed.

End StripFacts.

(** ** The name and address validators *)
Section NameFacts.
Import PyStr Re Vocab FormVocab FormValidator.

Lemma newline_name_char : name_char newline = true.
Proof. reflexivity. Qed.

(** The anchored name pattern matches the non-empty strings of name
    characters; the final newline the anchor allows is one of them. *)
Lemma name_match n :
  match_anchored name_pattern n = true <-> n <> EmptyString /\ all_chars name_char n.
Proof.
  unfold match_anchored, name_pattern. rewrite fullmatch_lang, all_chars_Forall.
  rewrite <- chars_nil. split.
  - intros H. apply lang_cat_inv in H as (u & v & -> & Hu & Hv).
    apply lang_plus_chr in Hu as [Hu1 Hu2]. split.
    + destruct u; [congruence | discriminate].
    + apply List.Forall_app. split; [exact Hu2 |].
      apply lang_alt_inv in Hv as [Hv | Hv].
      * inversion Hv. constructor.
      * apply lang_one_char in Hv as ->. constructor; [reflexivity | constructor].
  - intros [Hne H]. rewrite <- (app_nil_r (chars n)).
    apply lang_cat; [now apply lang_plus_chr |]. apply lang_alt_l. constructor.
Qed.

Lemma name_match_false n :
  n <> EmptyString -> ~ all_chars name_char n -> match_anchored name_pattern n = false.
Proof.
  intros Hne H. destruct (match_anchored name_pattern n) eqn:E; [| reflexivity].
  apply name_match in E as [_ E]. contradiction.
Qed.

(** The name validator reports the first failing rule, in the order: empty;
    trimmed length under 2; trimmed length over 50; a character that is not a
    letter, white space, a hyphen or an apostrophe.  A name of trimmed length
    2 to 50, both included, made of such characters is accepted. *)
Theorem validate_name_spec (name field_name : string) :
  (name = EmptyString ->
   validate_name name field_name = Some (String.append field_name " is required"))
  /\ (name <> EmptyString ->
      String.length (strip name) < 2 ->
      validate_name name field_name
      = Some (String.append field_name " must be at least 2 characters long"))
  /\ (50 < String.length (strip name) ->
      validate_name name field_name
      = Some (String.append field_name " must be less than 50 characters"))
  /\ (2 <= String.length (strip name) <= 50 ->
      ~ all_chars name_char name ->
      validate_name name field_name
      = Some (String.append field_name
                " can only contain letters, spaces, hyphens, and apostrophes"))
  /\ (2 <= String.length (strip name) <= 50 ->
      all_chars name_char name ->
      validate_name name field_name = None).
Proof.
  assert (Hne : 2 <= String.length (strip name) -> name <> EmptyString).
  { intros H ->. simpl in H. lia. }
  unfold validate_name. repeat split.
  - intros ->. reflexivity.
  - intros H Hl. rewrite (truthy_true _ H). change (negb true) with false. cbv iota.
    apply Nat.ltb_lt in Hl. now rewrite Hl.
  - intros Hl. rewrite (truthy_true name) by (apply Hne; lia).
    change (negb true) with false. cbv iota.
    rewrite (length_ge_ltb (strip name) 2) by lia.
    apply Nat.ltb_lt in Hl. now rewrite Hl.
  - intros Hl Hc. rewrite (truthy_true name) by (apply Hne; lia).
    change (negb true) with false. cbv iota.
    rewrite (length_ge_ltb (strip name) 2) by lia.
    assert (H50 : (50 <? String.length (strip name))%nat = false)
      by (apply Nat.ltb_ge; lia).
    rewrite H50, name_match_false; [reflexivity | apply Hne; lia | exact Hc].
  - intros Hl Hc. rewrite (truthy_true name) by (apply Hne; lia).
    change (negb true) with false. cbv iota.
    rewrite (length_ge_ltb (strip name) 2) by lia.
    assert (H50 : (50 <? String.length (strip name))%nat = false)
      by (apply Nat.ltb_ge; lia).
    rewrite H50. rewrite (proj2 (name_match name)); [reflexivity |].
    split; [apply Hne; lia | exact Hc].
Qed.

(** A name of exactly fifty letters is accepted and one of fifty-one is
    rejected; [O'Neil-Smith 3rd] is rejected for its digit. *)
Lemma validate_name_spec_witness :
  validate_name "abcdefghijklmnopqrstuvwxyzabcdefghijklmnopqrstuvwx" "First name"
  = None
  /\ validate_name "abcdefghijklmnopqrstuvwxyzabcdefghijklmnopqrstuvwxy" "First name"
     = Some "First name must be less than 50 characters"
  /\ validate_name "O'Neil-Smith 3rd" "Last name"
     = Some "Last name can only contain letters, spaces, hyphens, and apostrophes".
Proof.
  split; [| split].
  - apply (validate_name_spec
             "abcdefghijklmnopqrstuvwxyzabcdefghijklmnopqrstuvwx" "First name").
    + vm_compute. lia.
    + intros c Hc. vm_compute in Hc.
      repeat (destruct Hc as [<- | Hc]; [reflexivity |]). destruct Hc.
  - apply (validate_name_spec
             "abcdefghijklmnopqrstuvwxyzabcdefghijklmnopqrstuvwxy" "First name").
    vm_compute. lia.
  - apply (validate_name_spec "O'Neil-Smith 3rd" "Last name").
    + vm_compute. lia.
    + intros H. specialize (H "3"%char). vm_compute in H.
      assert (false = true) by (apply H; tauto). discriminate.
Defined.

End NameFacts.

(** ** Validators and the normalisation applied before storing *)
Section NormaliseFacts.
Import PyStr Re Vocab FormVocab FormValidator.

Lemma space_name_char c : isspace c = true -> name_char c = true.
Proof. intros H. unfold name_char. rewrite H. now rewrite orb_true_r. Qed.

Lemma name_match_strip v :
  strip v <> EmptyString ->
  match_anchored name_pattern (strip v) = match_anchored name_pattern v.
Proof.
  intros Hne. pose proof (strip_not_empty v Hne) as Hv.
  destruct (match_anchored name_pattern v) eqn:E.
  - apply name_match. apply name_match in E as [_ E].
    split; [exact Hne |]. now apply (all_chars_strip name_char v space_name_char).
  - destruct (match_anchored name_pattern (strip v)) eqn:E'; [| reflexivity].
    apply name_match in E' as [_ E'].
    apply (all_chars_strip name_char v space_name_char) in E'.
    rewrite (proj2 (name_match v)) in E; [discriminate | now split].
Qed.

Lemma digit_count_append a b :
  digit_count (String.append a b) = digit_count a + digit_count b.
Proof.
  unfold digit_count. now rewrite chars_append, List.filter_app, length_app.
Qed.

Lemma digit_count_all_space s : all_space s -> digit_count s = 0.
Proof.
  unfold digit_count, all_space. induction (chars s) as [|c l IH]; intros H.
  - reflexivity.
  - simpl. destruct (is_decimal c) eqn:E.
    + apply digit_not_space in E. rewrite (H c (or_introl eq_refl)) in E. discriminate.
    + apply IH. intros x Hx. apply H. now right.
Qed.

Lemma digit_count_strip v : digit_count (strip v) = digit_count v.
Proof.
  destruct (strip_split v) as (pre & post & Hs & Hpre & Hpost).
  rewrite Hs at 2. rewrite !digit_count_append.
  rewrite (digit_count_all_space pre Hpre), (digit_count_all_space post Hpost). lia.
Qed.

(** A value whose stripped text is not empty gets the same verdict from the
    name, address and phone validators as its stripped text: the text kept
    when white space around a submitted value is removed is judged as the
    submitted value was. *)
Theorem strip_keeps_verdict (v field_name : string) :
  strip v <> EmptyString ->
  validate_name (strip v) field_name = validate_name v field_name
  /\ validate_address (strip v) = validate_address v
  /\ validate_phone (strip v) = validate_phone v.
Proof.
  intros Hne. pose proof (strip_not_empty v Hne) as Hv.
  unfold validate_name, validate_address, validate_phone.
  rewrite !sub_nondigit_length, digit_count_strip.
  rewrite (truthy_true _ Hne), (truthy_true _ Hv), strip_idem, (name_match_strip v Hne).
  auto.
Qed.

(** [strip_keeps_verdict] at a padded name, address and phone number. *)
Lemma strip_keeps_verdict_witness :
  (validate_name (strip "  Ada ") "First name" = validate_name "  Ada " "First name"
   /\ validate_address (strip "  Ada ") = validate_address "  Ada "
   /\ validate_phone (strip "  Ada ") = validate_phone "  Ada ")
  /\ validate_name (strip "  Ada ") "First name" = None.
Proof.
  split; [| reflexivity].
  apply (strip_keeps_verdict "  Ada " "First name"). discriminate.
Defined.

Lemma rstrip_app_space s post :
  all_space post -> rstrip (String.append s post) = rstrip s.
Proof.
  intros Hp. induction s as [|c s IH].
  - rewrite append_Empty. now apply rstrip_empty.
  - rewrite append_String. simpl. now rewrite IH.
Qed.

Lemma rstrip_no_space s :
  (forall c, In c (chars s) -> isspace c = false) -> rstrip s = s.
Proof.
  induction s as [|c s IH]; intros H; [reflexivity |]. simpl.
  rewrite IH by (intros x Hx; apply H; now right).
  rewrite (H c (or_introl eq_refl)). now destruct s.
Qed.

Lemma lstrip_no_space s :
  (forall c, In c (chars s) -> isspace c = false) -> lstrip s = s.
Proof.
  destruct s as [|c s]; intros H; [reflexivity |]. simpl.
  now rewrite (H c (or_introl eq_refl)).
Qed.

Lemma strip_email_shape e : email_shape e -> strip e = e.
Proof.
  intros H. unfold strip.
  rewrite lstrip_no_space by (intros c Hc; now apply (email_shape_no_space e)).
  apply rstrip_no_space. intros c Hc. now apply (email_shape_no_space e).
Qed.

Lemma strip_email_shape_newline e : email_shape e -> strip (with_newline e) = e.
Proof.
  intros H. unfold strip, with_newline.
  pose proof (email_shape_not_empty e H) as Hne.
  assert (Hl : lstrip (String.append e (String newline EmptyString))
               = String.append e (String newline EmptyString)).
  { destruct e as [|c e']; [congruence |]. rewrite append_String. simpl.
    now rewrite (email_shape_no_space _ c H (or_introl eq_refl)). }
  rewrite Hl, rstrip_app_space.
  - apply rstrip_no_space. intros c Hc. now apply (email_shape_no_space e).
  - intros c [<- | []]. reflexivity.
Qed.

Lemma lower_append a b : lower (String.append a b) = String.append (lower a) (lower b).
Proof.
  induction a as [|c a IH]; [reflexivity |].
  rewrite append_String. simpl. now rewrite IH, append_String.
Qed.

Lemma lower_length s : String.length (lower s) = String.length s.
Proof. induction s as [|c s IH]; simpl; [reflexivity | now rewrite IH]. Qed.

Lemma all_chars_lower cls s :
  (forall c, cls c = true -> cls (lower_char c) = true) ->
  all_chars cls s -> all_chars cls (lower s).
Proof.
  intros Hcls. unfold all_chars. induction s as [|c s IH]; intros H x Hx.
  - destruct Hx.
  - simpl in Hx. destruct Hx as [<- | Hx].
    + apply Hcls, H. now left.
    + apply IH; [| exact Hx]. intros y Hy. apply H. now right.
Qed.

Lemma local_part_lower c : local_part_char c = true -> local_part_char (lower_char c) = true.
Proof. destruct c as [[] [] [] [] [] [] [] []]; vm_compute; congruence. Qed.

Lemma domain_lower c : domain_char c = true -> domain_char (lower_char c) = true.
Proof. destruct c as [[] [] [] [] [] [] [] []]; vm_compute; congruence. Qed.

Lemma alpha_lower c : alpha c = true -> alpha (lower_char c) = true.
Proof. destruct c as [[] [] [] [] [] [] [] []]; vm_compute; congruence. Qed.

Lemma lower_not_empty s : s <> EmptyString -> lower s <> EmptyString.
Proof. destruct s; [congruence | discriminate]. Qed.

Lemma email_shape_lower e : email_shape e -> email_shape (lower e).
Proof.
  intros (l & d & t & -> & Hl1 & Hl2 & Hd1 & Hd2 & Ht1 & Ht2).
  exists (lower l), (lower d), (lower t).
  split.
  { rewrite lower_append. simpl. now rewrite lower_append. }
  repeat split.
  - now apply lower_not_empty.
  - now apply all_chars_lower; [apply local_part_lower |].
  - now apply lower_not_empty.
  - now apply all_chars_lower; [apply domain_lower |].
  - now rewrite lower_length.
  - now apply all_chars_lower; [apply alpha_lower |].
Qed.

(** The address that is stored and looked up, the accepted email stripped
    and then lower-cased, is itself accepted, and it has the plain shape:
    the newline that the validator lets through at the end is gone. *)
Theorem normalised_email_is_valid (email : string) :
  validate_email email = None ->
  validate_email (lower (strip email)) = None
  /\ email_shape (lower (strip email)).
Proof.
  intros H. apply validate_email_match in H.
  assert (Hs : email_shape (strip email)).
  { apply email_match_shape in H as [H | (e' & -> & H)].
    - now rewrite strip_email_shape.
    - now rewrite strip_email_shape_newline. }
  apply email_shape_lower in Hs. split; [| exact Hs].
  apply validate_email_of_match.
  - apply email_match_shape. now left.
  - now apply email_shape_not_empty.
Qed.

(** [normalised_email_is_valid] at [Ada@Example.org]. *)
Lemma normalised_email_is_valid_witness :
  validate_email (lower (strip "Ada@Example.org")) = None
  /\ email_shape (lower (strip "Ada@Example.org")).
Proof. apply (normalised_email_is_valid "Ada@Example.org"). reflexivity. Defined.

End NormaliseFacts.

(** ** The gender validator and the case of letters *)
Section GenderFacts.
Import PyStr FormValidator.

Lemma lower_char_idem c : lower_char (lower_char c) = lower_char c.
Proof. destruct c as [[] [] [] [] [] [] [] []]; reflexivity. Qed.

Lemma lower_idem s : lower (lower s) = lower s.
Proof.
  induction s as [|c s IH]; [reflexivity |]. simpl. now rewrite lower_char_idem, IH.
Qed.

Lemma truthy_lower s : truthy (lower s) = truthy s.
Proof. now destruct s. Qed.

(** The gender validator is blind to the case of letters: a value and its
    lower-cased form get the same verdict, and so do two values with the same
    lower-cased form. *)
Theorem validate_gender_ignores_case (gender gender' : string) :
  validate_gender (lower gender) = validate_gender gender
  /\ (lower gender = lower gender' ->
      validate_gender gender = validate_gender gender').
Proof.
  unfold validate_gender. split.
  - now rewrite truthy_lower, lower_idem.
  - intros H. rewrite <- (truthy_lower gender), <- (truthy_lower gender'). now rewrite H.
Qed.

(** [validate_gender_ignores_case] at [FEMALE] and [Female]. *)
Lemma validate_gender_ignores_case_witness :
  validate_gender "FEMALE" = validate_gender "Female"
  /\ validate_gender "FEMALE" = None.
Proof.
  split; [| reflexivity].
  apply (validate_gender_ignores_case "FEMALE" "Female"). reflexivity.
Defined.

End GenderFacts.

(** ** The registration form: the parts of its error list *)
Section RegistrationParts.
Import PyStr Re Vocab Datetime FormValidator RegistrationForm RegistrationVocab.

Lemma check_field_app (d : gmap string string) k v w errs :
  check_field d k v w errs = errs ++ step_errors d k v w.
Proof.
  unfold step_errors, check_field. destruct (d !! k) as [x|]; [| now rewrite app_nil_r].
  destruct (v x) as [e|]; [| now rewrite app_nil_r].
  destruct (truthy e); [reflexivity | now rewrite app_nil_r].
Qed.

(** The error list is the required-field messages, then what each of the
    ten validators adds, in the order of the source, then the mismatch
    message. *)
Lemma validate_errors_parts today (d : gmap string string) :
  validate_errors today d
  = validate_required_fields d required_fields
    ++ step_errors d "first_name" (fun x => validate_name x "First name") id
    ++ step_errors d "last_name" (fun x => validate_name x "Last name") id
    ++ step_errors d "email" validate_email id
    ++ step_errors d "phone" validate_phone id
    ++ step_errors d "date_of_birth" (validate_date_of_birth today) id
    ++ step_errors d "gender" validate_gender id
    ++ step_errors d "address" validate_address id
    ++ step_errors d "emergency_contact_name"
         (fun x => validate_name x "Emergency contact name") id
    ++ step_errors d "emergency_contact_phone" validate_phone
         (fun error => String.append "Emergency contact " (lower error))
    ++ step_errors d "password" validate_password id
    ++ mismatch_errors d.
Proof.
  unfold validate_errors, mismatch_errors. cbv zeta. rewrite app_nil_l.
  assert (Hm : forall e10 : list string,
             match d !! "password", d !! "confirm_password" with
             | Some p, Some c =>
                 if String.eqb p c then e10 else e10 ++ ["Passwords do not match"]
             | _, _ => e10
             end
             = e10 ++ match d !! "password", d !! "confirm_password" with
                      | Some p, Some c =>
                          if String.eqb p c then [] else ["Passwords do not match"]
                      | _, _ => []
                      end).
  { intros e10. destruct (d !! "password") as [p|]; [| now rewrite app_nil_r].
    destruct (d !! "confirm_password") as [c|]; [| now rewrite app_nil_r].
    destruct (String.eqb p c); [now rewrite app_nil_r | reflexivity]. }
  rewrite Hm.
  rewrite (check_field_app d "password"), (check_field_app d "emergency_contact_phone"),
    (check_field_app d "emergency_contact_name"), (check_field_app d "address"),
    (check_field_app d "gender"), (check_field_app d "date_of_birth"),
    (check_field_app d "phone"), (check_field_app d "email"),
    (check_field_app d "last_name"), (check_field_app d "first_name").
  now rewrite <- !app_assoc.
Qed.

Lemma required_none_inv (d : gmap string string) fields f :
  validate_required_fields d fields = [] -> In f fields -> missing_or_blank d f = false.
Proof.
  induction fields as [|g fields IH]; intros H Hin; [destruct Hin |].
  simpl in H. apply app_eq_nil in H as [H1 H2].
  destruct Hin as [<- | Hin]; [| now apply IH].
  destruct (missing_or_blank d g); [discriminate | reflexivity].
Qed.

Lemma present_of_required (d : gmap string string) f :
  missing_or_blank d f = false -> exists v, d !! f = Some v.
Proof.
  unfold missing_or_blank. destruct (d !! f) as [v|]; [eauto | discriminate].
Qed.

Lemma append_not_empty a b : b <> EmptyString -> String.append a b <> EmptyString.
Proof.
  intros Hb. destruct a as [|c a]; [now rewrite append_Empty | discriminate].
Qed.

(** No validator answers with an empty message. *)
Lemma validate_name_message v l e : validate_name v l = Some e -> e <> EmptyString.
Proof.
  unfold validate_name.
  repeat match goal with |- context [if ?b then _ else _] => destruct b end;
    intros [= <-]; apply append_not_empty; discriminate.
Qed.

Lemma validate_email_message v e : validate_email v = Some e -> e <> EmptyString.
Proof.
  unfold validate_email.
  repeat match goal with |- context [if ?b then _ else _] => destruct b end;
    intros [= <-]; discriminate.
Qed.

Lemma validate_date_of_birth_message today v e :
  validate_date_of_birth today v = Some e -> e <> EmptyString.
Proof.
  unfold validate_date_of_birth. destruct (negb (truthy v)); [intros [= <-]; discriminate |].
  destruct (strptime_Ymd v) as [dob|]; [| intros [= <-]; discriminate].
  repeat match goal with |- context [if ?b then _ else _] => destruct b end;
    intros [= <-]; discriminate.
Qed.

Lemma validate_gender_message v e : validate_gender v = Some e -> e <> EmptyString.
Proof.
  unfold validate_gender.
  repeat match goal with |- context [if ?b then _ else _] => destruct b end;
    intros [= <-]; discriminate.
Qed.

Lemma validate_address_message v e : validate_address v = Some e -> e <> EmptyString.
Proof.
  unfold validate_address.
  repeat match goal with |- context [if ?b then _ else _] => destruct b end;
    intros [= <-]; discriminate.
Qed.

Lemma validate_password_message v e : validate_password v = Some e -> e <> EmptyString.
Proof.
  unfold validate_password.
  repeat match goal with |- context [if ?b then _ else _] => destruct b end;
    intros [= <-]; discriminate.
Qed.

(** A step that adds nothing for a present field: its validator accepted. *)
Lemma step_errors_nil (d : gmap string string) k v w x :
  (forall y e, v y = Some e -> e <> EmptyString) ->
  d !! k = Some x -> step_errors d k v w = [] -> v x = None.
Proof.
  intros Hmsg Hk. unfold step_errors, check_field. rewrite Hk.
  destruct (v x) as [e|] eqn:E; [| reflexivity].
  rewrite (truthy_true e (Hmsg x e E)). destruct (w e); discriminate.
Qed.

Lemma step_errors_pass (d : gmap string string) k v w x :
  d !! k = Some x -> v x = None -> step_errors d k v w = [].
Proof. intros Hk Hv. unfold step_errors, check_field. now rewrite Hk, Hv. Qed.

End RegistrationParts.

(** ** The registration form: the submissions it accepts *)
Section RegistrationValid.
Import PyStr Re Vocab Datetime FormValidator RegistrationForm RegistrationVocab.

Lemma validate_true_iff today (d : gmap string string) :
  fst (validate today (init d)) = true <-> validate_errors today d = [].
Proof.
  unfold validate. simpl. destruct (validate_errors today d); simpl; split; congruence.
Qed.

Ltac field_value d f Hreq x Hx :=
  let Hin := fresh "Hin" in
  assert (Hin : In f required_fields) by (vm_compute; tauto);
  destruct (present_of_required d f
              (required_none_inv d required_fields f Hreq Hin)) as [x Hx];
  clear Hin.

Lemma valid_fields_of_true today (d : gmap string string) :
  fst (validate today (init d)) = true -> all_fields_valid today d.
Proof.
  rewrite validate_true_iff, validate_errors_parts. intros H.
  apply app_eq_nil in H as [Hreq H].
  apply app_eq_nil in H as [S1 H]. apply app_eq_nil in H as [S2 H].
  apply app_eq_nil in H as [S3 H]. apply app_eq_nil in H as [S4 H].
  apply app_eq_nil in H as [S5 H]. apply app_eq_nil in H as [S6 H].
  apply app_eq_nil in H as [S7 H]. apply app_eq_nil in H as [S8 H].
  apply app_eq_nil in H as [S9 H]. apply app_eq_nil in H as [S10 H].
  field_value d "first_name" Hreq x1 K1.
  field_value d "last_name" Hreq x2 K2.
  field_value d "email" Hreq x3 K3.
  field_value d "phone" Hreq x4 K4.
  field_value d "date_of_birth" Hreq x5 K5.
  field_value d "gender" Hreq x6 K6.
  field_value d "address" Hreq x7 K7.
  field_value d "emergency_contact_name" Hreq x8 K8.
  field_value d "emergency_contact_phone" Hreq x9 K9.
  field_value d "password" Hreq x10 K10.
  field_value d "confirm_password" Hreq x11 K11.
  assert (x11 = x10) as ->.
  { unfold mismatch_errors in H. rewrite K10, K11 in H.
    destruct (String.eqb x10 x11) eqn:E; [| discriminate].
    apply String.eqb_eq in E. congruence. }
  exists x1, x2, x3, x4, x5, x6, x7, x8, x9, x10.
  repeat match goal with |- _ /\ _ => split end; try assumption.
  + exact (step_errors_nil d "first_name" (fun x => validate_name x "First name")
             id x1 (fun y e => validate_name_message y _ e) K1 S1).
  + exact (step_errors_nil d "last_name" (fun x => validate_name x "Last name")
             id x2 (fun y e => validate_name_message y _ e) K2 S2).
  + exact (step_errors_nil d "email" validate_email id x3 validate_email_message K3 S3).
  + exact (step_errors_nil d "phone" validate_phone id x4 validate_phone_message K4 S4).
  + exact (step_errors_nil d "date_of_birth" (validate_date_of_birth today) id x5
             (validate_date_of_birth_message today) K5 S5).
  + exact (step_errors_nil d "gender" validate_gender id x6 validate_gender_message K6 S6).
  + exact (step_errors_nil d "address" validate_address id x7
             validate_address_message K7 S7).
  + exact (step_errors_nil d "emergency_contact_name"
             (fun x => validate_name x "Emergency contact name")
             id x8 (fun y e => validate_name_message y _ e) K8 S8).
  + exact (step_errors_nil d "emergency_contact_phone" validate_phone _ x9
             validate_phone_message K9 S9).
  + exact (step_errors_nil d "password" validate_password id x10
             validate_password_message K10 S10).
Qed.

Lemma true_of_valid_fields today (d : gmap string string) :
  all_fields_valid today d -> fst (validate today (init d)) = true.
Proof.
  rewrite validate_true_iff, validate_errors_parts.
  intros (x1 & x2 & x3 & x4 & x5 & x6 & x7 & x8 & x9 & x10
          & K1 & K2 & K3 & K4 & K5 & K6 & K7 & K8 & K9 & K10 & K11
          & V1 & V2 & V3 & V4 & V5 & V6 & V7 & V8 & V9 & V10).
  assert (Hreq : validate_required_fields d required_fields = []).
  { apply required_none. intros f Hf. simpl in Hf.
    repeat (destruct Hf as [<- | Hf];
            [eapply present_not_blank; [eassumption |] |]); [.. | destruct Hf].
    - exact (validate_name_not_blank _ _ V1).
    - exact (validate_name_not_blank _ _ V2).
    - exact (validate_email_not_blank _ V3).
    - exact (validate_phone_not_blank _ V4).
    - exact (validate_date_of_birth_not_blank _ _ V5).
    - exact (validate_gender_not_blank _ V6).
    - exact (validate_address_not_blank _ V7).
    - exact (validate_name_not_blank _ _ V8).
    - exact (validate_phone_not_blank _ V9).
    - exact (validate_password_not_blank _ V10).
    - exact (validate_password_not_blank _ V10). }
  rewrite Hreq.
  rewrite (step_errors_pass d "first_name" _ _ _ K1 V1),
    (step_errors_pass d "last_name" _ _ _ K2 V2),
    (step_errors_pass d "email" _ _ _ K3 V3),
    (step_errors_pass d "phone" _ _ _ K4 V4),
    (step_errors_pass d "date_of_birth" _ _ _ K5 V5),
    (step_errors_pass d "gender" _ _ _ K6 V6),
    (step_errors_pass d "address" _ _ _ K7 V7),
    (step_errors_pass d "emergency_contact_name" _ _ _ K8 V8),
    (step_errors_pass d "emergency_contact_phone" _ _ _ K9 V9),
    (step_errors_pass d "password" _ _ _ K10 V10).
  unfold mismatch_errors. rewrite K10, K11, String.eqb_refl. reflexivity.
Qed.

(** The registration form is valid exactly when the eleven fields are
    present, each of the ten validated fields passes its validator, and
    [confirm_password] equals [password]; no other submission is accepted. *)
Theorem registration_valid_iff (today : date) (d : gmap string string) :
  fst (validate today (init d)) = true <-> all_fields_valid today d.
Proof. split; [apply valid_fields_of_true | apply true_of_valid_fields]. Qed.

End RegistrationValid.

(** ** The registration form: an empty field is reported twice *)
Section RegistrationTwice.
Import PyStr Re Vocab Datetime FormValidator RegistrationForm RegistrationVocab.

Lemma In_sublist (x : string) (l : list string) : In x l -> [x] `sublist_of` l.
Proof.
  intros H. apply in_split in H as (l1 & l2 & ->).
  apply sublist_inserts_l. apply (sublist_inserts_r l2 [x] [x]). reflexivity.
Qed.

Lemma step_errors_empty (d : gmap string string) k v w e :
  d !! k = Some EmptyString -> v EmptyString = Some e -> e <> EmptyString ->
  step_errors d k v w = [w e].
Proof.
  intros Hk Hv He. unfold step_errors, check_field.
  now rewrite Hk, Hv, (truthy_true _ He).
Qed.

Ltac find_step :=
  repeat first
    [ apply (sublist_inserts_r _ [_] [_]); reflexivity
    | apply sublist_inserts_l ].

(** For each of the ten validated fields that is present and empty, the
    error list holds two messages for it, in this order: the required-field
    message with the title-cased label, then the message of the field's own
    validator for an empty value (for the emergency phone, prefixed and
    lower-cased as the form does). *)
Theorem empty_field_reported_twice
    (today : date) (d : gmap string string) (field message : string) :
  In (field, message) own_required_message ->
  d !! field = Some EmptyString ->
  [ String.append (field_label field) " is required"; message ]
    `sublist_of` get_errors (snd (validate today (init d))).
Proof.
  intros Hin Hk. unfold validate, get_errors. simpl.
  rewrite validate_errors_parts.
  assert (Hf : In field required_fields).
  { simpl in Hin.
    repeat (destruct Hin as [[= <- <-] | Hin]; [vm_compute; tauto |]). destruct Hin. }
  apply (sublist_app [_] _ [_] _).
  { apply In_sublist. apply required_reported; [exact Hf |].
    unfold missing_or_blank. now rewrite Hk. }
  simpl in Hin.
  destruct Hin as [[= <- <-] | Hin];
    [rewrite (step_errors_empty d "first_name" (fun x => validate_name x "First name")
                id "First name is required" Hk eq_refl) by discriminate;
     find_step |].
  destruct Hin as [[= <- <-] | Hin];
    [rewrite (step_errors_empty d "last_name" (fun x => validate_name x "Last name")
                id "Last name is required" Hk eq_refl) by discriminate;
     find_step |].
  destruct Hin as [[= <- <-] | Hin];
    [rewrite (step_errors_empty d "email" validate_email
                id "Email is required" Hk eq_refl) by discriminate;
     find_step |].
  destruct Hin as [[= <- <-] | Hin];
    [rewrite (step_errors_empty d "phone" validate_phone
                id "Phone number is required" Hk eq_refl) by discriminate;
     find_step |].
  destruct Hin as [[= <- <-] | Hin];
    [rewrite (step_errors_empty d "date_of_birth" (validate_date_of_birth today)
                id "Date of birth is required" Hk eq_refl) by discriminate;
     find_step |].
  destruct Hin as [[= <- <-] | Hin];
    [rewrite (step_errors_empty d "gender" validate_gender
                id "Gender is required" Hk eq_refl) by discriminate;
     find_step |].
  destruct Hin as [[= <- <-] | Hin];
    [rewrite (step_errors_empty d "address" validate_address
                id "Address is required" Hk eq_refl) by discriminate;
     find_step |].
  destruct Hin as [[= <- <-] | Hin];
    [rewrite (step_errors_empty d "emergency_contact_name" (fun x => validate_name x "Emergency contact name")
                id "Emergency contact name is required" Hk eq_refl) by discriminate;
     find_step |].
  destruct Hin as [[= <- <-] | Hin];
    [rewrite (step_errors_empty d "emergency_contact_phone" validate_phone
                (fun error => String.append "Emergency contact " (lower error)) "Phone number is required" Hk eq_refl) by discriminate;
     find_step |].
  destruct Hin as [[= <- <-] | Hin];
    [rewrite (step_errors_empty d "password" validate_password
                id "Password is required" Hk eq_refl) by discriminate;
     find_step |].
  destruct Hin.
Qed.

(** [empty_field_reported_twice] for an empty [first_name]: the two
    messages differ in the case of one letter. *)
Lemma empty_field_reported_twice_witness :
  [ "First Name is required"; "First name is required" ]
    `sublist_of`
    get_errors (snd (validate (mkdate 2026 11 3)
                       (init (<["first_name" := EmptyString]> ∅)))).
Proof.
  apply (empty_field_reported_twice (mkdate 2026 11 3)
           (<["first_name" := EmptyString]> ∅) "first_name" "First name is required").
  - vm_compute. tauto.
  - vm_compute. reflexivity.
Defined.

End RegistrationTwice.

(** ** The login form: the submissions it accepts *)
Section LoginFormFacts.
Import PyStr Re Vocab FormVocab FormValidator.

Lemma login_form_true_iff (d : gmap string string) :
  fst (LoginForm.validate (LoginForm.init d)) = true <-> LoginForm.validate_errors d = [].
Proof.
  unfold LoginForm.validate. simpl.
  destruct (LoginForm.validate_errors d); simpl; split; congruence.
Qed.

(** The login form is valid exactly when [email] is present and passes the
    email validator and [password] is present and not empty: the password
    is not looked at beyond that. *)
Theorem login_form_valid_iff (d : gmap string string) :
  fst (LoginForm.validate (LoginForm.init d)) = true <->
  exists email password,
    d !! "email" = Some email /\ validate_email email = None
    /\ d !! "password" = Some password /\ password <> EmptyString.
Proof.
  rewrite login_form_true_iff. unfold LoginForm.validate_errors, LoginForm.absent.
  split.
  - destruct (d !! "email") as [e|]; [| destruct (d !! "password") as [p|];
      [destruct (truthy p) |]; discriminate].
    destruct (truthy e) eqn:Te; simpl;
      [| destruct (d !! "password") as [p|]; [destruct (truthy p) |]; discriminate].
    destruct (validate_email e) as [msg|] eqn:Ve.
    + rewrite (truthy_true msg (validate_email_message e msg Ve)).
      destruct (d !! "password") as [p|]; [destruct (truthy p) |]; discriminate.
    + destruct (d !! "password") as [p|]; [| discriminate].
      destruct (truthy p) eqn:Tp; simpl; [| discriminate].
      intros _. exists e, p. repeat split; trivial.
      intros ->. discriminate.
  - intros (e & p & -> & Ve & -> & Hp).
    assert (He : truthy e = true).
    { destruct e; [discriminate Ve | reflexivity]. }
    now rewrite He, Ve, (truthy_true p Hp).
Qed.

End LoginFormFacts.

(** ** Login: when a session is opened *)
Section LoginOpens.
Import PyStr Re Vocab FormVocab FormValidator Routes RouteVocab Views ViewVocab Samples.

Lemma flash_all_session errs cat c : session (flash_all errs cat c) = session c.
Proof.
  revert c. induction errs as [|e errs IH]; intros c; [reflexivity |].
  simpl. now rewrite IH.
Qed.

Lemma flash_all_flashes errs cat c :
  flashes (flash_all errs cat c) = flashes c ++ map (fun e => (e, cat)) errs.
Proof.
  revert c. induction errs as [|e errs IH]; intros c; simpl.
  - now rewrite app_nil_r.
  - rewrite IH. simpl. now rewrite <- app_assoc.
Qed.

Lemma login_accepts now req db c p :
  session c !! "patient_id" = None ->
  credentials_accepted req db p ->
  login now req db c
  = (logged_in now p c, set_last_login now (id p) db, Redirect "dashboard").
Proof.
  intros Hs (Hm & e & pw & He & Ve & Hp & Hpw & Hq & Hc & Ha).
  assert (Hv : fst (LoginForm.validate (LoginForm.init (form req))) = true).
  { apply login_form_valid_iff. now exists e, pw. }
  unfold login. rewrite Hs, Hm. simpl String.eqb. cbv iota.
  destruct (LoginForm.validate _) as [ok frm]. simpl in Hv. subst ok.
  now rewrite He, Hp, Hq, Hc, Ha.
Qed.

(** Every other way through [login], from a context without a patient
    identifier, leaves the session as it was. *)
Lemma login_refuses now req db c :
  session c !! "patient_id" = None ->
  (exists p, credentials_accepted req db p)
  \/ (session (fst (fst (login now req db c))) = session c
      /\ snd (fst (login now req db c)) = db
      /\ snd (login now req db c) <> Redirect "dashboard").
Proof.
  intros Hs. unfold login. rewrite Hs.
  destruct (String.eqb (method req) "POST") eqn:Hm;
    [| right; simpl; repeat split; discriminate].
  apply String.eqb_eq in Hm.
  destruct (LoginForm.validate (LoginForm.init (form req))) as [ok frm] eqn:Ev.
  destruct ok.
  - assert (Hv : fst (LoginForm.validate (LoginForm.init (form req))) = true)
      by now rewrite Ev.
    apply login_form_valid_iff in Hv as (e & pw & He & Ve & Hp & Hpw).
    rewrite He, Hp. cbv zeta.
    destruct (query_first_by_email db (lower (strip e))) as [p|] eqn:Hq;
      [| right; simpl; repeat split; discriminate].
    destruct (check_password p pw) eqn:Hc;
      [| right; simpl; repeat split; discriminate].
    destruct (is_active p) eqn:Ha;
      [| right; simpl; repeat split; discriminate].
    left. exists p. split; [exact Hm |]. exists e, pw. auto 10.
  - right. simpl. rewrite flash_all_session. repeat split; discriminate.
Qed.

(** Starting without a patient identifier, [login] puts one in the session
    exactly when the request is a POST whose form validates, a record has the
    stripped, lower-cased email, its password check accepts the password and
    it is active.  Then the session holds the identifier of that record, its
    name and the current instant, and the answer is a redirect to the
    dashboard; in every other case the session and the store are unchanged. *)
Theorem login_opens_session_iff
    (now : instant) (req : request) (db : list Patient) (c : ctx) :
  session c !! "patient_id" = None ->
  (is_Some (session (fst (fst (login now req db c))) !! "patient_id")
   <-> exists p, credentials_accepted req db p)
  /\ (forall p, credentials_accepted req db p ->
        login now req db c
        = (logged_in now p c, set_last_login now (id p) db, Redirect "dashboard"))
  /\ ((forall p, ~ credentials_accepted req db p) ->
      session (fst (fst (login now req db c))) = session c
      /\ snd (fst (login now req db c)) = db).
Proof.
  intros Hs. split; [| split].
  - split.
    + intros [v Hv]. destruct (login_refuses now req db c Hs) as [H | (H & _)];
        [exact H |]. rewrite H, Hs in Hv. discriminate.
    + intros [p Hp]. rewrite (login_accepts now req db c p Hs Hp). simpl.
      rewrite lookup_insert_ne by discriminate.
      rewrite lookup_insert_ne by discriminate.
      rewrite lookup_insert_eq. eauto.
  - intros p Hp. now apply login_accepts.
  - intros Hno. destruct (login_refuses now req db c Hs) as [[p Hp] | (H1 & H2 & _)].
    + destruct (Hno p Hp).
    + now split.
Qed.

(** [login_opens_session_iff] on the sample store: the right password of
    the active patient opens a session for her. *)
Lemma login_opens_session_iff_witness :
  login 0%Z (sample_request "Ada@Example.org" "Secret#11") Samples.sample_db
    {| session := ∅; flashes := [] |}
  = (logged_in 0%Z
       (mkPatient 1 "ada@example.org" "Ada" "Ada Lovelace" true None
          (String.eqb "Secret#11"))
       {| session := ∅; flashes := [] |},
     set_last_login 0%Z 1 Samples.sample_db, Redirect "dashboard").
Proof.
  destruct (login_opens_session_iff 0%Z
              (sample_request "Ada@Example.org" "Secret#11") Samples.sample_db
              {| session := ∅; flashes := [] |}) as (_ & H & _);
    [vm_compute; reflexivity |].
  apply (H (mkPatient 1 "ada@example.org" "Ada" "Ada Lovelace" true None
              (String.eqb "Secret#11"))).
  split; [reflexivity |].
  exists "Ada@Example.org", "Secret#11".
  repeat split; try (vm_compute; reflexivity). discriminate.
Defined.

End LoginOpens.

(** ** After login: the dashboard, the timeout, logout *)
Section SessionLife.
Import PyStr Re Vocab FormVocab FormValidator Routes RouteVocab Views ViewVocab Samples.
Local Open Scope Z_scope.

Lemma find_id_map now pid n (db : list Patient) :
  List.find (fun p => id p =? n) (set_last_login now pid db) = None <->
  List.find (fun p => id p =? n) db = None.
Proof.
  unfold set_last_login. induction db as [|q db IH]; [reflexivity |]. simpl.
  destruct (id q =? pid); simpl; destruct (id q =? n); try tauto; split; discriminate.
Qed.

Lemma query_get_after_login now req db p :
  credentials_accepted req db p ->
  exists q, query_get (set_last_login now (id p) db) (VInt (id p)) = Some q.
Proof.
  intros (_ & e & pw & _ & _ & _ & _ & Hq & _ & _). unfold query_get.
  destruct (List.find _ (set_last_login now (id p) db)) as [q|] eqn:E; [eauto |].
  apply find_id_map in E.
  apply List.find_some in Hq as [Hin _].
  pose proof (List.find_none _ _ E p Hin) as Hn. simpl in Hn.
  rewrite Z.eqb_refl in Hn. discriminate.
Qed.

(** After a login that opened a session at the instant [now], a request for
    the dashboard at a later instant is served as follows: up to 1800 seconds
    after the login the dashboard is rendered and the last activity becomes
    the instant of the request; after more than 1800 seconds the session is
    emptied, and with it the messages still pending (the welcome among
    them), the expiry notice is the one message flashed and the answer is a
    redirect to the login page. *)
Theorem dashboard_after_login
    (now later : instant) (req : request) (db : list Patient) (c : ctx) (p : Patient) :
  session c !! "patient_id" = None ->
  credentials_accepted req db p ->
  (later - now <= 1800 * 1000000 ->
   serve later (dashboard (snd (fst (login now req db c)))) tt
     (fst (fst (login now req db c)))
   = (session_set "last_activity" (VTime later) (logged_in now p c),
      Render "dashboard.html"))
  /\ (1800 * 1000000 < later - now ->
      serve later (dashboard (snd (fst (login now req db c)))) tt
        (fst (fst (login now req db c)))
      = ({| session := ∅; flashes := [expired_notice] |}, Redirect "login")).
Proof.
  intros Hs Hp. rewrite (login_accepts now req db c p Hs Hp). simpl fst. simpl snd.
  assert (Hid : session (logged_in now p c) !! "patient_id" = Some (VInt (id p))).
  { simpl. rewrite !lookup_insert_ne by discriminate. apply lookup_insert_eq. }
  assert (Hla : session (logged_in now p c) !! "last_activity" = Some (VTime now)).
  { simpl. apply lookup_insert_eq. }
  unfold serve, check_session_timeout, total_seconds_gt. rewrite Hid, Hla. split.
  - intros H. apply Z.ltb_ge in H. rewrite H.
    unfold dashboard, login_required, dashboard_view.
    assert (Hid' : session (session_set "last_activity" (VTime later) (logged_in now p c))
                     !! "patient_id" = Some (VInt (id p))).
    { unfold session_set. simpl. rewrite !lookup_insert_ne by discriminate.
      apply lookup_insert_eq. }
    rewrite Hid'. destruct (query_get_after_login now req db p Hp) as [q Hq].
    now rewrite Hq.
  - intros H. apply Z.ltb_lt in H. now rewrite H.
Qed.

(** [dashboard_after_login] on the sample store, half an hour and half an
    hour and a second after the login. *)
Lemma dashboard_after_login_witness :
  snd (serve 1800000000 (dashboard (snd (fst (login 0 (sample_request "ada@example.org" "Secret#11") sample_db {| session := ∅; flashes := [] |})))) tt
         (fst (fst (login 0 (sample_request "ada@example.org" "Secret#11") sample_db
                      {| session := ∅; flashes := [] |}))))
  = Render "dashboard.html"
  /\ snd (serve 1801000000 (dashboard (snd (fst (login 0 (sample_request "ada@example.org" "Secret#11") sample_db {| session := ∅; flashes := [] |})))) tt
            (fst (fst (login 0 (sample_request "ada@example.org" "Secret#11") sample_db
                         {| session := ∅; flashes := [] |}))))
     = Redirect "login".
Proof.
  assert (Hc : credentials_accepted (sample_request "ada@example.org" "Secret#11")
                 sample_db
                 (mkPatient 1 "ada@example.org" "Ada" "Ada Lovelace" true None
                    (String.eqb "Secret#11"))).
  { split; [reflexivity |]. exists "ada@example.org", "Secret#11".
    repeat split; try (vm_compute; reflexivity). discriminate. }
  split.
  - destruct (dashboard_after_login 0 1800000000
                (sample_request "ada@example.org" "Secret#11") sample_db
                {| session := ∅; flashes := [] |}
                (mkPatient 1 "ada@example.org" "Ada" "Ada Lovelace" true None
                   (String.eqb "Secret#11")))
      as [H _]; [vm_compute; reflexivity | exact Hc |].
    rewrite H by lia. reflexivity.
  - destruct (dashboard_after_login 0 1801000000
                (sample_request "ada@example.org" "Secret#11") sample_db
                {| session := ∅; flashes := [] |}
                (mkPatient 1 "ada@example.org" "Ada" "Ada Lovelace" true None
                   (String.eqb "Secret#11")))
      as [_ H]; [vm_compute; reflexivity | exact Hc |].
    rewrite H by lia. reflexivity.
Defined.

(** Logout empties the session whatever it held, the messages flashed
    before included: the logout notice is the one message left.  The next
    request for a protected view is then answered by a redirect to the login
    page without running the view, and the home page shows the landing
    page. *)
Theorem after_logout (A : Type) (now : instant)
    (view : A -> ctx -> ctx * response) (args : A) (c : ctx) :
  fst (logout c)
  = {| session := ∅;
       flashes := [("You have been logged out successfully.", "info")] |}
  /\ snd (logout c) = Redirect "index"
  /\ serve now (login_required view) args (fst (logout c))
     = ({| session := ∅;
           flashes := [("You have been logged out successfully.", "info");
                       ("Please log in to access this page.", "warning")] |},
        Redirect "login")
  /\ snd (serve now (fun _ : unit => index) tt (fst (logout c))) = Render "index.html".
Proof.
  split; [reflexivity |]. split; [reflexivity |]. split; [| reflexivity].
  unfold serve, logout, check_session_timeout, login_required. simpl.
  rewrite lookup_empty. reflexivity.
Qed.

End SessionLife.

(** ** The dashboard, expiry, and requests that leave the store alone *)
Section GuardFacts.
Import PyStr Re Vocab FormVocab FormValidator Routes RouteVocab Views ViewVocab Samples.
Local Open Scope Z_scope.

(** The dashboard is rendered exactly when the session holds a patient
    identifier that the store resolves to a record, and then the context is
    left as it was; in every other case the answer is a redirect to the login
    page and the session holds no patient identifier afterwards. *)
Theorem dashboard_renders_iff (db : list Patient) (c : ctx) :
  (snd (dashboard db tt c) = Render "dashboard.html" <->
   exists key p, session c !! "patient_id" = Some key /\ query_get db key = Some p)
  /\ (snd (dashboard db tt c) = Render "dashboard.html" -> fst (dashboard db tt c) = c)
  /\ (snd (dashboard db tt c) <> Render "dashboard.html" ->
      snd (dashboard db tt c) = Redirect "login"
      /\ session (fst (dashboard db tt c)) !! "patient_id" = None).
Proof.
  unfold dashboard, login_required, dashboard_view.
  destruct (session c !! "patient_id") as [key|] eqn:Hk.
  - destruct (query_get db key) as [p|] eqn:Hq; simpl.
    + repeat split; try congruence; eauto.
    + repeat split; try congruence; try discriminate.
      intros (k & p & [= <-] & Hp). congruence.
  - simpl. repeat split; try congruence; try discriminate.
    intros (k & p & [=] & _).
Qed.

(** [dashboard_renders_iff] for a session that names patient 1 of the sample
    store, and for one that names a patient the store does not hold. *)
Lemma dashboard_renders_iff_witness :
  fst (dashboard sample_db tt {| session := <["patient_id" := VInt 1]> ∅; flashes := [] |})
  = {| session := <["patient_id" := VInt 1]> ∅; flashes := [] |}
  /\ session (fst (dashboard sample_db tt
                     {| session := <["patient_id" := VInt 9]> ∅; flashes := [] |}))
       !! "patient_id" = None.
Proof.
  split.
  - apply (dashboard_renders_iff sample_db
             {| session := <["patient_id" := VInt 1]> ∅; flashes := [] |}).
    vm_compute. reflexivity.
  - apply (dashboard_renders_iff sample_db
             {| session := <["patient_id" := VInt 9]> ∅; flashes := [] |}).
    vm_compute. discriminate.
Defined.

(** Once a session has expired, the following request finds it empty but
    for the expiry notice, the messages flashed before the expiry being
    dropped: the timeout check leaves it alone and flashes nothing more, and
    a protected view answers with a redirect to the login page. *)
Theorem after_expiry (A : Type) (now later : instant) (last : instant)
    (view : A -> ctx -> ctx * response) (args : A) (c : ctx) (pid : sval) :
  session c !! "patient_id" = Some pid ->
  session c !! "last_activity" = Some (VTime last) ->
  1800 * 1000000 < now - last ->
  check_session_timeout later (fst (check_session_timeout now c))
  = (fst (check_session_timeout now c), None)
  /\ fst (check_session_timeout now c)
     = {| session := ∅; flashes := [expired_notice] |}
  /\ snd (serve later (login_required view) args (fst (check_session_timeout now c)))
     = Redirect "login".
Proof.
  intros Hp Hl H.
  assert (E : check_session_timeout now c
              = ({| session := ∅; flashes := [expired_notice] |},
                 Some (Redirect "login"))).
  { unfold check_session_timeout, total_seconds_gt. rewrite Hp, Hl.
    apply Z.ltb_lt in H. now rewrite H. }
  rewrite E. simpl fst.
  assert (E2 : check_session_timeout later
                 {| session := ∅; flashes := [expired_notice] |}
               = ({| session := ∅; flashes := [expired_notice] |}, None)).
  { unfold check_session_timeout. simpl. now rewrite lookup_empty. }
  split; [exact E2 |]. split; [reflexivity |].
  unfold serve. rewrite E2. unfold login_required. simpl. now rewrite lookup_empty.
Qed.

(** [after_expiry] for a session last active at instant 0, at 1801 seconds. *)
Lemma after_expiry_witness :
  check_session_timeout 1900000000
    (fst (check_session_timeout 1801000000
            {| session := <["patient_id" := VInt 7]> (<["last_activity" := VTime 0]> ∅);
               flashes := [("Profile updated successfully!", "success")] |}))
  = ({| session := ∅; flashes := [expired_notice] |}, None).
Proof.
  destruct (after_expiry unit 1801000000 1900000000 0 marking_view tt
              {| session := <["patient_id" := VInt 7]> (<["last_activity" := VTime 0]> ∅);
                 flashes := [("Profile updated successfully!", "success")] |} (VInt 7))
    as (H & _);
    [vm_compute; reflexivity | vm_compute; reflexivity | lia |].
  rewrite H. reflexivity.
Defined.

(** A request to [login] that is not a POST, or whose form does not
    validate, is answered without consulting the store: the store is
    returned as it was, the login page is rendered, and for an invalid form
    the flashed messages are the errors of the form, in order, each in the
    category [danger]. *)
Theorem login_without_store
    (now : instant) (req : request) (db : list Patient) (c : ctx) :
  session c !! "patient_id" = None ->
  (method req <> "POST" -> login now req db c = (c, db, Render "login.html"))
  /\ (method req = "POST" ->
      fst (LoginForm.validate (LoginForm.init (form req))) = false ->
      login now req db c
      = ({| session := session c;
            flashes := flashes c
                       ++ map (fun e => (e, "danger"))
                            (LoginForm.validate_errors (form req)) |},
         db, Render "login.html")).
Proof.
  intros Hs. unfold login. rewrite Hs. split.
  - intros Hm. apply String.eqb_neq in Hm. now rewrite Hm.
  - intros Hm Hv. rewrite Hm. simpl String.eqb. cbv iota.
    unfold LoginForm.validate in *. simpl in Hv. simpl. rewrite Hv.
    unfold LoginForm.get_errors. simpl.
    f_equal. f_equal.
    rewrite <- (flash_all_session (LoginForm.validate_errors (form req)) "danger" c).
    rewrite <- flash_all_flashes.
    now destruct (flash_all _ _ c).
Qed.

(** [login_without_store] for a POST without a password. *)
Lemma login_without_store_witness :
  login 0 {| method := "POST"; form := <["email" := "ada@example.org"]> ∅ |} sample_db
    {| session := ∅; flashes := [] |}
  = ({| session := ∅; flashes := [("Password is required", "danger")] |},
     sample_db, Render "login.html").
Proof.
  destruct (login_without_store 0
              {| method := "POST"; form := <["email" := "ada@example.org"]> ∅ |}
              sample_db {| session := ∅; flashes := [] |}) as [_ H];
    [vm_compute; reflexivity |].
  rewrite H; [reflexivity | reflexivity | vm_compute; reflexivity].
Defined.

End GuardFacts.

(** ** Registration: what reaches the store *)
Section RegisterFacts.
Import PyStr Re Vocab FormVocab Datetime FormValidator RegistrationForm RegistrationVocab.
Import Routes RouteVocab Views ViewVocab Samples.

Lemma not_blank_strip v : ~ all_space v -> strip v <> EmptyString.
Proof. intros H E. apply H. now apply strip_empty. Qed.

Lemma validate_name_strip v l :
  validate_name v l = None -> validate_name (strip v) l = None.
Proof.
  intros H. pose proof (not_blank_strip v (validate_name_not_blank v l H)) as Hne.
  rewrite <- H. unfold validate_name.
  now rewrite (truthy_true _ Hne), (truthy_true _ (strip_not_empty v Hne)),
    strip_idem, (name_match_strip v Hne).
Qed.

Lemma validate_address_strip v :
  validate_address v = None -> validate_address (strip v) = None.
Proof.
  intros H. pose proof (not_blank_strip v (validate_address_not_blank v H)) as Hne.
  rewrite <- H. unfold validate_address.
  now rewrite (truthy_true _ Hne), (truthy_true _ (strip_not_empty v Hne)), strip_idem.
Qed.

Lemma validate_phone_strip v :
  validate_phone v = None -> validate_phone (strip v) = None.
Proof.
  intros H. pose proof (not_blank_strip v (validate_phone_not_blank v H)) as Hne.
  rewrite <- H. unfold validate_phone.
  now rewrite !sub_nondigit_length, digit_count_strip,
    (truthy_true _ Hne), (truthy_true _ (strip_not_empty v Hne)).
Qed.

Lemma validate_email_normalised e :
  validate_email e = None -> validate_email (lower (strip e)) = None.
Proof.
  intros H. apply validate_email_match in H.
  assert (Hs : email_shape (strip e)).
  { apply email_match_shape in H as [H | (e' & -> & H)].
    - now rewrite strip_email_shape.
    - now rewrite strip_email_shape_newline. }
  apply email_shape_lower in Hs.
  apply validate_email_of_match.
  - apply email_match_shape. now left.
  - now apply email_shape_not_empty.
Qed.

Lemma validate_date_of_birth_parses today s :
  validate_date_of_birth today s = None -> exists d, strptime_Ymd s = Some d.
Proof.
  unfold validate_date_of_birth. destruct (negb (truthy s)); [discriminate |].
  destruct (strptime_Ymd s) as [d|]; [eauto | discriminate].
Qed.

Lemma registration_errors_flashed today (f : gmap string string) c :
  flash_all (get_errors (snd (validate today (init f)))) "danger" c
  = {| session := session c;
       flashes := flashes c ++ map (fun e => (e, "danger")) (validate_errors today f) |}.
Proof.
  unfold validate, get_errors. simpl.
  rewrite <- (flash_all_session (validate_errors today f) "danger" c).
  rewrite <- flash_all_flashes. now destruct (flash_all _ _ c).
Qed.

(** [register] never changes the session, whatever the request: a new
    patient is not logged in.  A logged-in visitor is sent to the dashboard
    and the store is not touched; for an anonymous POST whose form does not
    validate, the store is not touched either and the flashed messages are
    the errors of the form, in order, each in the category [danger]. *)
Theorem register_leaves_session
    (persist : registration -> string -> list Patient -> option (list Patient))
    (today : date) (req : request) (db : list Patient) (c : ctx) :
  session (fst (fst (register persist today req db c))) = session c
  /\ (is_Some (session c !! "patient_id") ->
      register persist today req db c = (c, db, Redirect "dashboard"))
  /\ (session c !! "patient_id" = None ->
      method req = "POST" ->
      fst (validate today (init (form req))) = false ->
      register persist today req db c
      = ({| session := session c;
            flashes := flashes c
                       ++ map (fun e => (e, "danger"))
                            (validate_errors today (form req)) |},
         db, Render "register.html")).
Proof.
  split; [| split].
  - unfold register. destruct (session c !! "patient_id"); [reflexivity |].
    destruct (String.eqb (method req) "POST"); [| reflexivity].
    destruct (validate today (init (form req))) as [ok frm] eqn:Ev.
    destruct ok; [| simpl; apply flash_all_session].
    destruct (form req !! "email") as [raw|]; [| reflexivity].
    destruct (query_first_by_email db raw); [reflexivity |].
    cbv zeta.
    destruct (match registration_of_form (form req), form req !! "password" with
              | Some reg, Some password => persist reg password db
              | _, _ => None
              end); reflexivity.
  - intros [v Hv]. unfold register. now rewrite Hv.
  - intros Hs Hm Hv. unfold register. rewrite Hs, Hm. simpl String.eqb. cbv iota.
    pose proof (registration_errors_flashed today (form req) c) as Hf.
    destruct (validate today (init (form req))) as [ok frm]. simpl in Hv. subst ok.
    simpl in Hf. now rewrite Hf.
Qed.

(** [register_leaves_session] for an anonymous POST of an empty form to an
    empty store. *)
Lemma register_leaves_session_witness :
  snd (register (fun _ _ db => Some db) (mkdate 2026 11 3)
         {| method := "POST"; form := ∅ |} [] {| session := ∅; flashes := [] |})
  = Render "register.html"
  /\ length (flashes (fst (fst (register (fun _ _ db => Some db) (mkdate 2026 11 3)
                                  {| method := "POST"; form := ∅ |} []
                                  {| session := ∅; flashes := [] |}))))
     = 11.
Proof.
  destruct (register_leaves_session (fun _ _ db => Some db) (mkdate 2026 11 3)
              {| method := "POST"; form := ∅ |} [] {| session := ∅; flashes := [] |})
    as (_ & _ & H).
  rewrite H; [split; reflexivity | vm_compute; reflexivity | reflexivity
              | vm_compute; reflexivity].
Defined.

End RegisterFacts.

(** ** Registration: the record handed to the store *)
Section RegisterRecord.
Import PyStr Re Vocab FormVocab Datetime DateVocab FormValidator RegistrationForm.
Import RegistrationVocab Routes RouteVocab Views ViewVocab Samples.

(** For an anonymous POST whose form validates, [register] looks the email
    up as it was typed; when no record has it, the record handed to the store
    holds the submitted values stripped (the email also lower-cased, the
    gender as typed, the date parsed), and these stored values pass the same
    validators as the submitted ones.  The answer is the success notice and
    a redirect to the login page when the store accepts the record, and the
    error notice with the registration page, the store unchanged, when it
    raises. *)
Theorem register_hands_over_valid_record
    (persist : registration -> string -> list Patient -> option (list Patient))
    (today : date) (req : request) (db : list Patient) (c : ctx) :
  session c !! "patient_id" = None ->
  method req = "POST" ->
  fst (validate today (init (form req))) = true ->
  exists raw_email password reg,
    form req !! "email" = Some raw_email
    /\ form req !! "password" = Some password
    /\ registration_of_form (form req) = Some reg
    /\ r_email reg = lower (strip raw_email)
    /\ validate_name (r_first_name reg) "First name" = None
    /\ validate_name (r_last_name reg) "Last name" = None
    /\ validate_email (r_email reg) = None
    /\ validate_phone (r_phone reg) = None
    /\ valid_date (r_date_of_birth reg)
    /\ validate_gender (r_gender reg) = None
    /\ validate_address (r_address reg) = None
    /\ validate_name (r_emergency_contact_name reg) "Emergency contact name" = None
    /\ validate_phone (r_emergency_contact_phone reg) = None
    /\ validate_password password = None
    /\ register persist today req db c
       = match query_first_by_email db raw_email with
         | Some _ =>
             ({| session := session c;
                 flashes := flashes c
                   ++ [("An account with this email already exists. Please use a different email or log in.",
                        "danger")] |},
              db, Render "register.html")
         | None =>
             match persist reg password db with
             | Some db' =>
                 ({| session := session c;
                     flashes := flashes c
                       ++ [("Registration successful! Please log in with your credentials.",
                            "success")] |},
                  db', Redirect "login")
             | None =>
                 ({| session := session c;
                     flashes := flashes c
                       ++ [("An error occurred during registration. Please try again.",
                            "danger")] |},
                  db, Render "register.html")
             end
         end.
Proof.
  intros Hs Hm Hv.
  destruct (valid_fields_of_true today (form req) Hv)
    as (x1 & x2 & x3 & x4 & x5 & x6 & x7 & x8 & x9 & x10
        & K1 & K2 & K3 & K4 & K5 & K6 & K7 & K8 & K9 & K10 & K11
        & V1 & V2 & V3 & V4 & V5 & V6 & V7 & V8 & V9 & V10).
  destruct (validate_date_of_birth_parses today x5 V5) as [dob Hdob].
  exists x3, x10,
    (mkregistration (strip x1) (strip x2) (lower (strip x3)) (strip x4) dob x6
       (strip x7) (strip x8) (strip x9)).
  assert (Hreg : registration_of_form (form req)
                 = Some (mkregistration (strip x1) (strip x2) (lower (strip x3))
                           (strip x4) dob x6 (strip x7) (strip x8) (strip x9))).
  { unfold registration_of_form. now rewrite K1, K2, K3, K4, K5, K6, K7, K8, K9, Hdob. }
  simpl.
  assert (Hres : register persist today req db c
       = match query_first_by_email db x3 with
         | Some _ =>
             ({| session := session c;
                 flashes := flashes c
                   ++ [("An account with this email already exists. Please use a different email or log in.",
                        "danger")] |},
              db, Render "register.html")
         | None =>
             match persist (mkregistration (strip x1) (strip x2) (lower (strip x3))
                              (strip x4) dob x6 (strip x7) (strip x8) (strip x9))
                     x10 db with
             | Some db' =>
                 ({| session := session c;
                     flashes := flashes c
                       ++ [("Registration successful! Please log in with your credentials.",
                            "success")] |},
                  db', Redirect "login")
             | None =>
                 ({| session := session c;
                     flashes := flashes c
                       ++ [("An error occurred during registration. Please try again.",
                            "danger")] |},
                  db, Render "register.html")
             end
         end).
  { unfold register. rewrite Hs, Hm. simpl String.eqb. cbv iota.
    destruct (validate today (init (form req))) as [ok frm]. simpl in Hv. subst ok.
    rewrite K3. destruct (query_first_by_email db x3); [reflexivity |].
    rewrite Hreg, K10. cbv zeta.
    destruct (persist _ x10 db); reflexivity. }
  pose proof (validate_name_strip _ _ V1).
  pose proof (validate_name_strip _ _ V2).
  pose proof (validate_email_normalised _ V3).
  pose proof (validate_phone_strip _ V4).
  pose proof (proj1 (strptime_Some_text x5 dob Hdob)).
  pose proof (validate_address_strip _ V7).
  pose proof (validate_name_strip _ _ V8).
  pose proof (validate_phone_strip _ V9).
  simpl. repeat match goal with |- _ /\ _ => split end; solve [assumption | reflexivity].
Qed.

(** [register_hands_over_valid_record] for a valid registration with the
    email typed as [Ada@Example.org], while the sample store already holds
    [ada@example.org]: the lookup of the typed text finds nothing, and the
    record handed to the store carries [ada@example.org]. *)
Lemma register_hands_over_valid_record_witness :
  exists raw_email reg,
    <["confirm_password" := "ValidPass1!"]>
      (<["email" := "Ada@Example.org"]> mismatch_payload) !! "email" = Some raw_email
    /\ registration_of_form
         (<["confirm_password" := "ValidPass1!"]>
            (<["email" := "Ada@Example.org"]> mismatch_payload)) = Some reg
    /\ query_first_by_email sample_db raw_email = None
    /\ r_email reg = "ada@example.org"
    /\ snd (register (fun _ _ _ => None) (mkdate 2026 11 3)
              {| method := "POST";
                 form := <["confirm_password" := "ValidPass1!"]>
                           (<["email" := "Ada@Example.org"]> mismatch_payload) |}
              sample_db {| session := ∅; flashes := [] |})
       = Render "register.html".
Proof.
  destruct (register_hands_over_valid_record (fun _ _ _ => None) (mkdate 2026 11 3)
              {| method := "POST";
                 form := <["confirm_password" := "ValidPass1!"]>
                           (<["email" := "Ada@Example.org"]> mismatch_payload) |}
              sample_db {| session := ∅; flashes := [] |})
    as (raw & pw & reg & Hraw & Hpw & Hreg & Hem & _ & _ & _ & _ & _ & _ & _ & _ & _ & _ & Hr);
    [vm_compute; reflexivity | reflexivity | vm_compute; reflexivity |].
  exists raw, reg. simpl form in Hraw, Hreg.
  assert (raw = "Ada@Example.org") as -> by (vm_compute in Hraw; congruence).
  split; [exact Hraw |]. split; [exact Hreg |].
  split; [vm_compute; reflexivity |].
  split; [rewrite Hem; reflexivity |].
  rewrite Hr. reflexivity.
Defined.

End RegisterRecord.

(** ** Changing the password *)
Section ChangePasswordFacts.
Import PyStr Routes RouteVocab Views ViewVocab Samples.

(** What the decorated view shows is [login_required] applied to what the
    body shows. *)
Lemma change_password_decorated validate_new store_password now req db c :
  visible (change_password validate_new store_password now req db c)
  = login_required
      (fun (_ : unit) c0 =>
         visible (change_password_view validate_new store_password now req db c0))
      tt c.
Proof.
  unfold change_password, login_required.
  destruct (session c !! "patient_id"); reflexivity.
Qed.

Lemma not_given_false (f : gmap string string) k :
  not_given f k = false -> exists v, f !! k = Some v /\ v <> EmptyString.
Proof.
  unfold not_given. destruct (f !! k) as [v|]; [| discriminate].
  destruct v; [discriminate |]. intros _. eexists. split; [reflexivity | discriminate].
Qed.

(** [change_password] always answers with a redirect, to the profile page or
    to the login page.  The store it returns differs from the one it was
    given only if the session names a record of the store, the three
    password fields are given and not empty, the record's password check
    accepts the current password, the new password equals its confirmation
    and passes [Patient.validate_password], and the store accepted the
    change; and under these conditions the store returned is the one the
    change gave, with the success notice.  A wrong current password is
    reported before anything is said of the new one. *)
Theorem change_password_guards
    (validate_new : string -> bool * string)
    (store_password : instant -> Patient -> string -> list Patient -> option (list Patient))
    (now : instant) (req : request) (db : list Patient) (c : ctx) :
  (snd (change_password validate_new store_password now req db c) = Redirect "profile"
   \/ snd (change_password validate_new store_password now req db c) = Redirect "login")
  /\ (snd (fst (change_password validate_new store_password now req db c)) <> db ->
      exists key patient current new,
        session c !! "patient_id" = Some key
        /\ query_get db key = Some patient
        /\ form req !! "current_password" = Some current
        /\ current <> EmptyString
        /\ check_password patient current = true
        /\ form req !! "new_password" = Some new
        /\ form req !! "confirm_password" = Some new
        /\ new <> EmptyString
        /\ fst (validate_new new) = true
        /\ store_password now patient new db
           = Some (snd (fst (change_password validate_new store_password now req db c))))
  /\ (forall key patient current new db',
        session c !! "patient_id" = Some key ->
        query_get db key = Some patient ->
        form req !! "current_password" = Some current -> current <> EmptyString ->
        check_password patient current = true ->
        form req !! "new_password" = Some new -> new <> EmptyString ->
        form req !! "confirm_password" = Some new ->
        fst (validate_new new) = true ->
        store_password now patient new db = Some db' ->
        change_password validate_new store_password now req db c
        = ({| session := session c;
              flashes := flashes c ++ [("Password changed successfully!", "success")] |},
           db', Redirect "profile"))
  /\ (forall key patient current new confirm,
        session c !! "patient_id" = Some key ->
        query_get db key = Some patient ->
        form req !! "current_password" = Some current -> current <> EmptyString ->
        form req !! "new_password" = Some new -> new <> EmptyString ->
        form req !! "confirm_password" = Some confirm -> confirm <> EmptyString ->
        check_password patient current = false ->
        change_password validate_new store_password now req db c
        = ({| session := session c;
              flashes := flashes c ++ [("Current password is incorrect.", "danger")] |},
           db, Redirect "profile")).
Proof.
  unfold change_password, change_password_view.
  destruct (session c !! "patient_id") as [key|] eqn:Hk;
    [| simpl; split; [now right | split; [congruence | split; discriminate]]].
  destruct (query_get db key) as [patient|] eqn:Hq;
    [| simpl; split;
       [now right
       | split; [congruence
                | split; intros ? ? ? ? ? [= <-] ?; congruence]]].
  split; [| split; [| split]].
  - destruct (not_given (form req) "current_password") eqn:N1; [now left |].
    destruct (not_given (form req) "new_password") eqn:N2; [now left |].
    destruct (not_given (form req) "confirm_password") eqn:N3; [now left |].
    apply not_given_false in N1 as (v1 & -> & _).
    apply not_given_false in N2 as (v2 & -> & _).
    apply not_given_false in N3 as (v3 & -> & _). simpl.
    destruct (check_password patient v1); [| now left]. simpl.
    destruct (String.eqb v2 v3); [| now left]. simpl.
    destruct (validate_new v2) as [ok msg]. destruct ok; [| now left]. simpl.
    destruct (store_password now patient v2 db); now left.
  - destruct (not_given (form req) "current_password") eqn:N1; [simpl; congruence |].
    destruct (not_given (form req) "new_password") eqn:N2; [simpl; congruence |].
    destruct (not_given (form req) "confirm_password") eqn:N3; [simpl; congruence |].
    apply not_given_false in N1 as (v1 & E1 & Hne1).
    apply not_given_false in N2 as (v2 & E2 & Hne).
    apply not_given_false in N3 as (v3 & E3 & _). rewrite E1, E2, E3. simpl.
    destruct (check_password patient v1) eqn:Hc; [| simpl; congruence]. simpl.
    destruct (String.eqb v2 v3) eqn:He; [| simpl; congruence]. simpl.
    apply String.eqb_eq in He. subst v3.
    destruct (validate_new v2) as [ok msg] eqn:Hv. destruct ok; [| simpl; congruence].
    simpl.
    destruct (store_password now patient v2 db) as [db'|] eqn:Hst; [| simpl; congruence].
    simpl. intros _. exists key, patient, v1, v2. rewrite Hv. auto 10.
  - intros key' patient' current new db' [= <-] Hq' E1 H1 Hc E2 H2 E3 Hv Hst.
    rewrite Hq in Hq'. injection Hq' as <-.
    unfold not_given. rewrite E1, E2, E3.
    rewrite (truthy_true _ H1), (truthy_true _ H2). simpl.
    rewrite Hc, String.eqb_refl. simpl.
    destruct (validate_new new) as [ok msg]. simpl in Hv. subst ok. simpl.
    now rewrite Hst.
  - intros key' patient' current new confirm [= <-] Hq' E1 H1 E2 H2 E3 H3 Hc.
    rewrite Hq in Hq'. injection Hq' as <-.
    unfold not_given. rewrite E1, E2, E3.
    rewrite (truthy_true _ H1), (truthy_true _ H2), (truthy_true _ H3). simpl.
    now rewrite Hc.
Qed.

(** [change_password_guards] on the sample store, for patient 1 giving a
    wrong current password: the store is the one given. *)
Lemma change_password_guards_witness :
  change_password (fun _ => (true, EmptyString)) (fun _ _ _ _ => Some [])
    0%Z
    {| method := "POST";
       form := <["current_password" := "guess"]>
                 (<["new_password" := "a"]> (<["confirm_password" := "b"]> ∅)) |}
    sample_db {| session := <["patient_id" := VInt 1]> ∅; flashes := [] |}
  = ({| session := <["patient_id" := VInt 1]> ∅;
        flashes := [("Current password is incorrect.", "danger")] |},
     sample_db, Redirect "profile").
Proof.
  destruct (change_password_guards (fun _ => (true, EmptyString))
              (fun _ _ _ _ => Some []) 0%Z
              {| method := "POST";
                 form := <["current_password" := "guess"]>
                           (<["new_password" := "a"]> (<["confirm_password" := "b"]> ∅)) |}
              sample_db {| session := <["patient_id" := VInt 1]> ∅; flashes := [] |})
    as (_ & _ & _ & H).
  rewrite (H (VInt 1)
             (mkPatient 1 "ada@example.org" "Ada" "Ada Lovelace" true None
                (String.eqb "Secret#11"))
             "guess" "a" "b");
    first [reflexivity | discriminate | vm_compute; reflexivity].
Defined.

End ChangePasswordFacts.

(** ** Only login writes the patient identifier *)
Section IdentifierFacts.
Import PyStr Datetime Routes RouteVocab Views ViewVocab Samples.


Lemma keeps_id_flash m cat c c' :
  keeps_or_drops_id c c' -> keeps_or_drops_id c (flash m cat c').
Proof. intros H. exact H. Qed.

Lemma drops_id_clear c : keeps_or_drops_id c (session_clear c).
Proof. right. apply lookup_empty. Qed.


End IdentifierFacts.

(** ** The setup script *)
Section SetupFacts.
Import PyStr Datetime SetupLocal SetupVocab.

Lemma print_files t w : files (print t w) = files w.
Proof. reflexivity. Qed.





(** *** [str.replace] *)

Lemma prefix_append old b : String.prefix old (String.append old b) = true.
Proof.
  induction old as [|c old IH]; [now destruct b |].
  rewrite append_String. simpl. now destruct (Ascii.ascii_dec c c).
Qed.





Lemma prefix_split old t :
  String.prefix old t = true -> exists b, t = String.append old b.
Proof.
  revert t. induction old as [|x old IH]; intros t H.
  - now exists t.
  - destruct t as [|y t]; [discriminate |]. simpl in H.
    destruct (Ascii.ascii_dec x y) as [->|]; [| discriminate].
    destruct (IH _ H) as [b ->]. exists b. now rewrite append_String.
Qed.

Lemma occurs_iff old s :
  occurs old s = true <-> exists a b, s = String.append a (String.append old b).
Proof.
  split.
  - induction s as [|c s IH]; simpl; intros H.
    + destruct old; [| discriminate]. now exists EmptyString, EmptyString.
    + apply orb_true_iff in H as [H|H].
      * destruct (prefix_split old (String c s) H) as [b E]. exists EmptyString, b.
        now rewrite append_Empty.
      * destruct (IH H) as (a & b & ->). exists (String c a), b.
        now rewrite append_String.
  - intros (a & b & ->). induction a as [|c a IH].
    + rewrite append_Empty.
      assert (P := prefix_append old b).
      destruct (String.append old b); simpl; simpl in P; rewrite P; reflexivity.
    + rewrite append_String. simpl. rewrite IH. apply orb_true_r.
Qed.






Lemma write_then_read p content w q :
  files (write_file p content w) !! q
  = if decide (p = q) then Some content else files w !! q.
Proof.
  unfold write_file. simpl. destruct (decide (p = q)) as [->|].
  - now rewrite lookup_insert_eq.
  - now rewrite lookup_insert_ne.
Qed.

(** *** Text mode *)

Lemma occurs_cr_cons c rest :
  occurs (String cr EmptyString) (String c rest) = false ->
  Ascii.eqb c cr = false /\ occurs (String cr EmptyString) rest = false.
Proof.
  simpl occurs. intros H. apply orb_false_iff in H as [P O]. split; [| exact O].
  simpl in P. destruct (Ascii.ascii_dec cr c) as [<-|N].
  - destruct rest; discriminate.
  - apply Ascii.eqb_neq. congruence.
Qed.

Lemma read_without_cr s :
  occurs (String cr EmptyString) s = false -> universal_newlines s = s.
Proof.
  unfold universal_newlines. induction s as [|c s IH]; [reflexivity |].
  intros H. apply occurs_cr_cons in H as [C O]. simpl. rewrite C.
  rewrite andb_false_r. now rewrite IH.
Qed.






(** *** The steps that run a command *)






End SetupFacts.
